(** * Deep Search PDF Generator: the report pipeline and the PDF layout

    A shallow embedding of

    - [src/app/api/deep-search/route.ts]: [fetchSearchResults],
      [synthesizeContent] and the streaming [POST] handler, together with
      the page component ([handleDeepSearch], [handleGeneratePDF]) that
      calls it;
    - the PDF route ([POST] of the generate-pdf endpoint): the cursor
      [yPosition], [checkAndAddPage], [wrapText] and the four passes
      (cover, table of contents, sections, footers).

    Conventions.  A JavaScript string is a [string]: one [ascii] stands for
    one code unit.  A JavaScript number holding a length on the page is a
    rational ([Q]); page and array indices are [nat] or [Z].  What the
    runtime or a library provides (the HTTP client, the stream controller,
    jsPDF's text measurement) is an explicit parameter. *)

From Stdlib Require Import String Ascii List Bool Arith ZArith QArith Lia Lqa.
From Stdlib Require Import DecimalString Sorted.
Import ListNotations.

Local Close Scope Q_scope.
Local Open Scope nat_scope.
Local Open Scope list_scope.
Local Open Scope string_scope.

(* ================================================================= *)
(** ** The pieces of the JavaScript runtime the code relies on *)

Module JS.

(** [s.includes(w)]: [w] occurs in [s] as a contiguous run. *)
Fixpoint includes (s w : string) : bool :=
  String.prefix w s ||
  match s with
  | EmptyString => false
  | String _ s' => includes s' w
  end.

(** [s.split(' ')[0]]: the part of [s] before its first space. *)
Fixpoint firstWord (s : string) : string :=
  match s with
  | EmptyString => EmptyString
  | String c s' => if Ascii.eqb c " " then EmptyString else String c (firstWord s')
  end.

Fixpoint noSpace (s : string) : bool :=
  match s with
  | EmptyString => true
  | String c s' => negb (Ascii.eqb c " ") && noSpace s'
  end.

(** [xs.findIndex(p)]: the index of the first element satisfying [p],
    and [-1] when there is none. *)
Fixpoint findIndexFrom {A} (p : A -> bool) (xs : list A) (i : Z) : Z :=
  match xs with
  | [] => (-1)%Z
  | x :: xs' => if p x then i else findIndexFrom p xs' (i + 1)%Z
  end.

Definition findIndex {A} (p : A -> bool) (xs : list A) : Z :=
  findIndexFrom p xs 0%Z.

(** [xs[i]] for a number [i]: [undefined] ([None]) outside the array. *)
Definition at_ {A} (xs : list A) (i : Z) : option A :=
  if (i <? 0)%Z then None else nth_error xs (Z.to_nat i).

(** [a || b] on a possibly undefined string: [b] when [a] is undefined
    or empty. *)
Definition orElse (a : option string) (b : string) : string :=
  match a with
  | Some EmptyString | None => b
  | Some s => s
  end.

Definition isDigit (c : ascii) : bool :=
  let n := nat_of_ascii c in ((48 <=? n) && (n <=? 57))%nat.
Definition isUpper (c : ascii) : bool :=
  let n := nat_of_ascii c in ((65 <=? n) && (n <=? 90))%nat.
Definition isLower (c : ascii) : bool :=
  let n := nat_of_ascii c in ((97 <=? n) && (n <=? 122))%nat.

(** The class [[a-z0-9]] under the flag [i]. *)
Definition isAlnum (c : ascii) : bool := isDigit c || isUpper c || isLower c.

Definition lowerChar (c : ascii) : ascii :=
  if isUpper c then ascii_of_nat (nat_of_ascii c + 32) else c.

Fixpoint mapChars (f : ascii -> ascii) (s : string) : string :=
  match s with
  | EmptyString => EmptyString
  | String c s' => String (f c) (mapChars f s')
  end.

(** [s.toLowerCase()] for a string of code units below 128, where
    lower-casing moves the letters A-Z and nothing else.  The handlers
    apply it after the replacement, to strings of ASCII letters, digits
    and underscores only. *)
Definition toLowerCase (s : string) : string := mapChars lowerChar s.

(** A code unit below 128. *)
Definition isAscii (c : ascii) : bool := (nat_of_ascii c <? 128)%nat.

(** White space and line terminators among the code units below 256. *)
Definition isSpace (c : ascii) : bool :=
  let n := nat_of_ascii c in
  (((9 <=? n) && (n <=? 13)) || (n =? 32) || (n =? 160))%nat.

Fixpoint trimStart (s : string) : string :=
  match s with
  | EmptyString => EmptyString
  | String c s' => if isSpace c then trimStart s' else s
  end.

Fixpoint trimEnd (s : string) : string :=
  match s with
  | EmptyString => EmptyString
  | String c s' =>
      match trimEnd s' with
      | EmptyString => if isSpace c then EmptyString else String c EmptyString
      | t => String c t
      end
  end.

(** [s.trim()] *)
Definition trim (s : string) : string := trimEnd (trimStart s).

(** [xs.forEach((x, index) => f)] threading the state the callback
    updates. *)
Fixpoint forEachFrom {A St} (f : A -> nat -> St -> St) (xs : list A) (i : nat) (st : St) : St :=
  match xs with
  | [] => st
  | x :: rest => forEachFrom f rest (S i) (f x i st)
  end.

Definition forEach {A St} (f : A -> nat -> St -> St) (xs : list A) (st : St) : St :=
  forEachFrom f xs 0 st.

(** The decimal text of an index, as a template literal renders it. *)
Definition ofNat (n : nat) : string := NilZero.string_of_uint (Nat.to_uint n).

End JS.

(* ================================================================= *)
(** ** Content synthesis (route.ts, [synthesizeContent]) *)

Module Synth.

(** The object literal [perspectives], in the order its keys are
    written; every value is a template literal over [topic]. *)
Definition perspectives (topic : string) : list (string * string) :=
  [ ("overview",
     "This section provides a comprehensive overview of " ++ topic ++
     ". The topic encompasses various important aspects including fundamental concepts, key principles, and current applications. Understanding these foundational elements is crucial for gaining a complete perspective on "
     ++ topic ++ ".");
    ("history",
     "The historical development of " ++ topic ++
     " has been marked by significant milestones and evolutionary changes. From its early conceptualization to modern implementations, "
     ++ topic ++
     " has undergone substantial transformation. Key historical events and pioneering contributions have shaped its current state and continue to influence future developments.");
    ("current_trends",
     "Current trends in " ++ topic ++
     " reflect the dynamic nature of this field. Recent developments show increasing focus on innovation, efficiency, and practical applications. Modern approaches incorporate advanced methodologies and technologies, demonstrating the field's continuous evolution and adaptation to contemporary challenges.");
    ("applications",
     "The practical applications of " ++ topic ++
     " span across multiple domains and industries. Real-world implementations demonstrate its versatility and impact. From theoretical frameworks to concrete use cases, "
     ++ topic ++
     " provides valuable solutions to various challenges, showing measurable benefits and outcomes in different contexts.");
    ("challenges",
     "Like any significant field, " ++ topic ++
     " faces several challenges and considerations. These include technical limitations, resource constraints, and implementation barriers. Understanding these challenges is essential for developing effective strategies and solutions. Ongoing research and development efforts aim to address these obstacles systematically.");
    ("future",
     "The future outlook for " ++ topic ++
     " appears promising with numerous opportunities for advancement. Emerging technologies and innovative approaches suggest potential breakthroughs. Anticipated developments include enhanced capabilities, broader applications, and more sophisticated methodologies that could transform the landscape of "
     ++ topic ++ ".");
    ("best_practices",
     "Best practices in " ++ topic ++
     " have been established through extensive research and practical experience. These guidelines help ensure optimal outcomes and efficient implementation. Following proven methodologies, maintaining quality standards, and adhering to industry recommendations are crucial for success in this field.");
    ("case_studies",
     "Examining real-world case studies of " ++ topic ++
     " provides valuable insights into practical implementation. Successful examples demonstrate effective strategies and approaches. These cases illustrate both achievements and lessons learned, offering practical guidance for similar initiatives and highlighting key success factors.")
  ].

Definition queries : list string :=
  [ "overview and introduction";
    "historical development";
    "current trends";
    "practical applications";
    "challenges and limitations";
    "future prospects";
    "best practices";
    "case studies and examples" ].

(** [perspectives[key]]; [undefined] is [None]. *)
Fixpoint get (key : string) (obj : list (string * string)) : option string :=
  match obj with
  | [] => None
  | (k, v) :: rest => if String.eqb k key then Some v else get key rest
  end.

(** [Object.keys(perspectives)] *)
Definition keys (obj : list (string * string)) : list string := map fst obj.

Definition index (query : string) : Z :=
  JS.findIndex (fun q => JS.includes query (JS.firstWord q)) queries.

Definition key (topic query : string) : string :=
  JS.orElse (JS.at_ (keys (perspectives topic)) (index query)) "overview".

(** [perspectives[key]]: [key] is one of the object's own keys (lemma
    [synthesizeContent_get] below), so the value is a string; the
    [undefined] of a missing key would print as such. *)
Definition synthesizeContent (topic query : string) : string :=
  match get (key topic query) (perspectives topic) with
  | Some text => text
  | None => "undefined"
  end.

(** The first words of [queries], which [index] looks for. *)
Definition keywords : list string := map JS.firstWord queries.

(** The template the object [perspectives] holds for a category. *)
Definition template (category topic : string) : option string :=
  get category (perspectives topic).

End Synth.

(* ================================================================= *)
(** ** The stage catalog (route.ts, [searchQueries] in [POST]) *)

Record SearchQuery := mkSearchQuery { query : string; perspective : string }.

Definition searchQueries (topic : string) : list SearchQuery :=
  [ mkSearchQuery (topic ++ " overview and introduction") "Overview & Fundamentals";
    mkSearchQuery (topic ++ " historical development") "Historical Context";
    mkSearchQuery (topic ++ " current trends and innovations") "Current Trends";
    mkSearchQuery (topic ++ " practical applications") "Practical Applications";
    mkSearchQuery (topic ++ " challenges and limitations") "Challenges & Considerations";
    mkSearchQuery (topic ++ " future prospects") "Future Outlook";
    mkSearchQuery (topic ++ " best practices") "Best Practices";
    mkSearchQuery (topic ++ " case studies and examples") "Case Studies" ].

(** The semantic category of each stage, in catalog order. *)
Definition categories : list string :=
  [ "overview"; "history"; "current_trends"; "applications";
    "challenges"; "future"; "best_practices"; "case_studies" ].

(* ================================================================= *)
(** ** The download name (generate-pdf [POST], and [handleGeneratePDF]) *)

Module Filename.

(** [topic.replace(/[^a-z0-9]/gi, '_')]: the pattern has no quantifier,
    so each code unit outside the class is one match. *)
Definition replaceNonAlnum (s : string) : string :=
  JS.mapChars (fun c => if JS.isAlnum c then c else "_"%char) s.

Definition suggestedFilename (topic : string) : string :=
  JS.toLowerCase (replaceNonAlnum topic) ++ "_report.pdf".

(** The derivation in the specification's words, for comparison: the
    topic lower-cased, and every maximal run of characters other than
    letters and digits replaced by a single separator.  [inRun] tells
    whether the previous character belonged to such a run. *)
Fixpoint collapseRuns (s : string) (inRun : bool) : string :=
  match s with
  | EmptyString => EmptyString
  | String c s' =>
      if JS.isAlnum c then String c (collapseRuns s' false)
      else if inRun then collapseRuns s' true
      else String "_" (collapseRuns s' true)
  end.

Definition specFilename (topic : string) : string :=
  collapseRuns (JS.toLowerCase topic) false ++ "_report.pdf".

(** What one character of the topic becomes in the file name. *)
Definition fileChar (c : ascii) : ascii :=
  if JS.isAlnum c then JS.lowerChar c else "_"%char.

(** A lower-case letter, a digit or the separator. *)
Definition plain (c : ascii) : bool :=
  JS.isLower c || JS.isDigit c || Ascii.eqb c "_".

(** A string of [n] separators. *)
Fixpoint separators (n : nat) : string :=
  match n with
  | O => EmptyString
  | S k => String "_" (separators k)
  end.

Fixpoint allChars (p : ascii -> bool) (s : string) : bool :=
  match s with
  | EmptyString => true
  | String c s' => p c && allChars p s'
  end.

End Filename.


(* ================================================================= *)
(** ** Exceptions and request bodies *)

Inductive Exn :=
| SyntaxError      (* the body is not JSON *)
| TypeError        (* a conversion, a destructuring or a controller call fails *)
| URIError         (* encodeURIComponent on a malformed string *)
| FetchError.      (* the network call rejects *)

(** The outcome of an expression that may throw. *)
Inductive Outcome (A : Type) :=
| Ok (a : A)
| Throw (e : Exn).
Arguments Ok {A} a.
Arguments Throw {A} e.

Definition bindO {A B} (m : Outcome A) (k : A -> Outcome B) : Outcome B :=
  match m with
  | Ok a => k a
  | Throw e => Throw e
  end.

Declare Scope outcome_scope.
Delimit Scope outcome_scope with outcome.
Notation "x <- m ;; k" := (bindO m (fun x => k))
  (at level 100, m at next level, right associativity) : outcome_scope.

(** A value that [JSON.parse] can produce.  A number carries the text
    that converting it to a string gives. *)
#[local] Set Warnings "-register-all".
Inductive json :=
| JNull
| JBool (b : bool)
| JNum (text : string)
| JStr (s : string)
| JArr (items : list json)
| JObj (fields : list (string * json)).
#[local] Set Warnings "register-all".

Module Json.

(** An own property of a parsed object; of a repeated key the last
    occurrence counts. *)
Fixpoint field (name : string) (fields : list (string * json)) : option json :=
  match fields with
  | [] => None
  | (k, v) :: rest =>
      match field name rest with
      | Some v' => Some v'
      | None => if String.eqb k name then Some v else None
      end
  end.

(** [`${v}`]: the conversion a template literal applies.  A parsed
    object whose own [toString] is not a function has no primitive
    value (the inherited [valueOf] returns the object itself); an array
    joins its items with commas, [null] items as the empty string. *)
Fixpoint toString (v : json) : Outcome string :=
  match v with
  | JNull => Ok "null"
  | JBool true => Ok "true"
  | JBool false => Ok "false"
  | JNum text => Ok text
  | JStr s => Ok s
  | JArr items =>
      (fix join (l : list json) : Outcome string :=
         match l with
         | [] => Ok ""
         | x :: rest =>
             let item := match x with JNull => Ok "" | _ => toString x end in
             match rest with
             | [] => item
             | _ => (a <- item ;; b <- join rest ;; Ok (a ++ "," ++ b))%outcome
             end
         end) items
  | JObj fields =>
      match field "toString" fields with
      | Some _ => Throw TypeError
      | None => Ok "[object Object]"
      end
  end.

(** [`${topic}`] where [topic] may be [undefined] ([None]). *)
Definition render (topic : option json) : Outcome string :=
  match topic with
  | None => Ok "undefined"
  | Some v => toString v
  end.

(** [const { topic } = value]: [null] cannot be destructured; a
    primitive or an array has no property [topic]. *)
Definition destructureTopic (value : json) : Outcome (option json) :=
  match value with
  | JNull => Throw TypeError
  | JObj fields => Ok (field "topic" fields)
  | _ => Ok None
  end.

End Json.

(* ================================================================= *)
(** ** The two patterns of [fetchSearchResults] *)

Module Html.

(** The longest prefix of [s] whose characters satisfy [p], and the
    rest of [s]. *)
Fixpoint span (p : ascii -> bool) (s : string) : string * string :=
  match s with
  | EmptyString => (EmptyString, EmptyString)
  | String c s' =>
      if p c then let (a, b) := span p s' in (String c a, b)
      else (EmptyString, s)
  end.

Fixpoint drop (n : nat) (s : string) : string :=
  match n, s with
  | O, _ => s
  | S _, EmptyString => EmptyString
  | S k, String _ s' => drop k s'
  end.

Definition notGt (c : ascii) : bool := negb (Ascii.eqb c ">").
Definition notLt (c : ascii) : bool := negb (Ascii.eqb c "<").

Definition quote : string := String (ascii_of_nat 34) EmptyString.

(** The attribute text [class="cls"]. *)
Definition classAttr (cls : string) : string := "class=" ++ quote ++ cls ++ quote.

(** A match of [<a[^>]*class="cls"[^>]*>([^<]+)<\/a>] that begins at
    the first character of [s].  Neither [[^>]*] nor the attribute can
    cross a [>], so the attribute lies before the first [>]; [[^<]+]
    must run up to the next [<], which has to open [</a>]. *)
Definition anchorAt (cls s : string) : option string :=
  if String.prefix "<a" s then
    let (attrs, r1) := span notGt (drop 2 s) in
    match r1 with
    | EmptyString => None
    | String _ r2 =>
        if JS.includes attrs (classAttr cls) then
          let (inner, r3) := span notLt r2 in
          match inner with
          | EmptyString => None
          | _ => if String.prefix "</a>" r3
                 then Some ("<a" ++ attrs ++ ">" ++ inner ++ "</a>")
                 else None
          end
        else None
    end
  else None.

(** [html.match(/.../g) || []]: every match from left to right, the
    search resuming after the end of the previous match.  [skip]
    counts the characters of the last match still to pass. *)
Fixpoint anchorsFrom (cls s : string) (skip : nat) : list string :=
  match s with
  | EmptyString => []
  | String _ s' =>
      match skip with
      | S k => anchorsFrom cls s' k
      | O =>
          match anchorAt cls s with
          | Some m => m :: anchorsFrom cls s' (String.length m - 1)
          | None => anchorsFrom cls s' 0
          end
      end
  end.

Definition anchors (cls html : string) : list string := anchorsFrom cls html 0.

(** [s.replace(/<[^>]*>/g, '')] *)
Fixpoint stripTagsFrom (s : string) (skip : nat) : string :=
  match s with
  | EmptyString => EmptyString
  | String c s' =>
      match skip with
      | S k => stripTagsFrom s' k
      | O =>
          if Ascii.eqb c "<" then
            let (inner, r) := span notGt s' in
            match r with
            | EmptyString => String c (stripTagsFrom s' 0)
            | String _ _ => stripTagsFrom s' (String.length inner + 1)
            end
          else String c (stripTagsFrom s' 0)
      end
  end.

Definition stripTags (s : string) : string := stripTagsFrom s 0.

End Html.

(* ================================================================= *)
(** ** route.ts: the deep-search endpoint *)

Record SearchResult := mkSearchResult
  { title : string; content : string; source : string }.

(** The payload of one [data:] frame before [JSON.stringify]. *)
Inductive Frame :=
| Progress (message : string)
| Result (result : SearchResult)
| Complete.

(** The field [type] of the payload. *)
Definition frameType (f : Frame) : string :=
  match f with
  | Progress _ => "progress"
  | Result _ => "result"
  | Complete => "complete"
  end.

(** What the handler does to the stream controller, in order.  A call
    that throws leaves no entry. *)
Inductive ControllerCall :=
| enqueue (f : Frame)
| close
| error (e : Exn).

Definition Trace := list ControllerCall.

Record Response := mkResponse { ok : bool; text : Outcome string }.

(** Everything outside the handler: the URI encoder, the HTTP client
    (the outcome of the [k]-th call of a run, for its URL) and the
    consumer, who may cancel the stream: [readable n] tells whether the
    controller still accepts a call when [n] calls have been made. *)
Record World := mkWorld
  { encodeURIComponent : string -> Outcome string;
    fetch : nat -> string -> Outcome Response;
    readable : nat -> bool }.

Record Hit := mkHit { hitTitle : string; snippet : string }.

Module DeepSearch.

Import Synth.

Definition searchUrl (q : string) : string :=
  "https://html.duckduckgo.com/html/?q=" ++ q.

(** [snippetMatches[i]?.replace(/<[^>]*>/g, '').trim() || ''] *)
Definition snippetAt (snippetMatches : list string) (i : nat) : string :=
  JS.orElse (option_map (fun m => JS.trim (Html.stripTags m)) (nth_error snippetMatches i)) "".

(** The body of the [for] loop, for [i] below
    [Math.min(titleMatches.length, 3)]. *)
Definition collect (titleMatches snippetMatches : list string) : list Hit :=
  map (fun i => mkHit (JS.trim (Html.stripTags (nth i titleMatches "")))
                      (snippetAt snippetMatches i))
      (seq 0 (Nat.min (List.length titleMatches) 3)).

(** The [try] block: [Some results] when it returns from inside, [None]
    when control falls out of it. *)
Definition searchAttempt (w : World) (k : nat) (query : string)
  : Outcome (option (list Hit)) :=
  (q <- encodeURIComponent w query ;;
   response <- fetch w k (searchUrl q) ;;
   if ok response then
     html <- text response ;;
     let titleMatches := Html.anchors "result__a" html in
     let snippetMatches := Html.anchors "result__snippet" html in
     let results := collect titleMatches snippetMatches in
     if (0 <? List.length results)%nat then Ok (Some results) else Ok None
   else Ok None)%outcome.

Definition fetchSearchResults (w : World) (k : nat) (query : string)
  : Outcome (list Hit) :=
  match searchAttempt w k query with
  | Ok (Some results) => Ok results
  | Ok None => Ok []
  | Throw _ => Ok []          (* catch: console.error *)
  end.

(** The handler's effects: a computation that may throw, over the
    trace of controller calls made so far. *)
Definition Eff (A : Type) : Type := Trace -> Outcome A * Trace.

Definition ret {A} (a : A) : Eff A := fun tr => (Ok a, tr).

Definition bind {A B} (m : Eff A) (k : A -> Eff B) : Eff B :=
  fun tr =>
    match m tr with
    | (Ok a, tr') => k a tr'
    | (Throw e, tr') => (Throw e, tr')
    end.

Definition lift {A} (o : Outcome A) : Eff A := fun tr => (o, tr).

(** A controller call: it throws once the stream is no longer readable. *)
Definition call (w : World) (c : ControllerCall) : Eff unit :=
  fun tr =>
    if readable w (List.length tr) then (Ok tt, (tr ++ [c])%list)
    else (Throw TypeError, tr).

Declare Scope eff_scope.
Delimit Scope eff_scope with eff.
Notation "x <- m ;; k" := (bind m (fun x => k))
  (at level 100, m at next level, right associativity) : eff_scope.
Notation "m ;; k" := (bind m (fun _ => k))
  (at level 100, right associativity) : eff_scope.

Definition progressMessage (q : SearchQuery) (i n : nat) : string :=
  "Searching: " ++ perspective q ++ " (" ++ JS.ofNat (i + 1) ++ "/" ++ JS.ofNat n ++ ")...".

Definition resultOf (topic : string) (q : SearchQuery) : SearchResult :=
  mkSearchResult (perspective q)
                 (synthesizeContent topic (query q))
                 ("Deep Research Analysis - " ++ perspective q).

(** The [for] loop from index [i] on, [qs] being the stages left and
    [n] the length of the catalog.  The pause before a result reaches
    nothing the handler writes. *)
Fixpoint stages (w : World) (topic : string) (qs : list SearchQuery) (i n : nat)
  : Eff unit :=
  match qs with
  | [] => ret tt
  | q :: rest =>
      (call w (enqueue (Progress (progressMessage q i n))) ;;
       _ <- lift (fetchSearchResults w i (query q)) ;;
       call w (enqueue (Result (resultOf topic q))) ;;
       stages w topic rest (i + 1) n)%eff
  end.

(** The [try] block of [start]. *)
Definition attempt (w : World) (topic : option json) : Eff unit :=
  (t <- lift (Json.render topic) ;;
   let qs := searchQueries t in
   stages w t qs 0 (List.length qs) ;;
   call w (enqueue Complete) ;;
   call w close)%eff.

(** [start(controller)]: the trace the stream ends with. *)
Definition start (w : World) (topic : option json) : Trace :=
  match attempt w topic [] with
  | (Ok _, tr) => tr
  | (Throw e, tr) => (tr ++ [error e])%list    (* catch: controller.error *)
  end.

(** [POST]: [body] is the parsed request body, [None] when it is not
    JSON.  Reading it happens before the stream exists. *)
Definition POST (w : World) (body : option json) : Outcome Trace :=
  (value <- match body with Some v => Ok v | None => Throw SyntaxError end ;;
   topic <- Json.destructureTopic value ;;
   Ok (start w topic))%outcome.

(** The frames of the stages from index [i] on, when nothing stops
    the loop. *)
Fixpoint stageFrames (topic : string) (qs : list SearchQuery) (i n : nat) : list Frame :=
  match qs with
  | [] => []
  | q :: rest =>
      Progress (progressMessage q i n) :: Result (resultOf topic q)
        :: stageFrames topic rest (i + 1) n
  end.

(** All the frames of an undisturbed run on the topic text [t]. *)
Definition allFrames (t : string) : list Frame :=
  (stageFrames t (searchQueries t) 0 (List.length (searchQueries t)) ++ [Complete])%list.

(** The controller calls the [try] block goes through, in order. *)
Definition script (t : string) : list ControllerCall :=
  (map enqueue (allFrames t) ++ [close])%list.

(** Making the calls of a list one after the other, up to the first
    that throws. *)
Fixpoint perform (w : World) (calls : list ControllerCall) : Eff unit :=
  match calls with
  | [] => ret tt
  | c :: rest => (call w c ;; perform w rest)%eff
  end.

(** The frames a trace has put on the stream. *)
Fixpoint frames (tr : Trace) : list Frame :=
  match tr with
  | [] => []
  | enqueue f :: rest => f :: frames rest
  | _ :: rest => frames rest
  end.

(** How many frames carry a given [type]. *)
Definition countType (ty : string) (fs : list Frame) : nat :=
  List.length (filter (fun f => String.eqb (frameType f) ty) fs).

(** The blocks of its [result] frames. *)
Fixpoint results (fs : list Frame) : list SearchResult :=
  match fs with
  | [] => []
  | Result r :: rest => r :: results rest
  | _ :: rest => results rest
  end.

(** The state of the [ReadableStream] behind the controller. *)
Inductive StreamState :=
| StreamReadable
| StreamClosed
| StreamErrored (e : Exn).

(** What the call number [n] (from 0) does to the stream.  A readable
    stream whose controller refuses a call has been cancelled by the
    consumer, which closed it.  On a readable stream [enqueue] adds a
    chunk, [close] closes it (once the chunks queued are read) and
    [error] errors it; on a stream that is closed or errored,
    [controller.error] changes nothing. *)
Definition afterCall (w : World) (n : nat) (s : StreamState) (c : ControllerCall)
  : StreamState :=
  match s with
  | StreamReadable =>
      if readable w n then
        match c with
        | enqueue _ => StreamReadable
        | close => StreamClosed
        | error e => StreamErrored e
        end
      else StreamClosed
  | _ => s
  end.

Fixpoint stateFrom (w : World) (n : nat) (s : StreamState) (tr : Trace) : StreamState :=
  match tr with
  | [] => s
  | c :: rest => stateFrom w (S n) (afterCall w n s c) rest
  end.

(** The state the calls [tr] of a run leave the stream in. *)
Definition streamState (w : World) (tr : Trace) : StreamState :=
  stateFrom w 0 StreamReadable tr.

End DeepSearch.

(* ================================================================= *)
(** ** page.tsx: the page that calls the endpoints *)

Module Page.

(** [handleDeepSearch]: [None] when the handler returns before any
    request is made; otherwise the request it sends. *)
Definition handleDeepSearch (w : World) (topic : string) : option (Outcome Trace) :=
  if String.eqb (JS.trim topic) "" then None
  else Some (DeepSearch.POST w (Some (JObj [("topic", JStr topic)]))).

End Page.

(* ================================================================= *)
(** ** The generate-pdf endpoint: pages, cursor and the four passes *)

Inductive Align := AlignLeft | AlignCenter.

(** What [doc.rect], [doc.text], [doc.textWithLink] and [doc.line] put on
    a page.  Colours and fonts change no position and are left out. *)
Inductive DrawOp :=
| Rect (x y w h : Q)
| Text (s : string) (x y : Q) (align : Align)
| TextWithLink (s : string) (x y : Q) (pageNumber : nat)
| Line (x1 y1 x2 y2 : Q).

Definition Page := list DrawOp.

(** The jsPDF document (its pages and the page being drawn on, counted
    from 1) together with the handler's own [yPosition]. *)
Record Layout := mkLayout
  { pages : list Page; current : nat; yPosition : Q }.

Module Pdf.

(** Apply [f] to the page at position [i] (from 0). *)
Fixpoint onPage (i : nat) (f : Page -> Page) (ps : list Page) : list Page :=
  match ps, i with
  | [], _ => []
  | p :: rest, O => f p :: rest
  | p :: rest, S k => p :: onPage k f rest
  end.

(** [new jsPDF(...)]: one blank page, which is the current one. *)
Definition blank (y : Q) : Layout := mkLayout [[]] 1 y.

(** [doc.addPage()]: a blank page at the end becomes the current one. *)
Definition addPage (st : Layout) : Layout :=
  mkLayout (pages st ++ [[]])%list (List.length (pages st) + 1) (yPosition st).

(** [doc.setPage(i)] *)
Definition setPage (i : nat) (st : Layout) : Layout :=
  if ((1 <=? i) && (i <=? List.length (pages st)))%nat
  then mkLayout (pages st) i (yPosition st)
  else st.

(** Any drawing call: it lands on the current page. *)
Definition draw (op : DrawOp) (st : Layout) : Layout :=
  mkLayout (onPage (current st - 1) (fun p => (p ++ [op])%list) (pages st))
           (current st) (yPosition st).

(** [doc.getNumberOfPages()] *)
Definition getNumberOfPages (st : Layout) : nat := List.length (pages st).

(** The numbers (from 1) of the pages that show the text [s]. *)
Definition isText (s : string) (op : DrawOp) : bool :=
  match op with
  | Text t _ _ _ => String.eqb t s
  | _ => false
  end.

Fixpoint pagesShowingFrom (s : string) (ps : list Page) (i : nat) : list nat :=
  match ps with
  | [] => []
  | p :: rest =>
      if existsb (isText s) p then i :: pagesShowingFrom s rest (S i)
      else pagesShowingFrom s rest (S i)
  end.

Definition pagesShowing (s : string) (st : Layout) : list nat :=
  pagesShowingFrom s (pages st) 1.

(** The links of a document, in page order: text and target page. *)
Definition linksOn (p : Page) : list (string * nat) :=
  flat_map (fun op => match op with
                      | TextWithLink s _ _ n => [(s, n)]
                      | _ => []
                      end) p.

Definition links (st : Layout) : list (string * nat) :=
  flat_map linksOn (pages st).

(** An assignment to [yPosition]. *)
Definition setY (y : Q) (st : Layout) : Layout :=
  mkLayout (pages st) (current st) y.

(** [a > b] on numbers. *)
Definition gtb (a b : Q) : bool := negb (Qle_bool a b).

End Pdf.

Module GeneratePdf.

Import Pdf.
Local Open Scope Q_scope.

Section Handler.

(** [doc.internal.pageSize] *)
Variables pageWidth pageHeight : Q.
(** [doc.splitTextToSize(text, maxWidth)] at the font size just set *)
Variable splitTextToSize : Q -> string -> Q -> list string.
(** [doc.getTextWidth(line)] in the cover's font *)
Variable getTextWidth : string -> Q.
(** [topic.toUpperCase()] *)
Variable toUpperCase : string -> string.
(** [new Date().toLocaleDateString('en-US', ...)] *)
Variable currentDate : string.

Definition margin : Q := 20.
Definition contentWidth : Q := pageWidth - 2 * margin.

Definition checkAndAddPage (requiredSpace : Q) (st : Layout) : bool * Layout :=
  if gtb (yPosition st + requiredSpace) (pageHeight - margin)
  then (true, setY margin (addPage st))
  else (false, st).

Definition wrapText (text : string) (maxWidth fontSize : Q) : list string :=
  splitTextToSize fontSize text maxWidth.

(** One line of text at the cursor, which then moves down by [step]. *)
Definition lineAtCursor (requiredSpace step : Q) (line : string) (st : Layout) : Layout :=
  let st := snd (checkAndAddPage requiredSpace st) in
  let st := draw (Text line margin (yPosition st) AlignLeft) st in
  setY (yPosition st + step) st.

(** The cover, drawn on the first page. *)
Definition cover (topic : string) (st : Layout) : Layout :=
  let st := draw (Rect 0 0 pageWidth pageHeight) st in
  let titleLines := wrapText (toUpperCase topic) (contentWidth - 20) 32 in
  let titleHeight := inject_Z (Z.of_nat (List.length titleLines)) * 12 in
  let titleY := (pageHeight - titleHeight) / 2 in
  let st := fst (JS.forEach
                   (fun line (_ : nat) '(st, titleY) =>
                      let textWidth := getTextWidth line in
                      (draw (Text line ((pageWidth - textWidth) / 2) titleY AlignLeft) st,
                       titleY + 12))
                   titleLines (st, titleY)) in
  let st := draw (Text "Deep Research Report" (pageWidth / 2) (pageHeight - 40) AlignCenter) st in
  draw (Text currentDate (pageWidth / 2) (pageHeight - 30) AlignCenter) st.

(** One entry of the table of contents. *)
Definition tocEntry (result : SearchResult) (index : nat) (st : Layout) : Layout :=
  let st := snd (checkAndAddPage 10 st) in
  let st := draw (TextWithLink (JS.ofNat (index + 1) ++ ". " ++ title result)
                               (margin + 5) (yPosition st) (index + 3)) st in
  setY (yPosition st + 7) st.

Definition tableOfContents (results : list SearchResult) (st : Layout) : Layout :=
  let st := setY margin (addPage st) in
  let st := draw (Text "Table of Contents" margin (yPosition st) AlignLeft) st in
  let st := setY (yPosition st + 15) st in
  JS.forEach tocEntry results st.

Definition sectionLabel (index : nat) : string := "SECTION " ++ JS.ofNat (index + 1).

(** One content section. *)
Definition section (result : SearchResult) (index : nat) (st : Layout) : Layout :=
  let st := setY margin (addPage st) in
  let st := draw (Text (sectionLabel index) margin (yPosition st) AlignLeft) st in
  let st := setY (yPosition st + 10) st in
  let titleLines := wrapText (title result) contentWidth 20 in
  let st := JS.forEach (fun line (_ : nat) => lineAtCursor 12 10 line) titleLines st in
  let st := setY (yPosition st + 5) st in
  let contentLines := wrapText (content result) contentWidth 11 in
  let st := JS.forEach (fun line (_ : nat) => lineAtCursor 8 6 line) contentLines st in
  let st := setY (yPosition st + 10) st in
  let st := snd (checkAndAddPage 10 st) in
  let st := draw (Text ("Source: " ++ source result) margin (yPosition st) AlignLeft) st in
  let st := setY (yPosition st + 5) st in
  draw (Line margin (yPosition st) (pageWidth - margin) (yPosition st)) st.

Definition footerText (topic : string) (i totalPages : nat) : string :=
  topic ++ " - Page " ++ JS.ofNat i ++ " of " ++ JS.ofNat totalPages.

Definition footerOp (topic : string) (i totalPages : nat) : DrawOp :=
  Text (footerText topic i totalPages) (pageWidth / 2) (pageHeight - 10) AlignCenter.

(** The links the table of contents is given, from entry [i] on. *)
Fixpoint expectedLinks (results : list SearchResult) (i : nat) : list (string * nat) :=
  match results with
  | [] => []
  | r :: rest =>
      (JS.ofNat (i + 1) ++ ". " ++ title r, (i + 3)%nat) :: expectedLinks rest (S i)
  end.

(** The body of the footer loop for page [i]. *)
Definition footer (topic : string) (totalPages i : nat) (st : Layout) : Layout :=
  let st := setPage i st in
  if (1 <? i)%nat then draw (footerOp topic i totalPages) st else st.

Definition footers (topic : string) (st : Layout) : Layout :=
  let totalPages := getNumberOfPages st in
  fold_left (fun st i => footer topic totalPages i st) (seq 1 totalPages) st.

(** Everything before the footer loop. *)
Definition body (topic : string) (results : list SearchResult) : Layout :=
  let st := blank margin in
  let st := cover topic st in
  let st := tableOfContents results st in
  JS.forEach section results st.

(** The document handed to [doc.output]. *)
Definition layout (topic : string) (results : list SearchResult) : Layout :=
  footers topic (body topic results).

(** [POST]: the document and the file name of the
    [Content-Disposition] header. *)
Definition POST (topic : string) (results : list SearchResult) : Layout * string :=
  (layout topic results, Filename.suggestedFilename topic).

(** *** What the properties below speak of *)

(** A height between the two margins. *)
Definition printable (y : Q) : Prop :=
  margin <= y /\ y <= pageHeight - margin.

(** A drawing that lies between the two margins. *)
Definition inBand (op : DrawOp) : Prop :=
  match op with
  | Rect _ y _ h => printable y /\ printable (y + h)
  | Text _ _ y _ => printable y
  | TextWithLink _ _ y _ => printable y
  | Line _ y1 _ y2 => printable y1 /\ printable y2
  end.

(** A drawing that cannot be mistaken for a footer: not a centred text
    at the footer's height. *)
Definition notFooter (op : DrawOp) : Prop :=
  match op with
  | Text _ _ y AlignCenter => ~ y == pageHeight - 10
  | _ => True
  end.

(** The state while the cover is drawn: one page, the current one. *)
Definition OnCover (st : Layout) : Prop :=
  current st = 1%nat /\ exists p, pages st = [p] /\ Forall notFooter p.

(** The page has room for the two margins and for the 5 mm between a
    source line and its rule. *)
Definition tall : Prop := 45 <= pageHeight.

(** The state between two steps of the passes that follow the cover:
    drawing goes to the last page, the cursor is not above the top
    margin, the first page is the cover [c], and, on a page that is
    [tall], all that the later pages hold lies between the margins. *)
Definition Writing (c : Page) (st : Layout) : Prop :=
  current st = List.length (pages st) /\
  (2 <= List.length (pages st))%nat /\
  margin <= yPosition st /\
  nth_error (pages st) 0 = Some c /\
  (tall -> forall j p, (1 <= j)%nat -> nth_error (pages st) j = Some p -> Forall inBand p).

(** Such a state with at least [n] pages. *)
Definition Onward (c : Page) (n : nat) (st : Layout) : Prop :=
  Writing c st /\ (n <= List.length (pages st))%nat.

End Handler.

End GeneratePdf.

(* ================================================================= *)
(** ** Sample collaborators, to run the handlers on concrete inputs *)

Module Sample.

(** The A4 page of jsPDF in millimetres: 595.28 by 841.89 points. *)
Definition pageWidth : Q := 15120112 # 72000.
Definition pageHeight : Q := 21384006 # 72000.

Definition lineFeed : ascii := ascii_of_nat 10.

(** Text split at its line feeds. *)
Fixpoint lines (s : string) : list string :=
  match s with
  | EmptyString => [EmptyString]
  | String c s' =>
      if Ascii.eqb c lineFeed then EmptyString :: lines s'
      else match lines s' with
           | [] => [String c EmptyString]
           | l :: rest => String c l :: rest
           end
  end.

(** A measurement under which every line between two line feeds fits
    the width. *)
Definition splitTextToSize (fontSize : Q) (text : string) (maxWidth : Q) : list string :=
  lines text.

Definition getTextWidth (line : string) : Q :=
  (inject_Z (Z.of_nat (String.length line)) * 6)%Q.

Definition upperChar (c : ascii) : ascii :=
  if JS.isLower c then ascii_of_nat (nat_of_ascii c - 32) else c.

Definition toUpperCase (s : string) : string := JS.mapChars upperChar s.

Definition currentDate : string := "November 1, 2026".

Definition layout : string -> list SearchResult -> Layout :=
  GeneratePdf.layout pageWidth pageHeight splitTextToSize getTextWidth toUpperCase currentDate.

(** [n] lines [x], joined by line feeds. *)
Fixpoint column (n : nat) : string :=
  match n with
  | O => EmptyString
  | S O => "x"
  | S k => String "x" (String lineFeed (column k))
  end.

(** [n] short results. *)
Definition shortResults (n : nat) : list SearchResult :=
  repeat (mkSearchResult "B" "y" "s") n.

(** A service that is down, and one that answers with a page of [n]
    identical hits; a consumer that stays and one that leaves after
    [n] controller calls. *)
Definition down : nat -> string -> Outcome Response :=
  fun _ _ => Throw FetchError.

Definition hitHtml : string :=
  "<a class=" ++ Html.quote ++ "result__a" ++ Html.quote ++ " href=x> A title </a>".

Fixpoint hitsHtml (n : nat) : string :=
  match n with
  | O => EmptyString
  | S k => hitHtml ++ hitsHtml k
  end.

Definition up (n : nat) : nat -> string -> Outcome Response :=
  fun _ _ => Ok (mkResponse true (Ok (hitsHtml n))).

Definition stays : nat -> bool := fun _ => true.
Definition leavesAfter (n : nat) : nat -> bool := fun k => (k <? n)%nat.

Definition world (service : nat -> string -> Outcome Response) (consumer : nat -> bool) : World :=
  mkWorld (fun s => Ok s) service consumer.

End Sample.

(* ================================================================= *)
(** ** Tags and white space, to speak of what the search returns *)

Module Markup.

(** [c] occurs in [s]. *)
Fixpoint occurs (c : ascii) (s : string) : bool :=
  match s with
  | EmptyString => false
  | String d s' => Ascii.eqb d c || occurs c s'
  end.

(** No [<] of [s] has a [>] after it: the pattern [<[^>]*>] matches
    nowhere in [s]. *)
Fixpoint tagFree (s : string) : bool :=
  match s with
  | EmptyString => true
  | String c s' => (negb (Ascii.eqb c "<") || negb (occurs ">" s')) && tagFree s'
  end.

(** [s] does not begin with white space. *)
Definition startsClean (s : string) : bool :=
  match s with
  | EmptyString => true
  | String c _ => negb (JS.isSpace c)
  end.

(** [s] does not end with white space. *)
Fixpoint endsClean (s : string) : bool :=
  match s with
  | EmptyString => true
  | String c EmptyString => negb (JS.isSpace c)
  | String _ s' => endsClean s'
  end.

(** Free of tags and of white space at either end. *)
Definition clean (s : string) : bool := tagFree s && startsClean s && endsClean s.

End Markup.

(* ================================================================= *)
(** ** Where sections start, and when everything fits *)

Module Outline.

Import Pdf GeneratePdf.
Local Open Scope Q_scope.

(** [st'] holds what [st] holds: every page of [st] is there, at the
    same place, possibly with more drawings after its own. *)
Definition Extends (st st' : Layout) : Prop :=
  forall k p, nth_error (pages st) k = Some p ->
              exists q, nth_error (pages st') k = Some (p ++ q)%list.

(** Every page has received a drawing call. *)
Definition DrawnOn (st : Layout) : Prop :=
  forall k p, nth_error (pages st) k = Some p -> p <> [].

(** Page [n] (from 1) begins with the drawing [op]. *)
Definition beginsWith (op : DrawOp) (n : nat) (st : Layout) : Prop :=
  exists rest, nth_error (pages st) (n - 1) = Some (op :: rest).

(** A number of lines, as a length on the page is counted. *)
Definition lineCount (lines : list string) : Q :=
  inject_Z (Z.of_nat (List.length lines)).

Section Handler.

Variables pageWidth pageHeight : Q.
Variable splitTextToSize : Q -> string -> Q -> list string.
Variable getTextWidth : string -> Q.
Variable toUpperCase : string -> string.
Variable currentDate : string.

(** The number of the page each section starts, read off the states
    the section pass goes through: a section starts the page that
    follows those there are. *)
Fixpoint sectionStartsFrom (results : list SearchResult) (i : nat) (st : Layout)
  : list nat :=
  match results with
  | [] => []
  | r :: rest =>
      S (List.length (pages st))
        :: sectionStartsFrom rest (S i)
             (section pageWidth pageHeight splitTextToSize r i st)
  end.

Definition sectionStarts (topic : string) (results : list SearchResult) : list nat :=
  sectionStartsFrom results 0
    (tableOfContents pageHeight results
       (cover pageWidth pageHeight splitTextToSize getTextWidth toUpperCase currentDate
          topic (blank margin))).

(** The label that opens section [index]. *)
Definition labelOp (index : nat) : DrawOp :=
  Text (sectionLabel index) margin margin AlignLeft.

(** The table of contents for [n] results stays on its page: the check
    before the last entry, at [35 + 7 (n - 1)], finds 10 mm. *)
Definition tocFits (n : nat) : Prop :=
  38 + 7 * inject_Z (Z.of_nat n) <= pageHeight - margin.

(** A section stays on its page: the check before the source line, at
    [45 + 10 t + 6 c] for [t] title lines and [c] body lines, finds
    10 mm. *)
Definition sectionFits (r : SearchResult) : Prop :=
  55 + 10 * lineCount (wrapText splitTextToSize (title r) (contentWidth pageWidth) 20)
     + 6 * lineCount (wrapText splitTextToSize (content r) (contentWidth pageWidth) 11)
  <= pageHeight - margin.

End Handler.

End Outline.

(* ================================================================= *)
(** ** The frames as text (route.ts) and the page's reader (page.tsx) *)

Module Wire.

(** The object [result] of a result payload. *)
Definition resultJson (r : SearchResult) : json :=
  JObj [("title", JStr (title r)); ("content", JStr (content r));
        ("source", JStr (source r))].

(** [progressData], [resultData] and [completeData]. *)
Definition payload (f : Frame) : json :=
  match f with
  | Progress m => JObj [("type", JStr "progress"); ("message", JStr m)]
  | Result r => JObj [("type", JStr "result"); ("result", resultJson r)]
  | Complete => JObj [("type", JStr "complete")]
  end.

Definition lineFeed : ascii := ascii_of_nat 10.

(** [`data: ${JSON.stringify(data)}\n\n`], for a [JSON.stringify]. *)
Definition frameText (stringify : json -> string) (f : Frame) : string :=
  "data: " ++ stringify (payload f) ++ String lineFeed (String lineFeed EmptyString).

(** The text of several frames in a row. *)
Fixpoint framesText (stringify : json -> string) (fs : list Frame) : string :=
  match fs with
  | [] => EmptyString
  | f :: rest => frameText stringify f ++ framesText stringify rest
  end.

End Wire.

(** The state of the page that [handleDeepSearch] sets: what
    [setProgress] was last given, [isSearching], and [searchResults]. *)
Record View := mkView
  { progress : option json; isSearching : bool; searchResults : list (option json) }.

(** What [fetch] and the body stream give the page: the call rejects,
    the status is not OK, the response has no body, or the reader
    yields [chunks] and then ends, or rejects when [broken]. *)
Inductive Fetched :=
| FetchRejected
| NotOk
| NoBody
| Body (chunks : list string) (broken : bool).

Module Reader.

(** [chunk.split('\n')] *)
Fixpoint split (sep : ascii) (s : string) : list string :=
  match s with
  | EmptyString => [EmptyString]
  | String c s' =>
      if Ascii.eqb c sep then EmptyString :: split sep s'
      else match split sep s' with
           | [] => [String c EmptyString]
           | l :: rest => String c l :: rest
           end
  end.

(** The body of the loop over the lines of a chunk.  [parse] is
    [JSON.parse], [None] when it throws; the inner [catch] swallows
    that, and the [TypeError] of reading [type] off [null]. *)
Definition readLine (parse : string -> option json) (line : string) (v : View) : View :=
  if String.prefix "data: " line then
    match parse (Html.drop 6 line) with
    | Some (JObj fields) =>
        match Json.field "type" fields with
        | Some (JStr ty) =>
            if String.eqb ty "progress" then
              mkView (Json.field "message" fields) (isSearching v) (searchResults v)
            else if String.eqb ty "result" then
              mkView (progress v) (isSearching v)
                     (searchResults v ++ [Json.field "result" fields])%list
            else if String.eqb ty "complete" then
              mkView (Some (JStr "Deep search complete!")) false (searchResults v)
            else v
        | _ => v
        end
    | _ => v
    end
  else v.

Definition readChunk (parse : string -> option json) (v : View) (chunk : string) : View :=
  fold_left (fun v line => readLine parse line v) (split Wire.lineFeed chunk) v.

(** The outer [catch]. *)
Definition failed (v : View) : View :=
  mkView (Some (JStr "Search failed. Please try again.")) false (searchResults v).

(** [handleDeepSearch], from the view [v] the page shows. *)
Definition handleDeepSearch (parse : string -> option json) (topic : string)
           (response : Fetched) (v : View) : View :=
  if String.eqb (JS.trim topic) "" then v
  else
    let v := mkView (Some (JStr "Initializing deep search...")) true [] in
    match response with
    | FetchRejected | NotOk => failed v
    | NoBody => v
    | Body chunks broken =>
        let v := fold_left (readChunk parse) chunks v in
        if broken then failed v else v
    end.

(** What a frame that arrives whole does to the view. *)
Definition deliver (v : View) (f : Frame) : View :=
  match f with
  | Progress m => mkView (Some (JStr m)) (isSearching v) (searchResults v)
  | Result r =>
      mkView (progress v) (isSearching v) (searchResults v ++ [Some (Wire.resultJson r)])%list
  | Complete => mkView (Some (JStr "Deep search complete!")) false (searchResults v)
  end.

(** A frame whose text the parser reads back, and which [stringify]
    writes on one line. *)
Definition readsBack (stringify : json -> string) (parse : string -> option json)
           (f : Frame) : Prop :=
  parse (stringify (Wire.payload f)) = Some (Wire.payload f) /\
  Markup.occurs Wire.lineFeed (stringify (Wire.payload f)) = false.

(** A line that carries a complete payload. *)
Definition isCompleteLine (parse : string -> option json) (line : string) : bool :=
  String.prefix "data: " line &&
  match parse (Html.drop 6 line) with
  | Some (JObj fields) =>
      match Json.field "type" fields with
      | Some (JStr ty) => String.eqb ty "complete"
      | _ => false
      end
  | _ => false
  end.

End Reader.

(** A [JSON.stringify] and a [JSON.parse] to run the reader with: the
    printer writes strings without escapes, and the parser knows the
    values it may be given. *)
Module SampleCodec.

Fixpoint stringify (v : json) : string :=
  match v with
  | JNull => "null"
  | JBool true => "true"
  | JBool false => "false"
  | JNum text => text
  | JStr s => Html.quote ++ s ++ Html.quote
  | JArr items =>
      "[" ++ (fix join (l : list json) : string :=
                match l with
                | [] => EmptyString
                | [x] => stringify x
                | x :: rest => stringify x ++ "," ++ join rest
                end) items ++ "]"
  | JObj fields =>
      "{" ++ (fix join (l : list (string * json)) : string :=
                match l with
                | [] => EmptyString
                | [(k, x)] => Html.quote ++ k ++ Html.quote ++ ":" ++ stringify x
                | (k, x) :: rest =>
                    Html.quote ++ k ++ Html.quote ++ ":" ++ stringify x ++ "," ++ join rest
                end) fields ++ "}"
  end.

Definition parse (known : list json) (s : string) : option json :=
  find (fun v => String.eqb (stringify v) s) known.

End SampleCodec.

(* ================================================================= *)
(** * Properties *)

(** ** Content synthesis *)

Module SynthFacts.

Import Synth.

(** A word without a space that begins [t ++ " " ++ rest] lies within [t]. *)
Lemma prefix_before_space (kw t rest : string) :
  JS.noSpace kw = true ->
  String.prefix kw (t ++ String " " rest) = String.prefix kw t.
Proof.
  revert t; induction kw as [|k kw IH]; intros t Hk.
  - destruct t; reflexivity.
  - simpl in Hk. apply andb_true_iff in Hk as [Hc Hk].
    destruct t as [|c t]; simpl.
    + destruct (ascii_dec k " ") as [->|]; [discriminate|reflexivity].
    + destruct (ascii_dec k c); [apply IH; assumption|reflexivity].
Qed.

(** A non-empty word without a space occurs in [t ++ " " ++ rest] only
    inside [t] or inside [rest]. *)
Lemma includes_across_space (kw t rest : string) :
  JS.noSpace kw = true -> kw <> EmptyString ->
  JS.includes (t ++ String " " rest) kw = JS.includes t kw || JS.includes rest kw.
Proof.
  intros Hk Hne. induction t as [|c t IH].
  - destruct kw as [|k kw]; [congruence|].
    simpl in Hk. apply andb_true_iff in Hk as [Hc _].
    simpl. destruct (ascii_dec k " ") as [->|]; [discriminate|reflexivity].
  - change (String c t ++ String " " rest) with (String c (t ++ String " " rest)).
    cbn [JS.includes]. rewrite IH.
    change (String c (t ++ String " " rest)) with (String c t ++ String " " rest).
    rewrite prefix_before_space by assumption.
    rewrite orb_assoc. reflexivity.
Qed.

(** The key chosen is one of the object's keys, so the lookup in
    [synthesizeContent] finds a value. *)
Lemma synthesizeContent_get (topic q : string) :
  get (key topic q) (perspectives topic) = Some (synthesizeContent topic q).
Proof.
  unfold synthesizeContent, key, index, JS.findIndex, queries.
  cbn [JS.findIndexFrom].
  repeat match goal with
         | |- context [if ?b then _ else _] =>
             match b with
             | JS.includes _ _ => destruct b
             end
         end; reflexivity.
Qed.

(** A query containing none of the first words gets the overview. *)
Lemma synthesizeContent_default (topic q : string) :
  index q = (-1)%Z ->
  Some (synthesizeContent topic q) = template "overview" topic.
Proof.
  intros H. rewrite <- synthesizeContent_get. unfold key. rewrite H. reflexivity.
Qed.


(** When the topic holds none of the first seven first words, every
    stage gets the text of its own category. *)
Lemma stage_template (topic : string) :
  (forall kw, In kw (firstn 7 keywords) -> JS.includes topic kw = false) ->
  forall i q c,
    nth_error (searchQueries topic) i = Some q ->
    nth_error categories i = Some c ->
    Some (synthesizeContent topic (query q)) = template c topic.
Proof.
  intros H i q c Hq Hc. rewrite <- synthesizeContent_get.
  assert (Hidx : index (query q) = Z.of_nat i).
  { do 8 (destruct i as [|i];
          [ injection Hq as <-; cbn [query];
            unfold index, JS.findIndex, queries; cbn [JS.findIndexFrom];
            cbn [JS.firstWord Ascii.eqb Bool.eqb];
            rewrite !includes_across_space by (reflexivity || discriminate);
            rewrite !H by (cbn; tauto);
            cbn [orb];
            repeat match goal with
                   | |- context [JS.includes (String ?a ?s) ?w] =>
                       let v := eval vm_compute in (JS.includes (String a s) w) in
                       change (JS.includes (String a s) w) with v
                   end;
            rewrite ?orb_true_r; reflexivity
          | ]).
    destruct i; discriminate. }
  unfold key. rewrite Hidx.
  do 8 (destruct i as [|i]; [injection Hc as <-; reflexivity|]).
  destruct i; discriminate.
Qed.
End SynthFacts.

(** C4 (failing input).  With the topic [current affairs], the stage
    "Practical Applications" (index 3, category [applications]) is
    given the text of [current_trends]: the query starts with the
    topic, and [findIndex] stops at the first word [current]. *)
Theorem C4_topic_word_hijacks_stage :
  let topic := "current affairs" in
  exists q,
    nth_error (searchQueries topic) 3 = Some q /\
    perspective q = "Practical Applications" /\
    nth_error categories 3 = Some "applications" /\
    Some (Synth.synthesizeContent topic (query q)) = Synth.template "current_trends" topic /\
    Some (Synth.synthesizeContent topic (query q)) <> Synth.template "applications" topic.
Proof.
  eexists. split; [reflexivity|].
  split; [reflexivity|]. split; [reflexivity|].
  split; [vm_compute; reflexivity|vm_compute; discriminate].
Qed.

(** ** The download name *)

Module FilenameFacts.

Import Filename.

Lemma mapChars_compose (f g : ascii -> ascii) (s : string) :
  JS.mapChars f (JS.mapChars g s) = JS.mapChars (fun c => f (g c)) s.
Proof. induction s as [|c s IH]; simpl; [reflexivity|now rewrite IH]. Qed.

Lemma mapChars_ext (f g : ascii -> ascii) (s : string) :
  (forall c, f c = g c) -> JS.mapChars f s = JS.mapChars g s.
Proof. intros H; induction s as [|c s IH]; simpl; [reflexivity|now rewrite H, IH]. Qed.

Lemma mapChars_length (f : ascii -> ascii) (s : string) :
  String.length (JS.mapChars f s) = String.length s.
Proof. induction s as [|c s IH]; simpl; [reflexivity|now rewrite IH]. Qed.

Lemma append_length (a b : string) :
  String.length (a ++ b) = String.length a + String.length b.
Proof. induction a as [|c a IH]; simpl; [reflexivity|now rewrite IH]. Qed.

(** The stem of the name, character by character. *)
Lemma stem_fileChar (topic : string) :
  JS.toLowerCase (replaceNonAlnum topic) = JS.mapChars fileChar topic.
Proof.
  unfold JS.toLowerCase, replaceNonAlnum. rewrite mapChars_compose.
  apply mapChars_ext. intros c. unfold fileChar.
  destruct (JS.isAlnum c); reflexivity.
Qed.

Lemma fileChar_plain (c : ascii) : plain (fileChar c) = true.
Proof.
  destruct c as [[] [] [] [] [] [] [] []]; vm_compute; reflexivity.
Qed.

Lemma stem_plain (topic : string) :
  allChars plain (JS.mapChars fileChar topic) = true.
Proof.
  induction topic as [|c s IH]; simpl; [reflexivity|].
  now rewrite fileChar_plain, IH.
Qed.

Lemma stem_of_punctuation (topic : string) :
  allChars (fun c => negb (JS.isAlnum c)) topic = true ->
  JS.mapChars fileChar topic = separators (String.length topic).
Proof.
  induction topic as [|c s IH]; simpl; [reflexivity|].
  intros H. apply andb_true_iff in H as [Hc Hs].
  unfold fileChar at 1. apply negb_true_iff in Hc. rewrite Hc.
  now rewrite IH.
Qed.

End FilenameFacts.

(** C5 (the claim as stated fails).  A run of two punctuation marks
    becomes two separators, not one; and topics made of punctuation
    alone do not share one name. *)
Lemma C5_runs_are_not_collapsed :
  Filename.suggestedFilename "a!!b" = "a__b_report.pdf" /\
  Filename.specFilename "a!!b" = "a_b_report.pdf" /\
  Filename.suggestedFilename "a!!b" <> Filename.specFilename "a!!b" /\
  Filename.suggestedFilename "!!!" = "____report.pdf" /\
  Filename.suggestedFilename "!" = "__report.pdf" /\
  Filename.suggestedFilename "!!!" <> Filename.suggestedFilename "!".
Proof.
  repeat split; try reflexivity; vm_compute; discriminate.
Qed.

(** C5 (amended).  The name is the topic with every character that is
    not a letter or digit replaced by one separator (one for each such
    character), in lower case, followed by [_report.pdf].  Its stem is as
    long as the topic and holds only lower-case letters, digits and
    separators; the name is never empty; a topic of [k] punctuation marks
    gives [k] separators before the suffix. *)
Theorem C5_filename_char_by_char (topic : string) :
  Filename.suggestedFilename topic
    = JS.mapChars Filename.fileChar topic ++ "_report.pdf" /\
  String.length (Filename.suggestedFilename topic) = String.length topic + 11 /\
  Filename.allChars Filename.plain (JS.mapChars Filename.fileChar topic) = true /\
  Filename.suggestedFilename topic <> EmptyString /\
  (Filename.allChars (fun c => negb (JS.isAlnum c)) topic = true ->
   Filename.suggestedFilename topic
     = Filename.separators (String.length topic) ++ "_report.pdf").
Proof.
  unfold Filename.suggestedFilename. rewrite FilenameFacts.stem_fileChar.
  repeat split.
  - rewrite FilenameFacts.append_length, FilenameFacts.mapChars_length. reflexivity.
  - apply FilenameFacts.stem_plain.
  - intros H. apply (f_equal String.length) in H.
    rewrite FilenameFacts.append_length in H. simpl in H. lia.
  - intros H. now rewrite FilenameFacts.stem_of_punctuation.
Qed.

Lemma C5_filename_witness :
  Filename.allChars (fun c => negb (JS.isAlnum c)) "!!!" = true /\
  Filename.suggestedFilename "!!!" = "____report.pdf".
Proof.
  split; [reflexivity|].
  exact (proj2 (proj2 (proj2 (proj2 (C5_filename_char_by_char "!!!")))) eq_refl).
Defined.

(** ** The search call *)

Module SearchFacts.

Import DeepSearch.

Lemma collect_length (titleMatches snippetMatches : list string) :
  List.length (collect titleMatches snippetMatches) <= 3.
Proof.
  unfold collect. rewrite length_map, length_seq. apply Nat.le_min_r.
Qed.

(** Whatever the [try] block returns from inside is a [collect]ed list. *)
Lemma searchAttempt_results (w : World) (k : nat) (q : string) (results : list Hit) :
  searchAttempt w k q = Ok (Some results) ->
  exists titleMatches snippetMatches, results = collect titleMatches snippetMatches.
Proof.
  unfold searchAttempt, bindO.
  destruct (encodeURIComponent w q) as [q'|]; [|discriminate].
  destruct (fetch w k (searchUrl q')) as [response|]; [|discriminate].
  destruct (ok response); [|discriminate].
  destruct (text response) as [html|]; [|discriminate].
  destruct (0 <? _)%nat; [|discriminate].
  intros H. injection H as <-. eauto.
Qed.

(** The [catch] leaves nothing to throw. *)
Lemma fetchSearchResults_total (w : World) (k : nat) (q : string) :
  exists hits, fetchSearchResults w k q = Ok hits.
Proof.
  unfold fetchSearchResults.
  destruct (searchAttempt w k q) as [[results|]|e]; eauto.
Qed.

End SearchFacts.

(** C10.  Whatever the encoder, the network and the response do,
    [fetchSearchResults] returns, and returns at most three entries. *)
Theorem C10_fetchSearchResults_returns_at_most_three
  (w : World) (k : nat) (q : string) :
  exists hits : list Hit,
    DeepSearch.fetchSearchResults w k q = Ok hits /\ List.length hits <= 3.
Proof.
  unfold DeepSearch.fetchSearchResults.
  destruct (DeepSearch.searchAttempt w k q) as [[results|]|e] eqn:E.
  - exists results. split; [reflexivity|].
    apply SearchFacts.searchAttempt_results in E as (t & s & ->).
    apply SearchFacts.collect_length.
  - exists []. split; [reflexivity|simpl; lia].
  - exists []. split; [reflexivity|simpl; lia].
Qed.

(** Five title matches and no snippet match: three entries, their
    snippets empty. *)
Example titles_without_snippets :
  DeepSearch.fetchSearchResults (Sample.world (Sample.up 5) Sample.stays) 0 "q"
  = Ok [mkHit "A title" ""; mkHit "A title" ""; mkHit "A title" ""].
Proof. vm_compute. reflexivity. Qed.

(** ** The streaming handler *)

Module StreamFacts.

Import DeepSearch.

(** The search is awaited and its value dropped. *)
Lemma fetch_then (w : World) (i : nat) (q : string) (m : Eff unit) (tr : Trace) :
  bind (lift (fetchSearchResults w i q)) (fun _ => m) tr = m tr.
Proof.
  destruct (SearchFacts.fetchSearchResults_total w i q) as [hits E].
  unfold bind, lift. rewrite E. reflexivity.
Qed.

Lemma bind_assoc {A B C} (m : Eff A) (f : A -> Eff B) (g : B -> Eff C) (tr : Trace) :
  bind (bind m f) g tr = bind m (fun a => bind (f a) g) tr.
Proof. unfold bind. destruct (m tr) as [[a|e] tr']; reflexivity. Qed.

(** Two computations that begin with the same call and go on alike. *)
Lemma after_call {A} (w : World) (c : ControllerCall) (m1 m2 : Eff A) (tr : Trace) :
  (forall tr', m1 tr' = m2 tr') ->
  bind (call w c) (fun _ => m1) tr = bind (call w c) (fun _ => m2) tr.
Proof.
  intros H. unfold bind. destruct (call w c tr) as [[[]|e] tr']; [apply H|reflexivity].
Qed.

Lemma bind_ext {A B} (m : Eff A) (f g : A -> Eff B) (tr : Trace) :
  (forall a tr', f a tr' = g a tr') -> bind m f tr = bind m g tr.
Proof.
  intros H. unfold bind. destruct (m tr) as [[a|e] tr']; [apply H|reflexivity].
Qed.

Lemma perform_app (w : World) (a b : list ControllerCall) (tr : Trace) :
  perform w (a ++ b) tr = bind (perform w a) (fun _ => perform w b) tr.
Proof.
  revert tr; induction a as [|c a IH]; intros tr; simpl.
  - reflexivity.
  - rewrite bind_assoc. apply after_call. exact IH.
Qed.

(** The loop makes the calls of [stageFrames], whatever the searches
    return. *)
Lemma stages_perform (w : World) (t : string) (qs : list SearchQuery) (i n : nat)
      (m : Eff unit) (tr : Trace) :
  bind (stages w t qs i n) (fun _ => m) tr
  = bind (perform w (map enqueue (stageFrames t qs i n))) (fun _ => m) tr.
Proof.
  revert i tr; induction qs as [|q qs IH]; intros i tr; [reflexivity|].
  cbn [stages stageFrames map perform].
  rewrite !bind_assoc. apply after_call. intros tr1.
  rewrite bind_assoc, fetch_then.
  rewrite !bind_assoc. apply after_call. intros tr2.
  apply IH.
Qed.

(** With a topic that has a text, the [try] block follows the script. *)
Lemma attempt_perform (w : World) (topic : option json) (t : string) (tr : Trace) :
  Json.render topic = Ok t ->
  attempt w topic tr = perform w (script t) tr.
Proof.
  intros Ht. unfold attempt. unfold bind at 1, lift. rewrite Ht.
  rewrite stages_perform. unfold script, allFrames.
  rewrite map_app, <- app_assoc, perform_app.
  apply bind_ext. intros [] tr1. cbn [map app perform].
  apply after_call. intros tr2.
  unfold bind, call, ret. destruct (readable w _); reflexivity.
Qed.

(** With a topic that has none, it throws before the first call. *)
Lemma attempt_throw (w : World) (topic : option json) (e : Exn) (tr : Trace) :
  Json.render topic = Throw e ->
  attempt w topic tr = (Throw e, tr).
Proof.
  intros Ht. unfold attempt. unfold bind at 1, lift. rewrite Ht. reflexivity.
Qed.

(** A consumer who stays lets every call through. *)
Lemma perform_stays (w : World) (calls : list ControllerCall) (tr : Trace) :
  (forall k, readable w k = true) ->
  perform w calls tr = (Ok tt, (tr ++ calls)%list).
Proof.
  intros Hw. revert tr; induction calls as [|c calls IH]; intros tr; simpl.
  - now rewrite app_nil_r.
  - unfold bind, call. rewrite Hw, IH, <- app_assoc. reflexivity.
Qed.

(** In general the calls made are a prefix of the list, cut where the
    controller first refuses. *)
Lemma perform_prefix (w : World) (calls : list ControllerCall) (tr : Trace) :
  exists j,
    j <= List.length calls /\
    snd (perform w calls tr) = (tr ++ firstn j calls)%list /\
    (fst (perform w calls tr) = Ok tt /\ j = List.length calls
     \/ fst (perform w calls tr) = Throw TypeError /\ j < List.length calls).
Proof.
  revert tr; induction calls as [|c calls IH]; intros tr; simpl.
  - exists 0. rewrite app_nil_r. auto.
  - unfold bind, call. destruct (readable w (List.length tr)).
    + destruct (IH (tr ++ [c])%list) as (j & Hj & Hs & Hf).
      exists (S j). rewrite Hs. simpl. rewrite <- app_assoc. simpl.
      split; [lia|]. split; [reflexivity|].
      destruct Hf as [[-> ->]|[-> Hlt]]; [left|right]; split; auto; lia.
    + exists 0. simpl. rewrite app_nil_r.
      split; [lia|]. split; [reflexivity|]. right. split; [reflexivity|lia].
Qed.

(** Two consumers who behave alike get the same calls. *)
Lemma perform_ext (w1 w2 : World) (calls : list ControllerCall) (tr : Trace) :
  (forall k, readable w1 k = readable w2 k) ->
  perform w1 calls tr = perform w2 calls tr.
Proof.
  intros Hw. revert tr; induction calls as [|c calls IH]; intros tr; simpl; [reflexivity|].
  unfold bind, call. rewrite Hw. destruct (readable w2 _); [apply IH|reflexivity].
Qed.

Lemma frames_enqueue (fs : list Frame) : frames (map enqueue fs) = fs.
Proof. induction fs as [|f fs IH]; simpl; [reflexivity|now rewrite IH]. Qed.

Lemma frames_app (a b : Trace) : frames (a ++ b)%list = (frames a ++ frames b)%list.
Proof.
  induction a as [|c a IH]; simpl; [reflexivity|].
  destruct c; simpl; now rewrite IH.
Qed.

(** The run nobody interrupts. *)
Lemma start_stays (w : World) (topic : option json) (t : string) :
  Json.render topic = Ok t ->
  (forall k, readable w k = true) ->
  start w topic = script t.
Proof.
  intros Ht Hw. unfold start.
  rewrite (attempt_perform _ _ _ _ Ht), perform_stays by assumption.
  reflexivity.
Qed.

Lemma start_ext (w1 w2 : World) (topic : option json) :
  (forall k, readable w1 k = readable w2 k) ->
  start w1 topic = start w2 topic.
Proof.
  intros Hw. unfold start.
  destruct (Json.render topic) as [t|e] eqn:Ht.
  - rewrite !(attempt_perform _ _ _ _ Ht), (perform_ext w1 w2) by assumption.
    reflexivity.
  - rewrite !(attempt_throw _ _ _ _ Ht). reflexivity.
Qed.

Lemma results_stageFrames (t : string) (qs : list SearchQuery) (i n : nat) (rest : list Frame) :
  results (stageFrames t qs i n ++ rest) = (map (resultOf t) qs ++ results rest)%list.
Proof.
  revert i; induction qs as [|q qs IH]; intros i; simpl; [reflexivity|].
  now rewrite IH.
Qed.

Lemma frames_script (t : string) : frames (script t) = allFrames t.
Proof.
  unfold script. rewrite frames_app, frames_enqueue.
  change (frames [close]) with (@nil Frame). apply app_nil_r.
Qed.

Lemma results_allFrames (t : string) :
  results (allFrames t) = map (resultOf t) (searchQueries t).
Proof.
  unfold allFrames. rewrite results_stageFrames.
  change (results [Complete]) with (@nil SearchResult). apply app_nil_r.
Qed.

(** A proper prefix of the calls of a run holds [enqueue]s only. *)
Lemma firstn_calls (fs : list Frame) (j : nat) :
  j < List.length (map enqueue fs ++ [close]) ->
  firstn j (map enqueue fs ++ [close]) = map enqueue (firstn j fs) /\
  j <= List.length fs.
Proof.
  rewrite length_app, length_map. cbn [List.length]. intros Hlt.
  split; [|lia].
  rewrite firstn_app, length_map.
  replace (j - List.length fs) with 0 by lia.
  cbn [firstn]. rewrite app_nil_r. apply firstn_map.
Qed.

End StreamFacts.

(** C2.  When the consumer stays, the run on a topic string puts
    seventeen frames on the stream: for each of the eight stages, in
    catalog order, its progress frame at position [2i] and its result
    frame at position [2i+1], then the single complete frame, last, and
    then closes the stream.  So there are exactly eight results, one for
    each stage, none after the complete frame, and the result of a stage
    lies between its own progress frame and that of the next stage. *)
Theorem C2_eight_results_then_complete (w : World) (topic : string) :
  topic <> EmptyString ->
  (forall k, readable w k = true) ->
  let tr := DeepSearch.start w (Some (JStr topic)) in
  let fs := DeepSearch.frames tr in
  let qs := searchQueries topic in
  tr = (map enqueue fs ++ [close])%list /\
  List.length qs = 8 /\
  List.length fs = 17 /\
  (forall i q, nth_error qs i = Some q ->
     nth_error fs (2 * i) = Some (Progress (DeepSearch.progressMessage q i 8)) /\
     nth_error fs (2 * i + 1) = Some (Result (DeepSearch.resultOf topic q))) /\
  nth_error fs 16 = Some Complete /\
  DeepSearch.countType "result" fs = 8 /\
  DeepSearch.countType "complete" fs = 1 /\
  DeepSearch.results fs = map (DeepSearch.resultOf topic) qs.
Proof.
  intros _ Hw tr fs qs.
  assert (Htr : tr = DeepSearch.script topic)
    by (apply StreamFacts.start_stays; [reflexivity|assumption]).
  assert (Hfs : fs = DeepSearch.allFrames topic)
    by (unfold fs; rewrite Htr; apply StreamFacts.frames_script).
  split; [rewrite Hfs; exact Htr|].
  split; [reflexivity|].
  split; [rewrite Hfs; reflexivity|].
  split.
  { intros i q Hq. rewrite Hfs.
    do 8 (destruct i as [|i]; [injection Hq as <-; split; reflexivity|]).
    destruct i; discriminate. }
  split; [rewrite Hfs; reflexivity|].
  split; [rewrite Hfs; reflexivity|].
  split; [rewrite Hfs; reflexivity|].
  rewrite Hfs. apply StreamFacts.results_allFrames.
Qed.

Lemma C2_witness :
  let w := Sample.world Sample.down Sample.stays in
  "Renewable Energy" <> EmptyString /\
  (forall k, readable w k = true) /\
  List.length (DeepSearch.frames (DeepSearch.start w (Some (JStr "Renewable Energy")))) = 17.
Proof.
  split; [discriminate|]. split; [reflexivity|].
  exact (proj1 (proj2 (proj2
    (C2_eight_results_then_complete (Sample.world Sample.down Sample.stays)
       "Renewable Energy" ltac:(discriminate) (fun _ => eq_refl))))).
Defined.

(** ** The state the stream is left in *)

Module StateFacts.

Import DeepSearch.

(** The calls made are a prefix of the list: the controller accepted
    each of them and, when the list was cut short, refused the next. *)
Lemma perform_cut (w : World) (calls : list ControllerCall) (tr : Trace) :
  exists j,
    j <= List.length calls /\
    snd (perform w calls tr) = (tr ++ firstn j calls)%list /\
    (forall k, k < j -> readable w (List.length tr + k) = true) /\
    (fst (perform w calls tr) = Ok tt /\ j = List.length calls
     \/ fst (perform w calls tr) = Throw TypeError /\ j < List.length calls /\
        readable w (List.length tr + j) = false).
Proof.
  revert tr; induction calls as [|c calls IH]; intros tr; simpl.
  - exists 0. rewrite app_nil_r. repeat split; auto. intros k Hk; lia.
  - unfold bind, call. destruct (readable w (List.length tr)) eqn:Er.
    + destruct (IH (tr ++ [c])%list) as (j & Hj & Hs & Hr & Hf).
      rewrite length_app in Hr, Hf. cbn [List.length] in Hr, Hf.
      exists (S j). rewrite Hs. simpl. rewrite <- app_assoc. simpl.
      split; [lia|]. split; [reflexivity|]. split.
      * intros [|k] Hk; [now rewrite Nat.add_0_r|].
        replace (List.length tr + S k) with (List.length tr + 1 + k) by lia.
        apply Hr. lia.
      * replace (List.length tr + S j) with (List.length tr + 1 + j) by lia.
        destruct Hf as [[-> ->]|(-> & Hlt & Hno)]; [left|right]; repeat split; auto; lia.
    + exists 0. simpl. rewrite app_nil_r, Nat.add_0_r.
      split; [lia|]. split; [reflexivity|]. split; [intros k Hk; lia|].
      right. repeat split; auto; lia.
Qed.

Lemma stateFrom_app (w : World) (n : nat) (s : StreamState) (a b : Trace) :
  stateFrom w n s (a ++ b)%list = stateFrom w (n + List.length a) (stateFrom w n s a) b.
Proof.
  revert n s; induction a as [|c a IH]; intros n s; simpl.
  - now rewrite Nat.add_0_r.
  - rewrite IH. f_equal. lia.
Qed.

(** Frames the controller accepted leave the stream readable. *)
Lemma stateFrom_enqueues (w : World) (n : nat) (fs : list Frame) :
  (forall k, k < List.length fs -> readable w (n + k) = true) ->
  stateFrom w n StreamReadable (map enqueue fs) = StreamReadable.
Proof.
  revert n; induction fs as [|f fs IH]; intros n H; simpl; [reflexivity|].
  pose proof (H 0 ltac:(simpl; lia)) as H0. rewrite Nat.add_0_r in H0. rewrite H0.
  apply IH. intros k Hk. replace (S n + k) with (n + S k) by lia.
  apply H. simpl. lia.
Qed.

End StateFacts.

(** C3 (the claim as stated fails).  The consumer leaves after three
    frames: the fourth [enqueue] throws, the handler calls
    [controller.error], and the stream holds no frame of type [failure];
    the last frame on it is a progress frame.  The stream was closed
    when the consumer left, and the error call does not change that. *)
Lemma C3_no_failure_frame :
  let w := Sample.world Sample.down (Sample.leavesAfter 3) in
  let tr := DeepSearch.start w (Some (JStr "AI")) in
  fst (DeepSearch.attempt w (Some (JStr "AI")) []) = Throw TypeError /\
  tr = [ enqueue (Progress "Searching: Overview & Fundamentals (1/8)...");
         enqueue (Result (DeepSearch.resultOf "AI"
                    (mkSearchQuery "AI overview and introduction" "Overview & Fundamentals")));
         enqueue (Progress "Searching: Historical Context (2/8)...");
         error TypeError ] /\
  DeepSearch.countType "failure" (DeepSearch.frames tr) = 0 /\
  DeepSearch.countType "complete" (DeepSearch.frames tr) = 0 /\
  ~ (exists f, last (map Some (DeepSearch.frames tr)) None = Some f /\
               (frameType f = "failure" \/ frameType f = "complete")) /\
  DeepSearch.streamState w tr = DeepSearch.StreamClosed.
Proof.
  split; [vm_compute; reflexivity|].
  split; [vm_compute; reflexivity|].
  split; [vm_compute; reflexivity|].
  split; [vm_compute; reflexivity|].
  split; [|vm_compute; reflexivity].
  intros (f & Hf & Ht).
  vm_compute in Hf. injection Hf as <-.
  destruct Ht as [Ht|Ht]; vm_compute in Ht; discriminate.
Qed.

(** C3 (amended).  No frame of type [failure] is ever put on the
    stream, and a run ends in one of two ways.  Either the [try] block
    completes: the calls are the seventeen frames and one [close], and
    the stream is closed.  Or an exception [e] escapes it: then the
    handler makes exactly one more call, [controller.error(e)], after
    the calls made so far, which are [enqueue]s and stay as they are;
    [close] is not called.  When the topic has a text, the exception is
    the [TypeError] of a call the controller refused: the frames sent
    are a prefix of the seventeen, the consumer had cancelled, and the
    stream is closed, not errored.  When the topic has no text, no frame
    was sent, and the error call errors the stream if it is still
    readable. *)
Theorem C3_exception_ends_with_an_error_call (w : World) (topic : option json) :
  let tr := DeepSearch.start w topic in
  (forall f, In f (DeepSearch.frames tr) -> frameType f <> "failure") /\
  ((exists t, Json.render topic = Ok t /\
              DeepSearch.attempt w topic [] = (Ok tt, tr) /\
              tr = DeepSearch.script t /\
              DeepSearch.streamState w tr = DeepSearch.StreamClosed)
   \/
   (exists e fs,
      DeepSearch.attempt w topic [] = (Throw e, map enqueue fs) /\
      tr = (map enqueue fs ++ [error e])%list /\
      DeepSearch.frames tr = fs /\
      match Json.render topic with
      | Ok t =>
          (exists j, j <= 17 /\ fs = firstn j (DeepSearch.allFrames t)) /\
          e = TypeError /\
          readable w (List.length fs) = false /\
          DeepSearch.streamState w tr = DeepSearch.StreamClosed
      | Throw e' =>
          e = e' /\ fs = [] /\
          DeepSearch.streamState w tr
          = (if readable w 0 then DeepSearch.StreamErrored e' else DeepSearch.StreamClosed)
      end)).
Proof.
  intros tr. split.
  { intros f _. destruct f; discriminate. }
  unfold tr, DeepSearch.start.
  destruct (Json.render topic) as [t|e'] eqn:Ht.
  - rewrite (StreamFacts.attempt_perform _ _ _ _ Ht).
    destruct (StateFacts.perform_cut w (DeepSearch.script t) []) as (j & Hj & Hs & Hr & Hf).
    destruct (DeepSearch.perform w (DeepSearch.script t) []) as [o calls].
    cbn [fst snd app List.length Nat.add] in Hs, Hf, Hr. subst calls.
    destruct Hf as [[-> ->]|(-> & Hlt & Hno)].
    + left. exists t. rewrite firstn_all.
      split; [reflexivity|]. split; [reflexivity|]. split; [reflexivity|].
      unfold DeepSearch.streamState, DeepSearch.script.
      rewrite StateFacts.stateFrom_app, StateFacts.stateFrom_enqueues.
      * cbn [DeepSearch.stateFrom DeepSearch.afterCall Nat.add].
        rewrite Hr; [reflexivity|].
        unfold DeepSearch.script. rewrite length_app. cbn [List.length]. lia.
      * intros k Hk. apply Hr. unfold DeepSearch.script.
        rewrite length_app, length_map. cbn [List.length]. lia.
    + right. exists TypeError, (firstn j (DeepSearch.allFrames t)).
      destruct (StreamFacts.firstn_calls (DeepSearch.allFrames t) j Hlt) as [Hcut Hle].
      fold (DeepSearch.script t) in Hcut. rewrite Hcut.
      assert (Hlen : List.length (firstn j (DeepSearch.allFrames t)) = j)
        by (rewrite length_firstn; lia).
      split; [reflexivity|]. split; [reflexivity|].
      split; [rewrite StreamFacts.frames_app, StreamFacts.frames_enqueue; apply app_nil_r|].
      split; [exists j; split; [exact Hle|reflexivity]|].
      split; [reflexivity|]. rewrite Hlen. split; [exact Hno|].
      unfold DeepSearch.streamState.
      rewrite StateFacts.stateFrom_app, StateFacts.stateFrom_enqueues.
      * rewrite length_map, Hlen.
        cbn [DeepSearch.stateFrom DeepSearch.afterCall Nat.add]. now rewrite Hno.
      * intros k Hk. apply Hr. lia.
  - rewrite (StreamFacts.attempt_throw _ _ _ _ Ht).
    right. exists e', []. cbn [map app DeepSearch.frames].
    split; [reflexivity|]. split; [reflexivity|]. split; [reflexivity|].
    split; [reflexivity|]. split; [reflexivity|].
    unfold DeepSearch.streamState.
    cbn [DeepSearch.stateFrom DeepSearch.afterCall]. reflexivity.
Qed.

(** A topic that has no text, an object carrying a property
    [toString], with a consumer who stays: the only call is the error
    call, and it errors the stream. *)
Example topic_without_text_errors_the_stream :
  let w := Sample.world Sample.down Sample.stays in
  let topic := Some (JObj [("toString", JNull)]) in
  DeepSearch.start w topic = [error TypeError] /\
  DeepSearch.streamState w (DeepSearch.start w topic)
  = DeepSearch.StreamErrored TypeError.
Proof. split; reflexivity. Qed.


(** C7.  Two runs on the same topic whose consumers behave alike make
    the same controller calls, whatever the encoder and the search
    service do in either run; in particular they emit the same result
    blocks.  When the consumer stays, the blocks are those of
    [resultOf] over the catalog: a function of the topic text alone. *)
Theorem C7_results_depend_on_topic_only (w1 w2 : World) (topic : option json) :
  (forall k, readable w1 k = readable w2 k) ->
  DeepSearch.start w1 topic = DeepSearch.start w2 topic /\
  DeepSearch.results (DeepSearch.frames (DeepSearch.start w1 topic))
  = DeepSearch.results (DeepSearch.frames (DeepSearch.start w2 topic)) /\
  (forall t, Json.render topic = Ok t ->
             (forall k, readable w1 k = true) ->
             DeepSearch.results (DeepSearch.frames (DeepSearch.start w1 topic))
             = map (DeepSearch.resultOf t) (searchQueries t)).
Proof.
  intros Hw.
  pose proof (StreamFacts.start_ext w1 w2 topic Hw) as E.
  split; [exact E|]. split; [now rewrite E|].
  intros t Ht Hs.
  rewrite (StreamFacts.start_stays _ _ _ Ht Hs), StreamFacts.frames_script.
  apply StreamFacts.results_allFrames.
Qed.

Lemma C7_witness :
  let w1 := Sample.world Sample.down Sample.stays in
  let w2 := Sample.world (Sample.up 5) Sample.stays in
  (forall k, readable w1 k = readable w2 k) /\
  DeepSearch.fetchSearchResults w1 0 "AI overview and introduction" = Ok [] /\
  List.length
    (match DeepSearch.fetchSearchResults w2 0 "AI overview and introduction" with
     | Ok hits => hits
     | Throw _ => []
     end) = 3 /\
  DeepSearch.start w1 (Some (JStr "AI")) = DeepSearch.start w2 (Some (JStr "AI")).
Proof.
  split; [reflexivity|]. split; [reflexivity|]. split; [reflexivity|].
  exact (proj1 (C7_results_depend_on_topic_only
                  (Sample.world Sample.down Sample.stays)
                  (Sample.world (Sample.up 5) Sample.stays)
                  (Some (JStr "AI")) (fun _ => eq_refl))).
Defined.

(** C6 (the claim as stated fails).  The endpoint serves a request whose
    topic is empty, and one that has no topic at all: all seventeen
    frames are emitted, the first a progress frame, the last the
    complete frame. *)
Lemma C6_empty_topic_is_served :
  let w := Sample.world Sample.down Sample.stays in
  DeepSearch.POST w (Some (JObj [("topic", JStr "")])) = Ok (DeepSearch.script "") /\
  DeepSearch.POST w (Some (JObj [])) = Ok (DeepSearch.script "undefined") /\
  nth_error (DeepSearch.frames (DeepSearch.script "")) 0
    = Some (Progress "Searching: Overview & Fundamentals (1/8)...") /\
  nth_error (DeepSearch.frames (DeepSearch.script "")) 16 = Some Complete /\
  DeepSearch.countType "result" (DeepSearch.frames (DeepSearch.script "")) = 8 /\
  DeepSearch.countType "result" (DeepSearch.frames (DeepSearch.script "undefined")) = 8.
Proof.
  repeat split; vm_compute; reflexivity.
Qed.

(** C6 (amended).  A body that is not JSON, or is [null], is refused
    before the stream exists: the handler throws and no call is ever
    made on a controller.  A topic that is empty or blank is held back by
    the page, which sends no request.  The endpoint itself does not look
    at the topic: sent an empty or a missing one, it runs every stage,
    on the text [""] or ["undefined"]. *)
Theorem C6_only_the_page_rejects_blank_topics (w : World) :
  DeepSearch.POST w None = Throw SyntaxError /\
  DeepSearch.POST w (Some JNull) = Throw TypeError /\
  (forall topic, JS.trim topic = EmptyString -> Page.handleDeepSearch w topic = None) /\
  (forall fields,
     (forall k, readable w k = true) ->
     (Json.field "topic" fields = Some (JStr "") ->
      DeepSearch.POST w (Some (JObj fields)) = Ok (DeepSearch.script "")) /\
     (Json.field "topic" fields = None ->
      DeepSearch.POST w (Some (JObj fields)) = Ok (DeepSearch.script "undefined"))).
Proof.
  split; [reflexivity|]. split; [reflexivity|]. split.
  - intros topic H. unfold Page.handleDeepSearch. rewrite H. reflexivity.
  - intros fields Hw. unfold DeepSearch.POST, bindO, Json.destructureTopic.
    split; intros ->; f_equal; apply StreamFacts.start_stays; auto.
Qed.

Lemma C6_witness :
  let w := Sample.world Sample.down Sample.stays in
  JS.trim "   " = EmptyString /\
  Page.handleDeepSearch w "   " = None /\
  (forall k, readable w k = true) /\
  Json.field "topic" [("topic", JStr "")] = Some (JStr "") /\
  DeepSearch.POST w (Some (JObj [("topic", JStr "")])) = Ok (DeepSearch.script "").
Proof.
  split; [reflexivity|].
  split; [exact (proj1 (proj2 (proj2
            (C6_only_the_page_rejects_blank_topics (Sample.world Sample.down Sample.stays))))
            "   " eq_refl)|].
  split; [reflexivity|]. split; [reflexivity|].
  exact (proj1 (proj2 (proj2 (proj2
            (C6_only_the_page_rejects_blank_topics (Sample.world Sample.down Sample.stays))))
            [("topic", JStr "")] (fun _ => eq_refl)) eq_refl).
Defined.

(** ** Pages and the cursor *)

Module PdfFacts.

Import Pdf.

Lemma onPage_length (i : nat) (f : Page -> Page) (ps : list Page) :
  List.length (onPage i f ps) = List.length ps.
Proof.
  revert i; induction ps as [|p ps IH]; intros [|i]; simpl; auto.
Qed.

Lemma onPage_nth (i : nat) (f : Page -> Page) (ps : list Page) (j : nat) :
  nth_error (onPage i f ps) j
  = if (j =? i)%nat then option_map f (nth_error ps j) else nth_error ps j.
Proof.
  revert i j; induction ps as [|p ps IH]; intros i j.
  - destruct i, j; simpl; try reflexivity; now destruct (j =? i)%nat.
  - destruct i, j; simpl; try reflexivity. apply IH.
Qed.

Lemma forEachFrom_inv {A St} (P : St -> Prop) (f : A -> nat -> St -> St)
      (xs : list A) (i : nat) (st : St) :
  (forall x k s, P s -> P (f x k s)) -> P st -> P (JS.forEachFrom f xs i st).
Proof.
  intros Hf. revert i st; induction xs as [|x xs IH]; intros i st H; simpl; auto.
Qed.

Lemma gtb_false (a b : Q) : gtb a b = false -> (a <= b)%Q.
Proof.
  unfold gtb. intros H. apply negb_false_iff in H. now apply Qle_bool_iff.
Qed.

End PdfFacts.

Module LayoutFacts.

Import Pdf PdfFacts GeneratePdf.
Local Open Scope Q_scope.

Section Handler.

Variables pageWidth pageHeight : Q.
Variable splitTextToSize : Q -> string -> Q -> list string.
Variable getTextWidth : string -> Q.
Variable toUpperCase : string -> string.
Variable currentDate : string.

Local Abbreviation Writing := (Writing pageHeight).
Local Abbreviation Onward := (Onward pageHeight).
Local Abbreviation OnCover := (OnCover pageHeight).
Local Abbreviation notFooter := (notFooter pageHeight).
Local Abbreviation footer := (footer pageWidth pageHeight).
Local Abbreviation footerOp := (footerOp pageWidth pageHeight).
Local Abbreviation footers := (footers pageWidth pageHeight).
Local Abbreviation inBand := (inBand pageHeight).
Local Abbreviation tall := (tall pageHeight).
Local Abbreviation printable := (printable pageHeight).
Local Abbreviation checkAndAddPage := (checkAndAddPage pageHeight).
Local Abbreviation lineAtCursor := (lineAtCursor pageHeight).
Local Abbreviation tocEntry := (tocEntry pageHeight).
Local Abbreviation tableOfContents := (tableOfContents pageHeight).
Local Abbreviation section := (section pageWidth pageHeight splitTextToSize).
Local Abbreviation cover :=
  (cover pageWidth pageHeight splitTextToSize getTextWidth toUpperCase currentDate).
Local Abbreviation body :=
  (body pageWidth pageHeight splitTextToSize getTextWidth toUpperCase currentDate).

Lemma printable_margin : tall -> printable margin.
Proof. unfold GeneratePdf.tall, GeneratePdf.printable, margin. lra. Qed.

Lemma Writing_setY (c : Page) (st : Layout) (y : Q) :
  Writing c st -> margin <= y -> Writing c (setY y st).
Proof. intros (Hc & Hn & _ & H0 & Hb) Hy. repeat split; auto. Qed.

Lemma Writing_addPage (c : Page) (st : Layout) :
  Writing c st -> Writing c (addPage st).
Proof.
  intros (Hc & Hn & Hy & H0 & Hb). unfold addPage.
  repeat split; cbn [pages current yPosition].
  - rewrite length_app. reflexivity.
  - rewrite length_app. simpl. lia.
  - exact Hy.
  - rewrite nth_error_app1 by lia. exact H0.
  - intros T j p Hj Hp.
    destruct (Nat.lt_ge_cases j (List.length (pages st))) as [Hlt|Hge].
    + rewrite nth_error_app1 in Hp by exact Hlt. eauto.
    + rewrite nth_error_app2 in Hp by exact Hge.
      destruct (j - List.length (pages st))%nat as [|[|k]]; simpl in Hp;
        try discriminate. injection Hp as <-. constructor.
Qed.

Lemma Writing_draw (c : Page) (st : Layout) (op : DrawOp) :
  Writing c st -> (tall -> inBand op) -> Writing c (draw op st).
Proof.
  intros (Hc & Hn & Hy & H0 & Hb) Hop. unfold draw.
  repeat split; cbn [pages current yPosition].
  - rewrite onPage_length. exact Hc.
  - rewrite onPage_length. exact Hn.
  - exact Hy.
  - rewrite onPage_nth.
    destruct (Nat.eqb_spec 0 (current st - 1)) as [E|_]; [lia|exact H0].
  - intros T j p Hj Hp. rewrite onPage_nth in Hp.
    destruct (j =? current st - 1)%nat; [|eauto].
    destruct (nth_error (pages st) j) as [p0|] eqn:E; [|discriminate].
    injection Hp as <-. apply Forall_app. split; [eauto|].
    constructor; [exact (Hop T)|constructor].
Qed.

Lemma addPage_length (st : Layout) :
  List.length (pages (addPage st)) = S (List.length (pages st)).
Proof. unfold addPage. cbn [pages]. rewrite length_app. simpl. lia. Qed.

Lemma draw_length (op : DrawOp) (st : Layout) :
  List.length (pages (draw op st)) = List.length (pages st).
Proof. apply onPage_length. Qed.

(** After the check the cursor is between the margins, with the
    required space below it unless the page is new. *)
Lemma check_spec (c : Page) (r : Q) (st : Layout) :
  Writing c st -> 0 <= r ->
  let st' := snd (checkAndAddPage r st) in
  Writing c st' /\
  (yPosition st' + r <= pageHeight - margin \/ yPosition st' = margin) /\
  (tall -> printable (yPosition st')) /\
  (List.length (pages st) <= List.length (pages st'))%nat.
Proof.
  intros W Hr. unfold GeneratePdf.checkAndAddPage.
  destruct (gtb (yPosition st + r) (pageHeight - margin)) eqn:E; cbn [snd].
  - split; [apply Writing_setY; [now apply Writing_addPage|unfold margin; lra]|].
    split; [right; reflexivity|].
    split; [exact printable_margin|].
    cbn [setY pages]. rewrite addPage_length. lia.
  - apply gtb_false in E. destruct W as (Hc & Hn & Hy & H0 & Hb).
    split; [repeat split; auto|].
    split; [left; exact E|].
    split; [intros _; split; [exact Hy|lra]|lia].
Qed.

Lemma lineAtCursor_onward (c : Page) (n : nat) (r step : Q) (line : string) (st : Layout) :
  0 <= r -> 0 <= step ->
  Onward c n st -> Onward c n (lineAtCursor r step line st).
Proof.
  intros Hr Hs [W Hn]. unfold GeneratePdf.lineAtCursor.
  destruct (check_spec c r st W Hr) as (W1 & _ & P1 & L1).
  set (st1 := snd (checkAndAddPage r st)) in *.
  split.
  - apply Writing_setY.
    + apply Writing_draw; [exact W1|exact P1].
    + cbn [draw yPosition]. destruct W1 as (_ & _ & Hy & _). lra.
  - cbn [setY pages]. rewrite draw_length. lia.
Qed.

Lemma tocEntry_onward (c : Page) (n : nat) (result : SearchResult) (index : nat) (st : Layout) :
  Onward c n st -> Onward c n (tocEntry result index st).
Proof.
  intros [W Hn]. unfold GeneratePdf.tocEntry.
  destruct (check_spec c 10 st W ltac:(lra)) as (W1 & _ & P1 & L1).
  set (st1 := snd (checkAndAddPage 10 st)) in *.
  split.
  - apply Writing_setY.
    + apply Writing_draw; [exact W1|exact P1].
    + cbn [draw yPosition]. destruct W1 as (_ & _ & Hy & _). lra.
  - cbn [setY pages]. rewrite draw_length. lia.
Qed.

Lemma lines_onward (c : Page) (n : nat) (r step : Q) (lines : list string) (st : Layout) :
  0 <= r -> 0 <= step ->
  Onward c n st ->
  Onward c n (JS.forEach (fun line (_ : nat) => lineAtCursor r step line) lines st).
Proof.
  intros Hr Hs. unfold JS.forEach. apply forEachFrom_inv.
  intros x k s. now apply lineAtCursor_onward.
Qed.

(** A section starts a page of its own and leaves the state fit for
    writing. *)
Lemma section_onward (c : Page) (result : SearchResult) (index : nat) (st : Layout) :
  Writing c st ->
  Onward c (S (List.length (pages st))) (section result index st).
Proof.
  intros W. unfold GeneratePdf.section.
  set (n := S (List.length (pages st))).
  assert (O1 : Onward c n (setY margin (addPage st))).
  { split; [apply Writing_setY; [now apply Writing_addPage|unfold margin; lra]|].
    cbn [setY pages]. rewrite addPage_length. unfold n. lia. }
  set (st1 := setY margin (addPage st)) in *.
  assert (O2 : Onward c n (setY (yPosition (draw (Text (sectionLabel index) margin (yPosition st1) AlignLeft) st1) + 10)
                                (draw (Text (sectionLabel index) margin (yPosition st1) AlignLeft) st1))).
  { destruct O1 as [W1 L1]. split.
    - apply Writing_setY; [apply Writing_draw; [exact W1|exact printable_margin]|].
      cbn [draw yPosition st1 setY]. unfold margin. lra.
    - cbn [setY pages]. rewrite draw_length. exact L1. }
  set (st2 := setY _ _) in O2 |- *. clearbody st2.
  apply (lines_onward c n 12 10 (wrapText splitTextToSize (title result) (contentWidth pageWidth) 20))
    in O2; [|lra|lra].
  set (st3 := JS.forEach _ _ st2) in O2 |- *. clearbody st3.
  assert (O4 : Onward c n (setY (yPosition st3 + 5) st3)).
  { destruct O2 as [W3 L3]. split; [|exact L3].
    apply Writing_setY; [exact W3|]. destruct W3 as (_ & _ & Hy & _). lra. }
  set (st4 := setY _ st3) in O4 |- *. clearbody st4.
  apply (lines_onward c n 8 6 (wrapText splitTextToSize (content result) (contentWidth pageWidth) 11))
    in O4; [|lra|lra].
  set (st5 := JS.forEach _ _ st4) in O4 |- *. clearbody st5.
  assert (O6 : Onward c n (setY (yPosition st5 + 10) st5)).
  { destruct O4 as [W5 L5]. split; [|exact L5].
    apply Writing_setY; [exact W5|]. destruct W5 as (_ & _ & Hy & _). lra. }
  set (st6 := setY _ st5) in O6 |- *. clearbody st6.
  destruct O6 as [W6 L6].
  destruct (check_spec c 10 st6 W6 ltac:(lra)) as (W7 & S7 & P7 & L7).
  set (st7 := snd (checkAndAddPage 10 st6)) in *. clearbody st7.
  set (st8 := draw (Text _ margin (yPosition st7) AlignLeft) st7).
  assert (W8 : Writing c st8) by (apply Writing_draw; [exact W7|exact P7]).
  assert (Y8 : yPosition st8 = yPosition st7) by reflexivity.
  assert (L8 : List.length (pages st8) = List.length (pages st7)) by apply draw_length.
  clearbody st8.
  assert (P9 : tall -> printable (yPosition st8 + 5)).
  { intros T. rewrite Y8. destruct (P7 T) as [Pa Pb]. split; [lra|].
    destruct S7 as [S7|S7]; [lra|]. rewrite S7.
    unfold GeneratePdf.tall, margin in *. lra. }
  split.
  - apply Writing_draw.
    + apply Writing_setY; [exact W8|].
      destruct W8 as (_ & _ & Hy & _). lra.
    + cbn [setY yPosition]. intros T. split; exact (P9 T).
  - rewrite draw_length. cbn [setY pages]. lia.
Qed.

Lemma sections_onward (c : Page) (results : list SearchResult) (i : nat) (st : Layout) :
  Writing c st ->
  Onward c (List.length results + List.length (pages st))
         (JS.forEachFrom section results i st).
Proof.
  revert i st; induction results as [|r results IH]; intros i st W.
  - split; [exact W|simpl; lia].
  - cbn [JS.forEachFrom List.length].
    destruct (section_onward c r i st W) as [W1 L1].
    destruct (IH (S i) _ W1) as [W2 L2].
    split; [exact W2|lia].
Qed.

(** *** The cover *)

Lemma OnCover_draw (op : DrawOp) (st : Layout) :
  OnCover st -> notFooter op -> OnCover (draw op st).
Proof.
  intros (Hc & p & Hp & Hf) Hop. unfold draw. rewrite Hc, Hp.
  split; [reflexivity|]. exists (p ++ [op])%list. split; [reflexivity|].
  apply Forall_app. split; [exact Hf|]. constructor; [exact Hop|constructor].
Qed.

Lemma cover_OnCover (topic : string) : OnCover (cover topic (blank margin)).
Proof.
  unfold GeneratePdf.cover.
  assert (H0 : OnCover (draw (Rect 0 0 pageWidth pageHeight) (blank margin))).
  { apply OnCover_draw; [|exact I].
    split; [reflexivity|]. exists []. split; [reflexivity|constructor]. }
  set (st0 := draw (Rect 0 0 pageWidth pageHeight) (blank margin)) in *. clearbody st0.
  set (lines := wrapText splitTextToSize (toUpperCase topic) (contentWidth pageWidth - 20) 32).
  set (y0 := (pageHeight - inject_Z (Z.of_nat (List.length lines)) * 12) / 2).
  clearbody y0 lines.
  assert (H1 : OnCover (fst (JS.forEach
             (fun line (_ : nat) '(st, titleY) =>
                (draw (Text line ((pageWidth - getTextWidth line) / 2) titleY AlignLeft) st,
                 titleY + 12)) lines (st0, y0)))).
  { unfold JS.forEach.
    apply (forEachFrom_inv (fun s : Layout * Q => OnCover (fst s))); [|exact H0].
    intros line k [st y] H. cbn [fst] in *. apply OnCover_draw; [exact H|exact I]. }
  set (st1 := fst _) in H1 |- *. clearbody st1.
  apply OnCover_draw; [apply OnCover_draw; [exact H1|]|]; cbn; lra.
Qed.

(** *** The table of contents *)

Lemma tableOfContents_onward (c : Page) (results : list SearchResult) (st : Layout) :
  OnCover st -> pages st = [c] ->
  Onward c 2 (tableOfContents results st).
Proof.
  intros (Hc & p & Hp & Hf) Hpages. unfold GeneratePdf.tableOfContents.
  assert (W1 : Writing c (setY margin (addPage st))).
  { unfold addPage, setY. rewrite Hpages. repeat split; cbn; try lia.
    - unfold margin. lra.
    - intros T j q Hj Hq. destruct j as [|[|j]]; [lia| |destruct j; discriminate].
      injection Hq as <-. constructor. }
  set (st1 := setY margin (addPage st)) in *.
  assert (W2 : Writing c (draw (Text "Table of Contents" margin (yPosition st1) AlignLeft) st1))
    by (apply Writing_draw; [exact W1|exact printable_margin]).
  set (st2 := draw _ st1) in *.
  assert (O3 : Onward c 2 (setY (yPosition st2 + 15) st2)).
  { split.
    - apply Writing_setY; [exact W2|]. cbn. unfold margin. lra.
    - destruct W2 as (_ & L & _). exact L. }
  unfold JS.forEach. apply forEachFrom_inv; [|exact O3].
  intros r k s. apply tocEntry_onward.
Qed.

(** *** The passes before the footers *)

Lemma body_onward (topic : string) (results : list SearchResult) :
  exists c, Forall notFooter c /\
            Onward c (List.length results + 2) (body topic results).
Proof.
  destruct (cover_OnCover topic) as (Hc & c & Hp & Hf).
  exists c. split; [exact Hf|]. unfold GeneratePdf.body, JS.forEach.
  destruct (tableOfContents_onward c results _ (conj Hc (ex_intro _ c (conj Hp Hf))) Hp)
    as [W L].
  destruct (sections_onward c results 0 _ W) as [W' L'].
  split; [exact W'|lia].
Qed.

Lemma body_empty_pages (topic : string) :
  List.length (pages (body topic [])) = 2%nat.
Proof.
  destruct (cover_OnCover topic) as (Hc & c & Hp & Hf).
  unfold GeneratePdf.body, JS.forEach. cbn [JS.forEachFrom].
  unfold GeneratePdf.tableOfContents, JS.forEach. cbn [JS.forEachFrom setY pages].
  rewrite draw_length. cbn [setY pages]. rewrite addPage_length, Hp. reflexivity.
Qed.

(** *** The footer loop *)

Lemma setPage_pages (i : nat) (st : Layout) : pages (setPage i st) = pages st.
Proof. unfold setPage. destruct (_ && _)%bool; reflexivity. Qed.

Lemma footer_length (topic : string) (n i : nat) (st : Layout) :
  List.length (pages (footer topic n i st)) = List.length (pages st).
Proof.
  unfold GeneratePdf.footer. destruct (1 <? i)%nat.
  - rewrite draw_length, setPage_pages. reflexivity.
  - now rewrite setPage_pages.
Qed.

(** The loop up to page [k]: the pages from the second to the [k]-th
    have their footer at the end, the others are as before. *)
Lemma footers_upto (topic : string) (n k : nat) (st : Layout) :
  (k <= List.length (pages st))%nat ->
  let st' := fold_left (fun st i => footer topic n i st) (seq 1 k) st in
  List.length (pages st') = List.length (pages st) /\
  forall j, nth_error (pages st') j
            = option_map (fun p => if ((1 <=? j) && (j <? k))%nat
                                   then (p ++ [footerOp topic (j + 1) n])%list else p)
                         (nth_error (pages st) j).
Proof.
  induction k as [|k IH]; intros Hk.
  - cbn. split; [reflexivity|]. intros j. rewrite andb_false_r.
    destruct (nth_error (pages st) j); reflexivity.
  - rewrite seq_S, fold_left_app. cbn [fold_left].
    destruct (IH ltac:(lia)) as [L N].
    set (st1 := fold_left _ (seq 1 k) st) in *. clearbody st1.
    cbv zeta. split; [rewrite footer_length; exact L|].
    intros j. unfold GeneratePdf.footer.
    destruct k as [|k].
    + cbn [Nat.add Nat.ltb Nat.leb]. rewrite setPage_pages, N.
      destruct (nth_error (pages st) j); cbn; [|reflexivity].
      f_equal. rewrite andb_false_r.
      destruct j as [|[|j]]; reflexivity.
    + replace (1 <? 1 + S k)%nat with true by (symmetry; apply Nat.ltb_lt; lia).
      unfold draw, setPage.
      replace ((1 <=? 1 + S k) && (1 + S k <=? List.length (pages st1)))%nat with true
        by (symmetry; apply andb_true_iff; split; apply Nat.leb_le; lia).
      cbn [pages current]. rewrite onPage_nth, N.
      replace (1 + S k - 1)%nat with (S k) by lia.
      destruct (Nat.eqb_spec j (S k)) as [->|Hne].
      * destruct (nth_error (pages st) (S k)); cbn [option_map]; [|reflexivity].
        f_equal.
        replace (S k <? S k)%nat with false by (symmetry; apply Nat.ltb_ge; lia).
        replace (S k <? S (S k))%nat with true by (symmetry; apply Nat.ltb_lt; lia).
        rewrite andb_false_r. cbn [Nat.leb andb].
        replace (S k + 1)%nat with (1 + S k)%nat by lia. reflexivity.
      * destruct (nth_error (pages st) j); cbn [option_map]; [|reflexivity].
        f_equal.
        destruct (Nat.ltb_spec j (S k)), (Nat.ltb_spec j (S (S k))); try lia; reflexivity.
Qed.

(** The whole loop. *)
Lemma footers_pages (topic : string) (st : Layout) :
  let n := List.length (pages st) in
  List.length (pages (footers topic st)) = n /\
  forall j p, nth_error (pages st) j = Some p ->
              nth_error (pages (footers topic st)) j
              = Some (if (1 <=? j)%nat then (p ++ [footerOp topic (j + 1) n])%list else p).
Proof.
  cbv zeta. unfold GeneratePdf.footers, getNumberOfPages.
  destruct (footers_upto topic (List.length (pages st)) (List.length (pages st)) st (le_n _))
    as [L N].
  split; [exact L|].
  intros j p Hp. rewrite N, Hp. cbn [option_map].
  assert (j < List.length (pages st))%nat by (apply nth_error_Some; congruence).
  replace (j <? List.length (pages st))%nat with true by (symmetry; apply Nat.ltb_lt; lia).
  rewrite andb_true_r. reflexivity.
Qed.

End Handler.

End LayoutFacts.

(** ** The links of the table of contents *)

Module LinkFacts.

Import Pdf PdfFacts GeneratePdf.
Local Open Scope Q_scope.

Lemma links_addPage (st : Layout) : links (addPage st) = links st.
Proof.
  unfold links, addPage. cbn [pages]. rewrite flat_map_app. cbn. apply app_nil_r.
Qed.

(** A drawing on the last page adds its link, if it is one, after all
    the links there are. *)
Lemma links_onPage_last (op : DrawOp) (ps : list Page) :
  ps <> [] ->
  flat_map linksOn (onPage (List.length ps - 1) (fun p => (p ++ [op])%list) ps)
  = (flat_map linksOn ps ++ linksOn [op])%list.
Proof.
  induction ps as [|p ps IH]; [congruence|]. intros _.
  destruct ps as [|q ps].
  - cbn [List.length Nat.sub onPage flat_map]. unfold linksOn at 1.
    rewrite flat_map_app, !app_nil_r. reflexivity.
  - replace (List.length (p :: q :: ps) - 1)%nat with (S (List.length (q :: ps) - 1))
      by (cbn [List.length]; lia).
    cbn [onPage]. cbn [flat_map] in *. rewrite IH by discriminate.
    rewrite app_assoc. reflexivity.
Qed.

(** A drawing that is no link adds none, on whatever page. *)
Lemma links_onPage_plain (op : DrawOp) (i : nat) (ps : list Page) :
  linksOn [op] = [] ->
  flat_map linksOn (onPage i (fun p => (p ++ [op])%list) ps) = flat_map linksOn ps.
Proof.
  intros H. revert i; induction ps as [|p ps IH]; intros [|i]; cbn [onPage flat_map];
    try reflexivity.
  - unfold linksOn at 1. rewrite flat_map_app. fold (linksOn p). fold (linksOn [op]).
    now rewrite H, app_nil_r.
  - now rewrite IH.
Qed.

Lemma links_draw_plain (op : DrawOp) (st : Layout) :
  linksOn [op] = [] -> links (draw op st) = links st.
Proof. intros H. unfold links, draw. cbn [pages]. now apply links_onPage_plain. Qed.

Lemma links_draw_last (op : DrawOp) (st : Layout) :
  current st = List.length (pages st) -> pages st <> [] ->
  links (draw op st) = (links st ++ linksOn [op])%list.
Proof.
  intros H Hne. unfold links, draw. cbn [pages]. rewrite H. now apply links_onPage_last.
Qed.

Section Handler.

Variables pageWidth pageHeight : Q.
Variable splitTextToSize : Q -> string -> Q -> list string.
Variable getTextWidth : string -> Q.
Variable toUpperCase : string -> string.
Variable currentDate : string.

Lemma links_check (r : Q) (st : Layout) :
  links (snd (checkAndAddPage pageHeight r st)) = links st.
Proof.
  unfold checkAndAddPage. destruct (gtb _ _); [|reflexivity].
  cbn [snd]. apply links_addPage.
Qed.

Lemma links_lineAtCursor (r step : Q) (line : string) (st : Layout) :
  links (lineAtCursor pageHeight r step line st) = links st.
Proof.
  unfold lineAtCursor. change (links (setY ?y ?s)) with (links s).
  rewrite links_draw_plain by reflexivity. apply links_check.
Qed.

Lemma links_lines (r step : Q) (lines : list string) (st : Layout) :
  links (JS.forEach (fun line (_ : nat) => lineAtCursor pageHeight r step line) lines st)
  = links st.
Proof.
  unfold JS.forEach. generalize 0%nat.
  revert st; induction lines as [|l lines IH]; intros st i; [reflexivity|].
  cbn [JS.forEachFrom]. rewrite IH. apply links_lineAtCursor.
Qed.

Lemma links_section (result : SearchResult) (index : nat) (st : Layout) :
  links (section pageWidth pageHeight splitTextToSize result index st) = links st.
Proof.
  unfold section.
  rewrite links_draw_plain by reflexivity. change (links (setY ?y ?s)) with (links s).
  rewrite links_draw_plain by reflexivity. rewrite links_check.
  change (links (setY ?y ?s)) with (links s). rewrite links_lines.
  change (links (setY ?y ?s)) with (links s). rewrite links_lines.
  change (links (setY ?y ?s)) with (links s).
  rewrite links_draw_plain by reflexivity.
  change (links (setY ?y ?s)) with (links s). apply links_addPage.
Qed.

Lemma links_sections (results : list SearchResult) (i : nat) (st : Layout) :
  links (JS.forEachFrom (section pageWidth pageHeight splitTextToSize) results i st)
  = links st.
Proof.
  revert i st; induction results as [|r results IH]; intros i st; [reflexivity|].
  cbn [JS.forEachFrom]. rewrite IH. apply links_section.
Qed.

Lemma links_entries (c : Page) (results : list SearchResult) (i : nat) (st : Layout) :
  Writing pageHeight c st ->
  links (JS.forEachFrom (tocEntry pageHeight) results i st)
  = (links st ++ expectedLinks results i)%list.
Proof.
  revert i st; induction results as [|r results IH]; intros i st W.
  - cbn. now rewrite app_nil_r.
  - cbn [JS.forEachFrom expectedLinks].
    destruct (LayoutFacts.tocEntry_onward pageHeight c 0 r i st (conj W (Nat.le_0_l _)))
      as [W1 _].
    rewrite (IH _ _ W1). unfold tocEntry.
    change (links (setY ?y ?s)) with (links s).
    destruct (LayoutFacts.check_spec pageHeight c 10 st W ltac:(lra))
      as ((Hc & Hn & _) & _).
    rewrite links_draw_last
      by (try exact Hc; intros E; rewrite E in Hn; cbn in Hn; lia).
    rewrite links_check, <- app_assoc. reflexivity.
Qed.

Lemma links_cover (topic : string) :
  links (cover pageWidth pageHeight splitTextToSize getTextWidth toUpperCase currentDate
           topic (blank margin)) = [].
Proof.
  unfold cover. rewrite !links_draw_plain by reflexivity.
  unfold JS.forEach. generalize 0%nat.
  set (st0 := draw _ (blank margin)).
  assert (H0 : links st0 = []) by reflexivity. clearbody st0.
  generalize ((pageHeight - inject_Z (Z.of_nat (List.length
     (wrapText splitTextToSize (toUpperCase topic) (contentWidth pageWidth - 20) 32))) * 12) / 2).
  revert st0 H0.
  induction (wrapText splitTextToSize (toUpperCase topic) (contentWidth pageWidth - 20) 32)
    as [|l lines IH]; intros st0 H0 y i; [exact H0|].
  cbn [JS.forEachFrom]. apply IH. rewrite links_draw_plain by reflexivity. exact H0.
Qed.

Lemma links_footers (topic : string) (st : Layout) :
  links (footers pageWidth pageHeight topic st) = links st.
Proof.
  unfold footers. generalize (getNumberOfPages st) at 1 as n. intros n.
  generalize (seq 1 (getNumberOfPages st)) as l.
  intros l; revert st; induction l as [|i l IH]; intros st; [reflexivity|].
  cbn [fold_left]. rewrite IH. unfold footer.
  assert (E : links (setPage i st) = links st)
    by (unfold links; now rewrite LayoutFacts.setPage_pages).
  destruct (1 <? i)%nat; [|exact E].
  rewrite links_draw_plain by reflexivity. exact E.
Qed.

(** The links of the document: one for each result, in order, the
    [i]-th (from 0) to page [i + 3]. *)
Lemma links_layout (topic : string) (results : list SearchResult) :
  links (layout pageWidth pageHeight splitTextToSize getTextWidth toUpperCase currentDate
           topic results)
  = expectedLinks results 0.
Proof.
  unfold layout. rewrite links_footers. unfold body, JS.forEach.
  rewrite links_sections. unfold tableOfContents, JS.forEach.
  destruct (LayoutFacts.cover_OnCover pageWidth pageHeight splitTextToSize getTextWidth
              toUpperCase currentDate topic) as (Hc & c & Hp & Hf).
  set (st := cover _ _ _ _ _ _ topic (blank margin)) in *.
  assert (W : Writing pageHeight c
                (setY (yPosition (draw (Text "Table of Contents" margin
                                    (yPosition (setY margin (addPage st))) AlignLeft)
                                    (setY margin (addPage st))) + 15)
                      (draw (Text "Table of Contents" margin
                                    (yPosition (setY margin (addPage st))) AlignLeft)
                                    (setY margin (addPage st))))).
  { destruct (LayoutFacts.tableOfContents_onward pageHeight c [] st
                (conj Hc (ex_intro _ c (conj Hp Hf))) Hp) as [W _].
    exact W. }
  rewrite (links_entries c _ _ _ W).
  change (links (setY ?y ?s)) with (links s).
  rewrite links_draw_plain by reflexivity.
  change (links (setY ?y ?s)) with (links s).
  rewrite links_addPage. unfold st. rewrite links_cover. reflexivity.
Qed.

Lemma expectedLinks_length (results : list SearchResult) (i : nat) :
  List.length (expectedLinks results i) = List.length results.
Proof.
  revert i; induction results as [|r results IH]; intros i; simpl; [reflexivity|].
  now rewrite IH.
Qed.

End Handler.

End LinkFacts.

(** C9.  In the document handed out, every page from the second on is
    the page as the earlier passes left it followed by one more text,
    ["{topic} - Page {i} of {total}"] centred 10 mm above the bottom
    edge, [i] being the page's number from 1 and [total] the number of
    pages; the first page is the cover as it was drawn and holds no such
    text; and without results there are exactly two pages. *)
Theorem C9_footer_on_every_page_but_the_cover
  (pageWidth pageHeight : Q) (splitTextToSize : Q -> string -> Q -> list string)
  (getTextWidth : string -> Q) (toUpperCase : string -> string) (currentDate : string)
  (topic : string) (results : list SearchResult) :
  let d := GeneratePdf.layout pageWidth pageHeight splitTextToSize getTextWidth
             toUpperCase currentDate topic results in
  let b := GeneratePdf.body pageWidth pageHeight splitTextToSize getTextWidth
             toUpperCase currentDate topic results in
  let total := List.length (pages d) in
  let stamp (i : nat) :=
    Text (topic ++ " - Page " ++ JS.ofNat i ++ " of " ++ JS.ofNat total)
         (pageWidth / 2)%Q (pageHeight - 10)%Q AlignCenter in
  (List.length results + 2 <= total) /\
  (forall i, 2 <= i <= total ->
     exists p, nth_error (pages b) (i - 1) = Some p /\
               nth_error (pages d) (i - 1) = Some (p ++ [stamp i])%list) /\
  (exists c, nth_error (pages b) 0 = Some c /\
             nth_error (pages d) 0 = Some c /\
             forall t i n, ~ In (GeneratePdf.footerOp pageWidth pageHeight t i n) c) /\
  (results = [] -> total = 2).
Proof.
  intros d b total stamp.
  assert (L : total = List.length (pages b))
    by apply (proj1 (LayoutFacts.footers_pages pageWidth pageHeight topic b)).
  assert (N : forall j p, nth_error (pages b) j = Some p ->
                nth_error (pages d) j
                = Some (if (1 <=? j)%nat
                        then (p ++ [GeneratePdf.footerOp pageWidth pageHeight topic (j + 1)
                                      (List.length (pages b))])%list
                        else p))
    by apply (proj2 (LayoutFacts.footers_pages pageWidth pageHeight topic b)).
  destruct (LayoutFacts.body_onward pageWidth pageHeight splitTextToSize getTextWidth
              toUpperCase currentDate topic results) as (c & Hc & W & Hn).
  fold b in W, Hn. destruct W as (_ & _ & _ & H0 & _).
  split; [lia|]. split; [|split].
  - intros i Hi.
    destruct (nth_error (pages b) (i - 1)) as [p|] eqn:E.
    + exists p. split; [reflexivity|]. rewrite (N _ _ E).
      replace (1 <=? i - 1)%nat with true by (symmetry; apply Nat.leb_le; lia).
      replace (i - 1 + 1) with i by lia. rewrite <- L. reflexivity.
    + apply nth_error_None in E. lia.
  - exists c. split; [exact H0|]. split; [rewrite (N _ _ H0); reflexivity|].
    intros t i n Hin.
    rewrite Forall_forall in Hc. apply Hc in Hin. apply Hin. reflexivity.
  - intros ->. rewrite L. apply LayoutFacts.body_empty_pages.
Qed.

Lemma sample_tall : (45 <= Sample.pageHeight)%Q.
Proof. unfold Qle. simpl. lia. Qed.

(** C8 (the claim as stated fails).  On an A4 page, a topic of thirty
    lines and one result.  The cover's title is drawn line by line with
    no page-break check: its first line lies above the top edge of the
    page and its thirtieth below the bottom edge.  And the footer of
    page 2 is a text line below [pageHeight - margin]. *)
Lemma C8_cover_title_and_footer_leave_the_band :
  let d := Sample.layout (Sample.column 30) [mkSearchResult "B" "y" "s"] in
  let coverPage := nth 0 (pages d) [] in
  let stamp := GeneratePdf.footerOp Sample.pageWidth Sample.pageHeight
                 (Sample.column 30) 2 3 in
  List.length (pages d) = 3 /\
  (match nth 1 coverPage (Rect 0 0 0 0) with
   | Text line _ y AlignLeft => line = "X" /\ (y < 0)%Q
   | _ => False
   end) /\
  (match nth 30 coverPage (Rect 0 0 0 0) with
   | Text line _ y AlignLeft => line = "X" /\ (Sample.pageHeight < y)%Q
   | _ => False
   end) /\
  In stamp (nth 1 (pages d) []) /\
  ~ GeneratePdf.inBand Sample.pageHeight stamp.
Proof.
  split; [vm_compute; reflexivity|].
  split; [vm_compute; split; reflexivity|].
  split; [vm_compute; split; reflexivity|].
  split; [vm_compute; auto|].
  intros [_ H]. vm_compute in H. apply H. reflexivity.
Qed.

(** C8 (amended).  On a page at least 45 mm high: whatever the handler
    writes at the cursor (all that pages 2 and later hold, their footer
    apart) lies between the top margin and [pageHeight - margin]; the
    cursor ends the passes at or below the top margin; a check made
    when the cursor has passed [pageHeight - margin] breaks the page and
    puts the cursor back at the top margin; and after a check either the
    space asked for fits above [pageHeight - margin] or the cursor is at
    the top margin.  The footers are not part of this: each page from
    the second on holds its footer, which lies below
    [pageHeight - margin]. *)
Theorem C8_written_between_the_margins
  (pageWidth pageHeight : Q) (splitTextToSize : Q -> string -> Q -> list string)
  (getTextWidth : string -> Q) (toUpperCase : string -> string) (currentDate : string)
  (topic : string) (results : list SearchResult) :
  (45 <= pageHeight)%Q ->
  let d := GeneratePdf.layout pageWidth pageHeight splitTextToSize getTextWidth
             toUpperCase currentDate topic results in
  let b := GeneratePdf.body pageWidth pageHeight splitTextToSize getTextWidth
             toUpperCase currentDate topic results in
  let total := List.length (pages d) in
  (forall i p op, 2 <= i -> nth_error (pages d) (i - 1) = Some p -> In op p ->
     op = GeneratePdf.footerOp pageWidth pageHeight topic i total \/
     GeneratePdf.inBand pageHeight op) /\
  (GeneratePdf.margin <= yPosition b)%Q /\
  (forall st r, (0 <= r)%Q -> (pageHeight - GeneratePdf.margin < yPosition st)%Q ->
     GeneratePdf.checkAndAddPage pageHeight r st
     = (true, Pdf.setY GeneratePdf.margin (Pdf.addPage st))) /\
  (forall st r, (yPosition (snd (GeneratePdf.checkAndAddPage pageHeight r st)) + r
                 <= pageHeight - GeneratePdf.margin)%Q \/
                yPosition (snd (GeneratePdf.checkAndAddPage pageHeight r st))
                = GeneratePdf.margin) /\
  (forall i, 2 <= i <= total ->
     exists p, nth_error (pages d) (i - 1) = Some p /\
       In (GeneratePdf.footerOp pageWidth pageHeight topic i total) p /\
       ~ GeneratePdf.inBand pageHeight
           (GeneratePdf.footerOp pageWidth pageHeight topic i total)).
Proof.
  intros T d b total.
  assert (L : total = List.length (pages b))
    by apply (proj1 (LayoutFacts.footers_pages pageWidth pageHeight topic b)).
  assert (N : forall j p, nth_error (pages b) j = Some p ->
                nth_error (pages d) j
                = Some (if (1 <=? j)%nat
                        then (p ++ [GeneratePdf.footerOp pageWidth pageHeight topic (j + 1)
                                      (List.length (pages b))])%list
                        else p))
    by apply (proj2 (LayoutFacts.footers_pages pageWidth pageHeight topic b)).
  destruct (LayoutFacts.body_onward pageWidth pageHeight splitTextToSize getTextWidth
              toUpperCase currentDate topic results) as (c & Hc & W & Hn).
  fold b in W, Hn. destruct W as (_ & _ & Hy & _ & Hb).
  split; [|split; [exact Hy|split; [|split]]].
  - intros i p op Hi Hp Hin.
    destruct (nth_error (pages b) (i - 1)) as [p0|] eqn:E.
    + rewrite (N _ _ E) in Hp.
      replace (1 <=? i - 1)%nat with true in Hp by (symmetry; apply Nat.leb_le; lia).
      injection Hp as <-. apply in_app_or in Hin as [Hin|[<-|[]]].
      * right. specialize (Hb T (i - 1) p0 ltac:(lia) E).
        rewrite Forall_forall in Hb. now apply Hb.
      * left. replace (i - 1 + 1) with i by lia. rewrite <- L. reflexivity.
    + apply nth_error_None in E.
      assert (i - 1 < List.length (pages d)) by (apply nth_error_Some; congruence).
      fold total in H. lia.
  - intros st r Hr Hover. unfold GeneratePdf.checkAndAddPage.
    destruct (Pdf.gtb _ _) eqn:E; [reflexivity|].
    apply PdfFacts.gtb_false in E. lra.
  - intros st r. unfold GeneratePdf.checkAndAddPage.
    destruct (Pdf.gtb _ _) eqn:E; cbn [snd].
    + right. reflexivity.
    + left. now apply PdfFacts.gtb_false.
  - intros i [Hi Ht].
    destruct (nth_error (pages b) (i - 1)) as [p0|] eqn:E;
      [|apply nth_error_None in E; lia].
    exists (p0 ++ [GeneratePdf.footerOp pageWidth pageHeight topic i total])%list.
    split; [|split].
    + rewrite (N _ _ E).
      replace (1 <=? i - 1)%nat with true by (symmetry; apply Nat.leb_le; lia).
      replace (i - 1 + 1) with i by lia. now rewrite <- L.
    + apply in_or_app. right. left. reflexivity.
    + unfold GeneratePdf.footerOp, GeneratePdf.inBand, GeneratePdf.printable,
        GeneratePdf.margin.
      intros [_ H]. lra.
Qed.

Lemma C8_witness :
  (45 <= Sample.pageHeight)%Q /\
  Forall (fun op =>
            op = GeneratePdf.footerOp Sample.pageWidth Sample.pageHeight "T" 3 3 \/
            GeneratePdf.inBand Sample.pageHeight op)
         (nth 2 (pages (Sample.layout "T" [mkSearchResult "B" "y" "s"])) []).
Proof.
  split; [exact sample_tall|].
  apply Forall_forall. intros op Hin.
  exact (proj1 (C8_written_between_the_margins
                  Sample.pageWidth Sample.pageHeight Sample.splitTextToSize
                  Sample.getTextWidth Sample.toUpperCase Sample.currentDate
                  "T" [mkSearchResult "B" "y" "s"] sample_tall)
               3 _ op (le_S _ _ (le_n 2)) eq_refl Hin).
Defined.

(** C1 (failing input).  Two results, the body of the first wrapping
    into fifty lines: the first section fills pages 3 and 4, the second
    begins on page 5, and the second entry of the table of contents
    links to page 4. *)
Theorem C1_link_misses_section_after_wrapped_body :
  let r1 := mkSearchResult "A" (Sample.column 50) "s" in
  let r2 := mkSearchResult "B" "y" "s" in
  let d := Sample.layout "T" [r1; r2] in
  List.length (Sample.splitTextToSize 11 (content r1) (GeneratePdf.contentWidth Sample.pageWidth)) = 50 /\
  List.length (pages d) = 5 /\
  Pdf.links d = [("1. A", 3); ("2. B", 4)] /\
  Pdf.pagesShowing "Table of Contents" d = [2] /\
  Pdf.pagesShowing "SECTION 1" d = [3] /\
  Pdf.pagesShowing "SECTION 2" d = [5].
Proof.
  repeat split; vm_compute; reflexivity.
Qed.

(** The same happens without any wrapped body once the table of
    contents itself needs a second page: with thirty-five short results
    it runs onto page 3, the first section begins on page 4, and the
    first entry links to page 3. *)
Example long_table_of_contents_shifts_every_section :
  let d := Sample.layout "T" (Sample.shortResults 35) in
  List.length (pages d) = 38 /\
  nth_error (Pdf.links d) 0 = Some ("1. B", 3) /\
  List.length (Pdf.linksOn (nth 1 (pages d) [])) = 34 /\
  List.length (Pdf.linksOn (nth 2 (pages d) [])) = 1 /\
  Pdf.pagesShowing "SECTION 1" d = [4].
Proof.
  repeat split; vm_compute; reflexivity.
Qed.

(* ================================================================= *)
(** * Further properties of the code *)

(** ** Content synthesis and the catalog *)

Module SynthMore.

Import Synth.

Lemma prefix_append (t b : string) : String.prefix t (t ++ b) = true.
Proof.
  induction t as [|c t IH]; simpl; [now destruct b|].
  destruct (ascii_dec c c); [exact IH|congruence].
Qed.

Lemma prefix_append_l (w s b : string) :
  String.prefix w s = true -> String.prefix w (s ++ b) = true.
Proof.
  revert s; induction w as [|c w IH]; intros s H; [now destruct (s ++ b)|].
  destruct s as [|d s]; simpl in *; [discriminate|].
  destruct (ascii_dec c d); [now apply IH|discriminate].
Qed.

Lemma includes_append_r (a s w : string) :
  JS.includes s w = true -> JS.includes (a ++ s) w = true.
Proof.
  intros H. induction a as [|c a IH]; [exact H|].
  change (String c a ++ s) with (String c (a ++ s)). cbn [JS.includes].
  rewrite IH. apply orb_true_r.
Qed.

Lemma includes_append_l (s b w : string) :
  JS.includes s w = true -> JS.includes (s ++ b) w = true.
Proof.
  induction s as [|c s IH]; intros H.
  - cbn [JS.includes] in H. rewrite orb_false_r in H.
    destruct w; [now destruct b|]. simpl in H. discriminate.
  - change (String c s ++ b) with (String c (s ++ b)). cbn [JS.includes] in *.
    apply orb_true_iff in H as [H|H].
    + apply (prefix_append_l _ _ b) in H.
      change (String c s ++ b) with (String c (s ++ b)) in H. now rewrite H.
    + rewrite (IH H). apply orb_true_r.
Qed.

Lemma includes_prefix (s w : string) : String.prefix w s = true -> JS.includes s w = true.
Proof. intros H. destruct s; cbn [JS.includes]; now rewrite H. Qed.

(** A text with the topic in its middle contains the topic. *)
Lemma includes_mid (a b t : string) : JS.includes (a ++ t ++ b) t = true.
Proof. apply includes_append_r, includes_prefix, prefix_append. Qed.

Lemma Some_eq {A} (a b : A) : Some a = Some b -> a = b.
Proof. intros H. now injection H. Qed.

Lemma Ok_eq {A} (a b : A) : Ok a = Ok b -> a = b.
Proof. intros H. now injection H. Qed.

(** Every value of [perspectives] contains the topic. *)
Lemma perspectives_mention (topic k v : string) :
  get k (perspectives topic) = Some v -> JS.includes v topic = true.
Proof.
  unfold perspectives. cbn [get].
  repeat match goal with
         | |- context [if ?b then _ else _] =>
             destruct b;
             [intros H; apply Some_eq in H; subst v; apply includes_mid|]
         end.
  intros H. discriminate H.
Qed.

End SynthMore.

(** X1.  Whatever the topic and the query, the text [synthesizeContent]
    returns contains the topic. *)
Theorem X1_content_mentions_topic (topic q : string) :
  JS.includes (Synth.synthesizeContent topic q) topic = true.
Proof.
  apply (SynthMore.perspectives_mention topic (Synth.key topic q)).
  apply SynthFacts.synthesizeContent_get.
Qed.

Module CatalogMore.

Import Synth.

(** The query of a stage holds the first word of its own entry of
    [queries], so [findIndex] stops there at the latest. *)
Lemma index_at_most_stage (topic : string) (i : nat) (q : SearchQuery) :
  nth_error (searchQueries topic) i = Some q ->
  exists j, j <= i /\ index (query q) = Z.of_nat j.
Proof.
  intros Hq.
  do 8 (destruct i as [|i];
        [ apply SynthMore.Some_eq in Hq; subst q; cbn [query];
          unfold index, JS.findIndex, queries; cbn [JS.findIndexFrom];
          cbn [JS.firstWord Ascii.eqb Bool.eqb];
          match goal with
          | |- context [JS.includes (topic ++ ?suffix) _] =>
              repeat match goal with
                     | |- context [JS.includes (topic ++ suffix) ?kw] =>
                         lazymatch eval vm_compute in (JS.includes suffix kw) with
                         | true =>
                             rewrite (SynthMore.includes_append_r topic suffix kw eq_refl)
                         end
                     end
          end;
          repeat match goal with
                 | |- context [if ?b then _ else _] => destruct b
                 end;
          match goal with
          | |- exists j, _ /\ ?z = _ => exists (Z.to_nat z); split; [cbn; lia|reflexivity]
          end
        | ]).
  destruct i; discriminate.
Qed.

End CatalogMore.

(** X2.  For every topic, the stage at position [i] of the catalog is
    given the text of a category at a position [j <= i]: a word of the
    topic can pull a stage back to an earlier category, never forward.
    The first stage therefore always gets the overview. *)
Theorem X2_stage_text_never_of_a_later_category
  (topic : string) (i : nat) (q : SearchQuery) :
  nth_error (searchQueries topic) i = Some q ->
  exists j c,
    j <= i /\
    Synth.index (query q) = Z.of_nat j /\
    nth_error categories j = Some c /\
    Some (Synth.synthesizeContent topic (query q)) = Synth.template c topic.
Proof.
  intros Hq.
  assert (Hi : i < List.length (searchQueries topic))
    by (apply nth_error_Some; congruence).
  change (i < 8) in Hi.
  destruct (CatalogMore.index_at_most_stage topic i q Hq) as (j & Hj & Hidx).
  exists j. rewrite <- SynthFacts.synthesizeContent_get. unfold Synth.key. rewrite Hidx.
  do 8 (destruct j as [|j]; [eexists; repeat split; try reflexivity; lia|]).
  lia.
Qed.

Lemma X2_witness :
  exists j c,
    j <= 3 /\
    Synth.index "current affairs practical applications" = Z.of_nat j /\
    nth_error categories j = Some c /\
    Some (Synth.synthesizeContent "current affairs" "current affairs practical applications")
    = Synth.template c "current affairs".
Proof.
  exact (X2_stage_text_never_of_a_later_category "current affairs" 3
           (mkSearchQuery "current affairs practical applications" "Practical Applications")
           eq_refl).
Defined.

(** ** Runs the consumer interrupts *)

Module StreamMore.

Import DeepSearch.

(** The frames of any run are the first [j] frames of the undisturbed
    one. *)
Lemma frames_start (w : World) (topic : option json) (t : string) :
  Json.render topic = Ok t ->
  exists j, j <= 17 /\ frames (start w topic) = firstn j (allFrames t).
Proof.
  intros Ht. unfold start. rewrite (StreamFacts.attempt_perform _ _ _ _ Ht).
  destruct (StreamFacts.perform_prefix w (script t) []) as (j & Hj & Hs & Hf).
  destruct (perform w (script t) []) as [o calls].
  cbn [fst snd app] in Hs, Hf. subst calls.
  destruct Hf as [[-> ->]|[-> Hlt]].
  - exists 17. split; [lia|]. rewrite firstn_all, StreamFacts.frames_script.
    symmetry. exact (firstn_all (allFrames t)).
  - destruct (StreamFacts.firstn_calls (allFrames t) j Hlt) as [Hcut Hle].
    fold (script t) in Hcut. exists j. split; [exact Hle|].
    rewrite Hcut, StreamFacts.frames_app, StreamFacts.frames_enqueue. apply app_nil_r.
Qed.

End StreamMore.

(** X3.  However early the consumer leaves, the result blocks that
    reached the stream are the first [k] blocks of the catalog, in
    order, and the progress frames are [k] or [k + 1]: a result is never
    emitted without the progress frame of its stage, and no stage is
    skipped. *)
Theorem X3_interrupted_run_emits_a_prefix (w : World) (topic : option json) (t : string) :
  Json.render topic = Ok t ->
  let fs := DeepSearch.frames (DeepSearch.start w topic) in
  exists k,
    k <= 8 /\
    DeepSearch.results fs = firstn k (map (DeepSearch.resultOf t) (searchQueries t)) /\
    DeepSearch.countType "result" fs = k /\
    (DeepSearch.countType "progress" fs = k \/ DeepSearch.countType "progress" fs = k + 1).
Proof.
  intros Ht fs.
  destruct (StreamMore.frames_start w topic t Ht) as (j & Hj & Hfs).
  unfold fs. rewrite Hfs. clear Hfs fs.
  exists (Nat.div2 j).
  do 18 (destruct j as [|j];
         [ split; [cbn; lia|split; [reflexivity|split; [reflexivity|
                      first [left; reflexivity|right; reflexivity]]]]
         | ]).
  lia.
Qed.

Lemma X3_witness :
  let w := Sample.world Sample.down (Sample.leavesAfter 5) in
  let fs := DeepSearch.frames (DeepSearch.start w (Some (JStr "AI"))) in
  exists k,
    k <= 8 /\
    DeepSearch.results fs = firstn k (map (DeepSearch.resultOf "AI") (searchQueries "AI")) /\
    DeepSearch.countType "result" fs = k /\
    (DeepSearch.countType "progress" fs = k \/ DeepSearch.countType "progress" fs = k + 1).
Proof.
  exact (X3_interrupted_run_emits_a_prefix
           (Sample.world Sample.down (Sample.leavesAfter 5)) (Some (JStr "AI")) "AI" eq_refl).
Defined.

(** ** The download name *)

Module FilenameMore.

Import Filename.

Lemma fileChar_lower (c : ascii) : fileChar (JS.lowerChar c) = fileChar c.
Proof. destruct c as [[] [] [] [] [] [] [] []]; vm_compute; reflexivity. Qed.

Lemma fileChar_plain_id (c : ascii) : plain c = true -> fileChar c = c.
Proof. destruct c as [[] [] [] [] [] [] [] []]; vm_compute; congruence. Qed.

Lemma stem_lower (t : string) :
  JS.mapChars fileChar (JS.toLowerCase t) = JS.mapChars fileChar t.
Proof.
  unfold JS.toLowerCase. rewrite FilenameFacts.mapChars_compose.
  apply FilenameFacts.mapChars_ext, fileChar_lower.
Qed.

Lemma stem_of_plain (t : string) :
  allChars plain t = true -> JS.mapChars fileChar t = t.
Proof.
  induction t as [|c t IH]; simpl; [reflexivity|].
  intros H. apply andb_true_iff in H as [Hc Ht].
  now rewrite fileChar_plain_id, IH.
Qed.

End FilenameMore.

(** X4.  For topics of ASCII characters, on which [JS.toLowerCase] is
    JavaScript's lower-casing, the name does not see the case of the
    topic: two such topics that are equal once lower-cased get the same
    file name. *)
Theorem X4_filename_ignores_ascii_case (a b : string) :
  Filename.allChars JS.isAscii a = true ->
  Filename.allChars JS.isAscii b = true ->
  JS.toLowerCase a = JS.toLowerCase b ->
  Filename.suggestedFilename a = Filename.suggestedFilename b.
Proof.
  intros _ _ H. unfold Filename.suggestedFilename.
  rewrite !FilenameFacts.stem_fileChar.
  rewrite <- (FilenameMore.stem_lower a), <- (FilenameMore.stem_lower b), H.
  reflexivity.
Qed.

Lemma X4_witness :
  Filename.allChars JS.isAscii "Solar Power" = true /\
  Filename.allChars JS.isAscii "SOLAR power" = true /\
  JS.toLowerCase "Solar Power" = JS.toLowerCase "SOLAR power" /\
  Filename.suggestedFilename "Solar Power" = Filename.suggestedFilename "SOLAR power".
Proof.
  split; [reflexivity|]. split; [reflexivity|]. split; [reflexivity|].
  exact (X4_filename_ignores_ascii_case "Solar Power" "SOLAR power" eq_refl eq_refl eq_refl).
Defined.

(** X5.  A topic that already consists of lower-case letters, digits
    and separators is kept as it is: its file name is the topic followed
    by [_report.pdf]. *)
Theorem X5_filename_stem_is_stable (topic : string) :
  Filename.allChars Filename.plain topic = true ->
  Filename.suggestedFilename topic = topic ++ "_report.pdf".
Proof.
  intros H. unfold Filename.suggestedFilename.
  now rewrite FilenameFacts.stem_fileChar, FilenameMore.stem_of_plain.
Qed.

Lemma X5_witness :
  Filename.allChars Filename.plain "solar_power_2" = true /\
  Filename.suggestedFilename "solar_power_2" = "solar_power_2_report.pdf".
Proof.
  split; [reflexivity|].
  exact (X5_filename_stem_is_stable "solar_power_2" eq_refl).
Defined.

(** ** What the search call extracts *)

Module MarkupFacts.

Import Html Markup.

Lemma append_empty_r (s : string) : s ++ EmptyString = s.
Proof. induction s as [|c s IH]; simpl; [reflexivity|now rewrite IH]. Qed.

Lemma span_spec (p : ascii -> bool) (s a b : string) :
  span p s = (a, b) ->
  s = a ++ b /\ Filename.allChars p a = true /\
  match b with
  | EmptyString => True
  | String c _ => p c = false
  end.
Proof.
  revert a b; induction s as [|c s IH]; intros a b H; simpl in H.
  - injection H as <- <-. auto.
  - destruct (p c) eqn:E.
    + destruct (span p s) as [a' b'] eqn:Es. injection H as <- <-.
      destruct (IH _ _ eq_refl) as (-> & Ha & Hb).
      simpl. rewrite E, Ha. auto.
    + injection H as <- <-. simpl. rewrite E. auto.
Qed.

Lemma span_app (p : ascii -> bool) (x : string) (c : ascii) (y : string) :
  Filename.allChars p x = true -> p c = false ->
  span p (x ++ String c y) = (x, String c y).
Proof.
  intros Hx Hc. induction x as [|d x IH]; simpl in *.
  - now rewrite Hc.
  - apply andb_true_iff in Hx as [Hd Hx]. now rewrite Hd, IH.
Qed.

Lemma span_all (p : ascii -> bool) (s : string) :
  Filename.allChars p s = true -> span p s = (s, EmptyString).
Proof.
  induction s as [|d s IH]; simpl; [reflexivity|].
  intros H. apply andb_true_iff in H as [Hd Hs]. now rewrite Hd, IH.
Qed.

Lemma notGt_occurs (s : string) :
  Filename.allChars notGt s = negb (occurs ">" s).
Proof.
  induction s as [|c s IH]; simpl; [reflexivity|].
  rewrite IH. unfold notGt. now destruct (Ascii.eqb c ">"), (occurs ">" s).
Qed.

Lemma notLt_occurs (s : string) :
  Filename.allChars notLt s = negb (occurs "<" s).
Proof.
  induction s as [|c s IH]; simpl; [reflexivity|].
  rewrite IH. unfold notLt. now destruct (Ascii.eqb c "<"), (occurs "<" s).
Qed.

(** What [stripTags] keeps was there before. *)
Lemma occurs_strip (c : ascii) (s : string) (k : nat) :
  occurs c (stripTagsFrom s k) = true -> occurs c s = true.
Proof.
  revert k; induction s as [|d s IH]; intros k; simpl; [auto|].
  destruct k as [|k].
  - destruct (Ascii.eqb d "<") eqn:Ed.
    + destruct (span notGt s) as [inner r]. destruct r.
      * simpl. intros H. apply orb_true_iff in H as [H|H]; [now rewrite H|].
        rewrite (IH _ H). apply orb_true_r.
      * intros H. rewrite (IH _ H). apply orb_true_r.
    + simpl. intros H. apply orb_true_iff in H as [H|H]; [now rewrite H|].
      rewrite (IH _ H). apply orb_true_r.
  - intros H. rewrite (IH _ H). apply orb_true_r.
Qed.

Lemma strip_tagFree (s : string) (k : nat) : tagFree (stripTagsFrom s k) = true.
Proof.
  revert k; induction s as [|d s IH]; intros k; simpl; [reflexivity|].
  destruct k as [|k]; [|apply IH].
  destruct (Ascii.eqb d "<") eqn:Ed.
  - destruct (span notGt s) as [inner r] eqn:Es.
    destruct (span_spec _ _ _ _ Es) as (Hs & Hin & _).
    destruct r; [|apply IH].
    simpl. rewrite IH, andb_true_r.
    rewrite append_empty_r in Hs. subst inner.
    rewrite notGt_occurs in Hin. apply negb_true_iff in Hin.
    destruct (occurs ">" (stripTagsFrom s 0)) eqn:E; [|now rewrite orb_true_r].
    apply occurs_strip in E. congruence.
  - simpl. now rewrite Ed, IH.
Qed.

Lemma strip_of_tagFree (s : string) : tagFree s = true -> stripTagsFrom s 0 = s.
Proof.
  induction s as [|d s IH]; simpl; [reflexivity|].
  intros H. apply andb_true_iff in H as [Hd Hs].
  destruct (Ascii.eqb d "<") eqn:Ed.
  - simpl in Hd. rewrite span_all by (now rewrite notGt_occurs).
    now rewrite IH.
  - now rewrite IH.
Qed.

Lemma strip_length (s : string) (k : nat) :
  String.length (stripTagsFrom s k) <= String.length s.
Proof.
  revert k; induction s as [|d s IH]; intros k; simpl; [lia|].
  destruct k as [|k]; [|specialize (IH k); lia].
  destruct (Ascii.eqb d "<").
  - destruct (span notGt s) as [inner r]. destruct r; simpl.
    + specialize (IH 0). lia.
    + specialize (IH (String.length inner + 1)). lia.
  - simpl. specialize (IH 0). lia.
Qed.

End MarkupFacts.

Module CaptureFacts.

Import Html Markup MarkupFacts.

Lemma strip_skip (x y : string) :
  stripTagsFrom (x ++ y) (String.length x) = stripTagsFrom y 0.
Proof. induction x as [|c x IH]; simpl; [reflexivity|exact IH]. Qed.

Lemma strip_plain (x y : string) :
  occurs "<" x = false -> stripTagsFrom (x ++ y) 0 = x ++ stripTagsFrom y 0.
Proof.
  induction x as [|c x IH]; simpl; [reflexivity|].
  intros H. apply orb_false_iff in H as [Hc Hx]. now rewrite Hc, IH.
Qed.

Lemma append_assoc (a b c : string) : (a ++ b) ++ c = a ++ b ++ c.
Proof. induction a as [|d a IH]; simpl; [reflexivity|now rewrite IH]. Qed.

(** Stripping the tags of an anchor leaves the text between them. *)
Lemma strip_anchor (attrs inner : string) :
  occurs ">" attrs = false -> occurs "<" inner = false ->
  stripTags ("<a" ++ attrs ++ ">" ++ inner ++ "</a>") = inner.
Proof.
  intros Ha Hi. unfold stripTags.
  set (x := String "a" attrs).
  assert (Hx : Filename.allChars notGt x = true)
    by (unfold x; simpl; now rewrite notGt_occurs, Ha).
  change ("<a" ++ attrs ++ ">" ++ inner ++ "</a>")
    with (String "<" (x ++ String ">" (inner ++ "</a>"))).
  cbn [stripTagsFrom]. change (Ascii.eqb "<" "<") with true. cbv iota.
  rewrite (span_app notGt x ">" (inner ++ "</a>") Hx eq_refl).
  replace (x ++ String ">" (inner ++ "</a>")) with ((x ++ ">") ++ (inner ++ "</a>"))
    by (rewrite append_assoc; reflexivity).
  replace (String.length x + 1) with (String.length (x ++ ">"))
    by (rewrite FilenameFacts.append_length; reflexivity).
  rewrite strip_skip, strip_plain by exact Hi.
  change (stripTagsFrom "</a>" 0) with EmptyString. apply append_empty_r.
Qed.

Lemma prefix_split (w s : string) :
  String.prefix w s = true -> s = w ++ drop (String.length w) s.
Proof.
  revert s; induction w as [|c w IH]; intros s H; [reflexivity|].
  destruct s as [|d s]; simpl in *; [discriminate|].
  destruct (ascii_dec c d) as [->|]; [|discriminate].
  now rewrite <- IH.
Qed.

(** The shape of a match that begins [s]. *)
Lemma anchorAt_spec (cls s m : string) :
  anchorAt cls s = Some m ->
  exists attrs inner rest,
    s = m ++ rest /\
    m = "<a" ++ attrs ++ ">" ++ inner ++ "</a>" /\
    occurs ">" attrs = false /\
    JS.includes attrs (classAttr cls) = true /\
    inner <> EmptyString /\
    occurs "<" inner = false.
Proof.
  unfold anchorAt. destruct (String.prefix "<a" s) eqn:Hp; [|discriminate].
  apply prefix_split in Hp. cbn [String.length] in Hp.
  destruct (span notGt (drop 2 s)) as [attrs r1] eqn:E1.
  destruct (span_spec _ _ _ _ E1) as (H1 & Ha & Hc).
  destruct r1 as [|c r2]; [discriminate|].
  destruct (JS.includes attrs (classAttr cls)) eqn:Hcls; [|discriminate].
  destruct (span notLt r2) as [inner r3] eqn:E2.
  destruct (span_spec _ _ _ _ E2) as (H2 & Hi & _).
  destruct inner as [|i0 inner]; [discriminate|].
  destruct (String.prefix "</a>" r3) eqn:Hs; [|discriminate].
  apply prefix_split in Hs. cbn [String.length] in Hs.
  intros H. apply SynthMore.Some_eq in H. subst m.
  assert (c = ">"%char) as ->.
  { unfold notGt in Hc. apply negb_false_iff in Hc. now apply Ascii.eqb_eq in Hc. }
  exists attrs, (String i0 inner), (drop 4 r3).
  rewrite notGt_occurs in Ha. apply negb_true_iff in Ha.
  rewrite notLt_occurs in Hi. apply negb_true_iff in Hi.
  repeat split; auto; [|discriminate].
  rewrite Hp, H1, H2, Hs at 1.
  rewrite !append_assoc. reflexivity.
Qed.

(** Every match of the global search begins some suffix of the text. *)
Lemma anchorsFrom_In (cls s m : string) (k : nat) :
  In m (anchorsFrom cls s k) ->
  exists pre suf, s = pre ++ suf /\ anchorAt cls suf = Some m.
Proof.
  revert k; induction s as [|c s IH]; intros k H; simpl in H; [contradiction|].
  assert (Hrest : forall k', In m (anchorsFrom cls s k') ->
            exists pre suf, String c s = pre ++ suf /\ anchorAt cls suf = Some m).
  { intros k' H'. destruct (IH _ H') as (pre & suf & -> & Hm).
    exists (String c pre), suf. auto. }
  destruct k as [|k]; [|eauto].
  destruct (anchorAt cls (String c s)) as [m'|] eqn:E; [|eauto].
  destruct H as [<-|H]; [|eauto].
  exists EmptyString, (String c s). auto.
Qed.

(** *** White space *)

Lemma trimStart_startsClean (s : string) : startsClean (JS.trimStart s) = true.
Proof.
  induction s as [|c s IH]; simpl; [reflexivity|].
  destruct (JS.isSpace c) eqn:E; [exact IH|]. simpl. now rewrite E.
Qed.

Lemma trimEnd_endsClean (s : string) : endsClean (JS.trimEnd s) = true.
Proof.
  induction s as [|c s IH]; simpl; [reflexivity|].
  destruct (JS.trimEnd s) as [|d t] eqn:E.
  - destruct (JS.isSpace c) eqn:Ec; simpl; [reflexivity|now rewrite Ec].
  - exact IH.
Qed.

Lemma trimEnd_startsClean (s : string) :
  startsClean s = true -> startsClean (JS.trimEnd s) = true.
Proof.
  destruct s as [|c s]; simpl; [auto|]. intros H.
  destruct (JS.trimEnd s); [|exact H].
  apply negb_true_iff in H. rewrite H. simpl. now rewrite H.
Qed.

Lemma tagFree_tail (c : ascii) (s : string) : tagFree (String c s) = true -> tagFree s = true.
Proof. simpl. intros H. now apply andb_true_iff in H. Qed.

Lemma tagFree_trimStart (s : string) : tagFree s = true -> tagFree (JS.trimStart s) = true.
Proof.
  induction s as [|c s IH]; intros H; simpl; [reflexivity|].
  destruct (JS.isSpace c); [apply IH; now apply tagFree_tail in H|exact H].
Qed.

Lemma occurs_trimEnd (c : ascii) (s : string) :
  occurs c (JS.trimEnd s) = true -> occurs c s = true.
Proof.
  induction s as [|d s IH]; simpl; [auto|].
  destruct (JS.trimEnd s) as [|e t].
  - destruct (JS.isSpace d); simpl; [discriminate|].
    rewrite orb_false_r. intros ->. reflexivity.
  - simpl in *. intros H. apply orb_true_iff in H as [H|H]; [now rewrite H|].
    rewrite (IH H). apply orb_true_r.
Qed.

Lemma tagFree_trimEnd (s : string) : tagFree s = true -> tagFree (JS.trimEnd s) = true.
Proof.
  induction s as [|c s IH]; intros H; [reflexivity|].
  simpl in H. apply andb_true_iff in H as [Hc Hs]. specialize (IH Hs).
  simpl. destruct (JS.trimEnd s) as [|e t] eqn:E.
  - destruct (JS.isSpace c); [reflexivity|]. simpl. now rewrite orb_true_r.
  - change (tagFree (String c (String e t)) = true).
    cbn [tagFree]. cbn [tagFree] in IH. rewrite IH, andb_true_r.
    apply orb_true_iff in Hc as [Hc|Hc]; [now rewrite Hc|].
    apply orb_true_iff. right. apply negb_true_iff. apply negb_true_iff in Hc.
    destruct (occurs ">" (String e t)) eqn:Eo; [|reflexivity].
    rewrite <- E in Eo. apply occurs_trimEnd in Eo. congruence.
Qed.

Lemma clean_trim (s : string) : tagFree s = true -> clean (JS.trim s) = true.
Proof.
  intros H. unfold clean, JS.trim.
  rewrite tagFree_trimEnd by now apply tagFree_trimStart.
  rewrite trimEnd_startsClean by apply trimStart_startsClean.
  now rewrite trimEnd_endsClean.
Qed.

End CaptureFacts.

(** X6.  [stripTags] leaves no tag behind: in its result no [<] is
    followed by a [>].  A text without tags is returned as it is, so
    stripping twice is the same as once; and the result is never longer
    than the text. *)
Theorem X6_stripTags_leaves_no_tag (s : string) :
  Markup.tagFree (Html.stripTags s) = true /\
  (Markup.tagFree s = true -> Html.stripTags s = s) /\
  Html.stripTags (Html.stripTags s) = Html.stripTags s /\
  String.length (Html.stripTags s) <= String.length s.
Proof.
  unfold Html.stripTags.
  split; [apply MarkupFacts.strip_tagFree|].
  split; [apply MarkupFacts.strip_of_tagFree|].
  split; [apply MarkupFacts.strip_of_tagFree, MarkupFacts.strip_tagFree|].
  apply MarkupFacts.strip_length.
Qed.

(** X7.  Every match the global search finds in a page is a piece of
    the page of the form [<a ATTRS>TEXT</a>], where [ATTRS] holds the
    class attribute and no [>], and [TEXT] is not empty and holds no
    [<]; removing the tags from the match gives back exactly [TEXT]. *)
Theorem X7_match_strips_to_its_text (cls html m : string) :
  In m (Html.anchors cls html) ->
  exists attrs inner,
    m = "<a" ++ attrs ++ ">" ++ inner ++ "</a>" /\
    JS.includes html m = true /\
    JS.includes attrs (Html.classAttr cls) = true /\
    Markup.occurs ">" attrs = false /\
    inner <> EmptyString /\
    Markup.occurs "<" inner = false /\
    Html.stripTags m = inner.
Proof.
  intros H. apply CaptureFacts.anchorsFrom_In in H as (pre & suf & -> & Hm).
  apply CaptureFacts.anchorAt_spec in Hm
    as (attrs & inner & rest & -> & Hshape & Ha & Hc & Hne & Hi).
  exists attrs, inner.
  split; [exact Hshape|].
  split; [apply SynthMore.includes_append_r, SynthMore.includes_prefix,
           SynthMore.prefix_append|].
  repeat split; auto.
  rewrite Hshape. now apply CaptureFacts.strip_anchor.
Qed.

Lemma X7_witness :
  In Sample.hitHtml (Html.anchors "result__a" (Sample.hitsHtml 2)) /\
  exists attrs inner,
    Sample.hitHtml = "<a" ++ attrs ++ ">" ++ inner ++ "</a>" /\
    JS.includes (Sample.hitsHtml 2) Sample.hitHtml = true /\
    JS.includes attrs (Html.classAttr "result__a") = true /\
    Markup.occurs ">" attrs = false /\
    inner <> EmptyString /\
    Markup.occurs "<" inner = false /\
    Html.stripTags Sample.hitHtml = inner.
Proof.
  assert (H : In Sample.hitHtml (Html.anchors "result__a" (Sample.hitsHtml 2)))
    by (vm_compute; left; reflexivity).
  split; [exact H|].
  exact (X7_match_strips_to_its_text "result__a" (Sample.hitsHtml 2) Sample.hitHtml H).
Defined.

(** X8.  Every title and every snippet that [fetchSearchResults]
    returns is free of tags and has no white space at its beginning or
    end. *)
Theorem X8_hits_are_clean (w : World) (k : nat) (q : string) (hits : list Hit) :
  DeepSearch.fetchSearchResults w k q = Ok hits ->
  Forall (fun h => Markup.clean (hitTitle h) = true /\ Markup.clean (snippet h) = true)
         hits.
Proof.
  unfold DeepSearch.fetchSearchResults.
  destruct (DeepSearch.searchAttempt w k q) as [[results|]|e] eqn:E;
    intros H; apply SynthMore.Ok_eq in H; subst hits; try constructor.
  apply SearchFacts.searchAttempt_results in E as (ts & ss & ->).
  unfold DeepSearch.collect. apply Forall_forall. intros h Hh.
  apply in_map_iff in Hh as (i & <- & _). cbn [hitTitle snippet]. split.
  - apply CaptureFacts.clean_trim, MarkupFacts.strip_tagFree.
  - unfold DeepSearch.snippetAt.
    destruct (nth_error ss i) as [s|]; cbn [option_map JS.orElse]; [|reflexivity].
    pose proof (CaptureFacts.clean_trim (Html.stripTags s)
                  (MarkupFacts.strip_tagFree s 0)) as Hc.
    destruct (JS.trim (Html.stripTags s)); [reflexivity|exact Hc].
Qed.

Lemma X8_witness :
  DeepSearch.fetchSearchResults (Sample.world (Sample.up 5) Sample.stays) 0 "q"
  = Ok [mkHit "A title" ""; mkHit "A title" ""; mkHit "A title" ""] /\
  Forall (fun h => Markup.clean (hitTitle h) = true /\ Markup.clean (snippet h) = true)
         [mkHit "A title" ""; mkHit "A title" ""; mkHit "A title" ""].
Proof.
  assert (H : DeepSearch.fetchSearchResults (Sample.world (Sample.up 5) Sample.stays) 0 "q"
              = Ok [mkHit "A title" ""; mkHit "A title" ""; mkHit "A title" ""])
    by (vm_compute; reflexivity).
  split; [exact H|].
  exact (X8_hits_are_clean (Sample.world (Sample.up 5) Sample.stays) 0 "q" _ H).
Defined.

(** ** Sections and the pages they start *)

Module OutlineFacts.

Import Pdf PdfFacts GeneratePdf Outline.
Local Open Scope Q_scope.

Lemma Extends_refl (st : Layout) : Extends st st.
Proof. intros k p H. exists []. now rewrite app_nil_r. Qed.

Lemma Extends_trans (a b c : Layout) : Extends a b -> Extends b c -> Extends a c.
Proof.
  intros H1 H2 k p Hp. destruct (H1 _ _ Hp) as (q1 & Hq1).
  destruct (H2 _ _ Hq1) as (q2 & Hq2). exists (q1 ++ q2)%list.
  now rewrite app_assoc.
Qed.

Lemma Extends_setY (y : Q) (st : Layout) : Extends st (setY y st).
Proof. exact (Extends_refl st). Qed.

Lemma Extends_addPage (st : Layout) : Extends st (addPage st).
Proof.
  intros k p Hp. exists []. unfold addPage. cbn [pages].
  rewrite nth_error_app1 by (apply nth_error_Some; congruence).
  now rewrite app_nil_r.
Qed.

Lemma Extends_draw (op : DrawOp) (st : Layout) : Extends st (draw op st).
Proof.
  intros k p Hp. unfold draw. cbn [pages]. rewrite onPage_nth, Hp.
  destruct (k =? current st - 1)%nat; [exists [op]|exists []]; cbn [option_map];
    now rewrite ?app_nil_r.
Qed.

Lemma Extends_setPage (i : nat) (st : Layout) : Extends st (setPage i st).
Proof. intros k p Hp. exists []. now rewrite LayoutFacts.setPage_pages, app_nil_r. Qed.

Lemma Extends_forEach {A} (f : A -> nat -> Layout -> Layout) (xs : list A) (i : nat)
      (st : Layout) :
  (forall x k s, Extends s (f x k s)) -> Extends st (JS.forEachFrom f xs i st).
Proof.
  intros Hf. revert i st; induction xs as [|x xs IH]; intros i st; simpl.
  - apply Extends_refl.
  - eapply Extends_trans; [apply Hf|apply IH].
Qed.

Section Handler.

Variables pageWidth pageHeight : Q.
Variable splitTextToSize : Q -> string -> Q -> list string.
Variable getTextWidth : string -> Q.
Variable toUpperCase : string -> string.
Variable currentDate : string.

Local Abbreviation checkAndAddPage := (checkAndAddPage pageHeight).
Local Abbreviation lineAtCursor := (lineAtCursor pageHeight).
Local Abbreviation tocEntry := (tocEntry pageHeight).
Local Abbreviation tableOfContents := (tableOfContents pageHeight).
Local Abbreviation section := (section pageWidth pageHeight splitTextToSize).
Local Abbreviation cover :=
  (cover pageWidth pageHeight splitTextToSize getTextWidth toUpperCase currentDate).
Local Abbreviation body :=
  (body pageWidth pageHeight splitTextToSize getTextWidth toUpperCase currentDate).
Local Abbreviation layout :=
  (layout pageWidth pageHeight splitTextToSize getTextWidth toUpperCase currentDate).
Local Abbreviation footers := (footers pageWidth pageHeight).
Local Abbreviation Writing := (Writing pageHeight).
Local Abbreviation sectionStartsFrom :=
  (sectionStartsFrom pageWidth pageHeight splitTextToSize).

Lemma Extends_check (r : Q) (st : Layout) : Extends st (snd (checkAndAddPage r st)).
Proof.
  unfold GeneratePdf.checkAndAddPage. destruct (gtb _ _); cbn [snd].
  - apply Extends_addPage.
  - apply Extends_refl.
Qed.

Lemma Extends_lineAtCursor (r step : Q) (line : string) (st : Layout) :
  Extends st (lineAtCursor r step line st).
Proof.
  unfold GeneratePdf.lineAtCursor.
  eapply Extends_trans; [apply Extends_check|].
  eapply Extends_trans; [apply Extends_draw|apply Extends_setY].
Qed.

Lemma Extends_lines (r step : Q) (lines : list string) (st : Layout) :
  Extends st (JS.forEach (fun line (_ : nat) => lineAtCursor r step line) lines st).
Proof. apply Extends_forEach. intros. apply Extends_lineAtCursor. Qed.

(** What follows the label of a section only adds to the document. *)
Lemma Extends_section_rest (result : SearchResult) (index : nat) (st : Layout) :
  Extends (draw (labelOp index) (setY margin (addPage st))) (section result index st).
Proof.
  unfold GeneratePdf.section, labelOp.
  set (st2 := draw _ (setY margin (addPage st))).
  change (yPosition (setY margin (addPage st))) with margin.
  fold st2.
  eapply Extends_trans; [apply (Extends_setY (yPosition st2 + 10))|].
  eapply Extends_trans; [apply (Extends_lines 12 10)|].
  eapply Extends_trans; [apply Extends_setY|].
  eapply Extends_trans; [apply (Extends_lines 8 6)|].
  eapply Extends_trans; [apply Extends_setY|].
  eapply Extends_trans; [apply (Extends_check 10)|].
  eapply Extends_trans; [apply Extends_draw|].
  eapply Extends_trans; [apply Extends_setY|].
  apply Extends_draw.
Qed.

Lemma Extends_section (result : SearchResult) (index : nat) (st : Layout) :
  Extends st (section result index st).
Proof.
  eapply Extends_trans; [|apply Extends_section_rest].
  eapply Extends_trans; [apply Extends_addPage|].
  eapply Extends_trans; [apply Extends_setY|apply Extends_draw].
Qed.

Lemma Extends_sections (results : list SearchResult) (i : nat) (st : Layout) :
  Extends st (JS.forEachFrom section results i st).
Proof. apply Extends_forEach. intros. apply Extends_section. Qed.

Lemma Extends_footers (topic : string) (st : Layout) : Extends st (footers topic st).
Proof.
  unfold GeneratePdf.footers. generalize (getNumberOfPages st) at 1 as n. intros n.
  generalize (seq 1 (getNumberOfPages st)) as l.
  intros l; revert st; induction l as [|i l IH]; intros st; cbn [fold_left].
  - apply Extends_refl.
  - eapply Extends_trans; [|apply IH]. unfold GeneratePdf.footer.
    destruct (1 <? i)%nat.
    + eapply Extends_trans; [apply Extends_setPage|apply Extends_draw].
    + apply Extends_setPage.
Qed.

Lemma beginsWith_Extends (op : DrawOp) (n : nat) (st st' : Layout) :
  Extends st st' -> beginsWith op n st -> beginsWith op n st'.
Proof.
  intros He (rest & Hr). destruct (He _ _ Hr) as (q & Hq).
  exists (rest ++ q)%list. exact Hq.
Qed.

(** A section opens the page after those there are with its label. *)
Lemma section_begins (c : Page) (result : SearchResult) (index : nat) (st : Layout) :
  Writing c st ->
  beginsWith (labelOp index) (S (List.length (pages st))) (section result index st).
Proof.
  intros (Hc & Hn & _). eapply beginsWith_Extends; [apply Extends_section_rest|].
  exists []. unfold draw, setY, addPage. cbn [pages current yPosition].
  rewrite onPage_nth.
  replace (S (List.length (pages st)) - 1)%nat with (List.length (pages st)) by lia.
  replace (List.length (pages st) + 1 - 1)%nat with (List.length (pages st)) by lia.
  rewrite Nat.eqb_refl, nth_error_app2 by lia. rewrite Nat.sub_diag. reflexivity.
Qed.

(** The starts the section pass computes: one for each result, each
    after the pages there were, in increasing order, and each page so
    numbered begins with the label of its section, also in every state
    that holds what the pass has drawn. *)
Lemma sectionStarts_spec (c : Page) (results : list SearchResult) (i : nat)
      (st final : Layout) :
  Writing c st ->
  Extends (JS.forEachFrom section results i st) final ->
  let starts := sectionStartsFrom results i st in
  List.length starts = List.length results /\
  (forall k p, nth_error starts k = Some p ->
     (List.length (pages st) + k < p)%nat /\ beginsWith (labelOp (i + k)) p final) /\
  StronglySorted lt starts.
Proof.
  revert i st; induction results as [|r results IH]; intros i st W He.
  - cbn. split; [reflexivity|]. split; [|constructor].
    intros k p H. destruct k; discriminate.
  - cbn [Outline.sectionStartsFrom JS.forEachFrom List.length] in *.
    destruct (LayoutFacts.section_onward pageWidth pageHeight splitTextToSize c r i st W)
      as [W1 L1].
    destruct (IH (S i) _ W1 He) as (Hl & Hk & Hs).
    split; [now rewrite Hl|]. split.
    + intros [|k] p H.
      * apply SynthMore.Some_eq in H. subst p. split; [lia|].
        rewrite Nat.add_0_r.
        eapply beginsWith_Extends; [|apply (section_begins c); exact W].
        eapply Extends_trans; [apply Extends_sections|exact He].
      * destruct (Hk _ _ H) as [Hlt Hb]. split; [lia|].
        replace (i + S k)%nat with (S i + k)%nat by lia. exact Hb.
    + constructor; [exact Hs|]. apply Forall_forall. intros p Hp.
      apply In_nth_error in Hp as (k & Hp). destruct (Hk _ _ Hp) as [Hlt _]. lia.
Qed.

End Handler.

End OutlineFacts.

Module OutlineMore.

Import Pdf PdfFacts GeneratePdf Outline OutlineFacts.
Local Open Scope Q_scope.

Lemma expectedLinks_nth (results : list SearchResult) (base i : nat) (r : SearchResult) :
  nth_error results i = Some r ->
  nth_error (expectedLinks results base) i
  = Some (JS.ofNat (base + i + 1) ++ ". " ++ title r, (base + i + 3)%nat).
Proof.
  revert base i; induction results as [|r0 rs IH]; intros base [|i] H; try discriminate.
  - apply SynthMore.Some_eq in H. subst r0. cbn. now rewrite Nat.add_0_r.
  - cbn [expectedLinks nth_error]. rewrite (IH (S base) i H).
    replace (S base + i)%nat with (base + S i)%nat by lia. reflexivity.
Qed.

Section Handler.

Variables pageWidth pageHeight : Q.
Variable splitTextToSize : Q -> string -> Q -> list string.
Variable getTextWidth : string -> Q.
Variable toUpperCase : string -> string.
Variable currentDate : string.

Local Abbreviation tocEntry := (tocEntry pageHeight).
Local Abbreviation tableOfContents := (tableOfContents pageHeight).
Local Abbreviation section := (section pageWidth pageHeight splitTextToSize).
Local Abbreviation cover :=
  (cover pageWidth pageHeight splitTextToSize getTextWidth toUpperCase currentDate).
Local Abbreviation layout :=
  (layout pageWidth pageHeight splitTextToSize getTextWidth toUpperCase currentDate).
Local Abbreviation footers := (footers pageWidth pageHeight).
Local Abbreviation Writing := (Writing pageHeight).

Lemma Extends_tocEntry (r : SearchResult) (i : nat) (st : Layout) :
  Extends st (tocEntry r i st).
Proof.
  unfold GeneratePdf.tocEntry.
  eapply Extends_trans; [apply (Extends_check pageHeight 10)|].
  eapply Extends_trans; [apply Extends_draw|apply Extends_setY].
Qed.

(** The heading opens the second page. *)
Lemma toc_begins (results : list SearchResult) (st : Layout) (p : Page) :
  current st = 1%nat -> pages st = [p] ->
  beginsWith (Text "Table of Contents" margin margin AlignLeft) 2
             (tableOfContents results st).
Proof.
  intros Hc Hp. unfold GeneratePdf.tableOfContents.
  eapply beginsWith_Extends.
  - eapply Extends_trans; [apply Extends_setY|].
    apply Extends_forEach. intros. apply Extends_tocEntry.
  - exists []. unfold draw, setY, addPage. cbn [pages current yPosition].
    rewrite Hp. reflexivity.
Qed.

(** The state the section pass starts from. *)
Lemma toc_state (topic : string) (results : list SearchResult) :
  exists c,
    Writing c (tableOfContents results (cover topic (blank margin))) /\
    (2 <= List.length (pages (tableOfContents results (cover topic (blank margin)))))%nat /\
    beginsWith (Text "Table of Contents" margin margin AlignLeft) 2
               (tableOfContents results (cover topic (blank margin))).
Proof.
  destruct (LayoutFacts.cover_OnCover pageWidth pageHeight splitTextToSize getTextWidth
              toUpperCase currentDate topic) as (Hc & c & Hp & Hf).
  exists c.
  destruct (LayoutFacts.tableOfContents_onward pageHeight c results _
              (conj Hc (ex_intro _ c (conj Hp Hf))) Hp) as [W L].
  split; [exact W|]. split; [exact L|]. now apply (toc_begins results _ c).
Qed.

End Handler.

End OutlineMore.

(** X9.  In the document, page 2 begins with the heading of the table
    of contents, and every section opens a page of its own with its
    [SECTION] label at the top margin: the page where section [i]
    (from 0) starts is page [i + 3] or a later one, and sections start in
    the order of the results.  So the page a link names ([i + 3]) is
    never beyond the start of its section. *)
Theorem X9_sections_start_at_or_after_page_i_plus_3
  (pageWidth pageHeight : Q) (splitTextToSize : Q -> string -> Q -> list string)
  (getTextWidth : string -> Q) (toUpperCase : string -> string) (currentDate : string)
  (topic : string) (results : list SearchResult) :
  let d := GeneratePdf.layout pageWidth pageHeight splitTextToSize getTextWidth
             toUpperCase currentDate topic results in
  let starts := Outline.sectionStarts pageWidth pageHeight splitTextToSize getTextWidth
                  toUpperCase currentDate topic results in
  Outline.beginsWith
    (Text "Table of Contents" GeneratePdf.margin GeneratePdf.margin AlignLeft) 2 d /\
  List.length starts = List.length results /\
  StronglySorted lt starts /\
  (forall i p, nth_error starts i = Some p ->
     i + 3 <= p <= List.length (pages d) /\
     Outline.beginsWith
       (Text ("SECTION " ++ JS.ofNat (i + 1)) GeneratePdf.margin GeneratePdf.margin AlignLeft)
       p d).
Proof.
  intros d starts.
  destruct (OutlineMore.toc_state pageWidth pageHeight splitTextToSize getTextWidth
              toUpperCase currentDate topic results) as (c & W & L & Hb).
  assert (He : Outline.Extends
                 (JS.forEachFrom (GeneratePdf.section pageWidth pageHeight splitTextToSize)
                    results 0
                    (GeneratePdf.tableOfContents pageHeight results
                       (GeneratePdf.cover pageWidth pageHeight splitTextToSize getTextWidth
                          toUpperCase currentDate topic (Pdf.blank GeneratePdf.margin))))
                 d) by apply OutlineFacts.Extends_footers.
  destruct (OutlineFacts.sectionStarts_spec pageWidth pageHeight splitTextToSize
              c results 0 _ d W He) as (Hl & Hk & Hs).
  split.
  { eapply OutlineFacts.beginsWith_Extends; [|exact Hb].
    eapply OutlineFacts.Extends_trans; [apply OutlineFacts.Extends_sections|exact He]. }
  split; [exact Hl|]. split; [exact Hs|].
  intros i p Hp. destruct (Hk _ _ Hp) as [Hlt Hbw].
  split; [|exact Hbw].
  split; [lia|].
  destruct Hbw as (rest & Hr).
  assert (p - 1 < List.length (pages d)) by (apply nth_error_Some; congruence).
  lia.
Qed.

(** X10.  Whatever the results hold, the links of the document are
    exactly one for each result, in the order of the results, the
    [i]-th (from 0) with the text ["{i+1}. {title}"] and the target page
    [i + 3]. *)
Theorem X10_one_link_per_result_to_page_i_plus_3
  (pageWidth pageHeight : Q) (splitTextToSize : Q -> string -> Q -> list string)
  (getTextWidth : string -> Q) (toUpperCase : string -> string) (currentDate : string)
  (topic : string) (results : list SearchResult) :
  let d := GeneratePdf.layout pageWidth pageHeight splitTextToSize getTextWidth
             toUpperCase currentDate topic results in
  List.length (Pdf.links d) = List.length results /\
  forall i r, nth_error results i = Some r ->
    nth_error (Pdf.links d) i = Some (JS.ofNat (i + 1) ++ ". " ++ title r, i + 3).
Proof.
  intros d. unfold d. rewrite LinkFacts.links_layout.
  split; [apply LinkFacts.expectedLinks_length|].
  intros i r H. exact (OutlineMore.expectedLinks_nth results 0 i r H).
Qed.

(** ** When everything fits *)

Module FitFacts.

Import Pdf PdfFacts GeneratePdf Outline OutlineFacts.
Local Open Scope Q_scope.

Lemma lineCount_cons (x : string) (lines : list string) :
  lineCount (x :: lines) == lineCount lines + 1.
Proof.
  unfold lineCount. cbn [List.length]. rewrite Nat2Z.inj_succ.
  unfold Z.succ. rewrite inject_Z_plus. reflexivity.
Qed.

Lemma lineCount_nonneg (lines : list string) : 0 <= lineCount lines.
Proof.
  unfold lineCount. change 0 with (inject_Z 0). rewrite <- Zle_Qle. lia.
Qed.

Lemma count_succ (n : nat) : inject_Z (Z.of_nat (S n)) == inject_Z (Z.of_nat n) + 1.
Proof. rewrite Nat2Z.inj_succ. unfold Z.succ. rewrite inject_Z_plus. reflexivity. Qed.

Lemma count_nonneg (n : nat) : 0 <= inject_Z (Z.of_nat n).
Proof. change 0 with (inject_Z 0). rewrite <- Zle_Qle. lia. Qed.

Section Handler.

Variables pageWidth pageHeight : Q.
Variable splitTextToSize : Q -> string -> Q -> list string.
Variable getTextWidth : string -> Q.
Variable toUpperCase : string -> string.
Variable currentDate : string.

Local Abbreviation checkAndAddPage := (checkAndAddPage pageHeight).
Local Abbreviation lineAtCursor := (lineAtCursor pageHeight).
Local Abbreviation tocEntry := (tocEntry pageHeight).
Local Abbreviation tableOfContents := (tableOfContents pageHeight).
Local Abbreviation section := (section pageWidth pageHeight splitTextToSize).
Local Abbreviation cover :=
  (cover pageWidth pageHeight splitTextToSize getTextWidth toUpperCase currentDate).
Local Abbreviation Writing := (Writing pageHeight).
Local Abbreviation sectionFits := (sectionFits pageWidth pageHeight splitTextToSize).
Local Abbreviation tocFits := (tocFits pageHeight).
Local Abbreviation sectionStartsFrom :=
  (sectionStartsFrom pageWidth pageHeight splitTextToSize).

(** With room below the cursor the check does nothing. *)
Lemma check_fits (r : Q) (st : Layout) :
  yPosition st + r <= pageHeight - margin -> checkAndAddPage r st = (false, st).
Proof.
  intros H. unfold GeneratePdf.checkAndAddPage, gtb.
  apply Qle_bool_iff in H. now rewrite H.
Qed.

(** Lines that fit are written on the page there is. *)
Lemma lines_fit (r step : Q) (lines : list string) (st : Layout) :
  0 <= step ->
  yPosition st + step * lineCount lines + r <= pageHeight - margin + step ->
  let st' := JS.forEach (fun line (_ : nat) => lineAtCursor r step line) lines st in
  List.length (pages st') = List.length (pages st) /\
  yPosition st' == yPosition st + step * lineCount lines.
Proof.
  intros Hs. unfold JS.forEach. generalize 0%nat. cbv zeta.
  revert st; induction lines as [|x lines IH]; intros st i H; cbn [JS.forEachFrom].
  - split; [reflexivity|]. unfold lineCount. cbn. ring.
  - pose proof (lineCount_cons x lines) as E.
    pose proof (lineCount_nonneg lines) as N.
    assert (P : 0 <= step * lineCount lines) by (apply Qmult_le_0_compat; assumption).
    assert (Est : lineAtCursor r step x st
                  = setY (yPosition st + step)
                         (draw (Text x margin (yPosition st) AlignLeft) st)).
    { unfold GeneratePdf.lineAtCursor.
      rewrite check_fits by (rewrite E in H; lra). reflexivity. }
    rewrite Est. set (st1 := setY _ _).
    assert (Y1 : yPosition st1 = yPosition st + step) by reflexivity.
    assert (L1 : List.length (pages st1) = List.length (pages st))
      by apply LayoutFacts.draw_length.
    clearbody st1.
    destruct (IH st1 (S i)) as [L2 Y2].
    + rewrite Y1. rewrite E in H. lra.
    + split; [now rewrite L2|].
      rewrite Y2, Y1, E. ring.
Qed.

Lemma entries_fit (results : list SearchResult) (i : nat) (st : Layout) :
  yPosition st + 7 * inject_Z (Z.of_nat (List.length results)) + 10
    <= pageHeight - margin + 7 ->
  let st' := JS.forEachFrom tocEntry results i st in
  List.length (pages st') = List.length (pages st).
Proof.
  cbv zeta.
  revert i st; induction results as [|r results IH]; intros i st H; cbn [JS.forEachFrom].
  - reflexivity.
  - cbn [List.length] in H. pose proof (count_succ (List.length results)) as E.
    pose proof (count_nonneg (List.length results)) as N.
    assert (Est : tocEntry r i st
                  = setY (yPosition st + 7)
                         (draw (TextWithLink (JS.ofNat (i + 1) ++ ". " ++ title r)
                                  (margin + 5) (yPosition st) (i + 3)) st)).
    { unfold GeneratePdf.tocEntry.
      rewrite check_fits by (rewrite E in H; lra). reflexivity. }
    rewrite Est. set (st1 := setY _ _).
    assert (Y1 : yPosition st1 = yPosition st + 7) by reflexivity.
    assert (L1 : List.length (pages st1) = List.length (pages st))
      by apply LayoutFacts.draw_length.
    clearbody st1. rewrite <- L1. apply IH.
    rewrite Y1. rewrite E in H. lra.
Qed.

(** A section that fits adds exactly one page. *)
Lemma section_fits (result : SearchResult) (index : nat) (st : Layout) :
  sectionFits result ->
  List.length (pages (section result index st)) = S (List.length (pages st)).
Proof.
  unfold Outline.sectionFits. intros F. unfold GeneratePdf.section.
  set (t := wrapText splitTextToSize (title result) (contentWidth pageWidth) 20) in *.
  set (c := wrapText splitTextToSize (content result) (contentWidth pageWidth) 11) in *.
  pose proof (lineCount_nonneg t) as Nt. pose proof (lineCount_nonneg c) as Nc.
  set (st2 := setY _ (draw _ (setY margin (addPage st)))).
  assert (Y2 : yPosition st2 = margin + 10) by reflexivity.
  assert (L2 : List.length (pages st2) = S (List.length (pages st))).
  { unfold st2. cbn [setY pages]. rewrite LayoutFacts.draw_length. cbn [setY pages].
    apply LayoutFacts.addPage_length. }
  clearbody st2.
  destruct (lines_fit 12 10 t st2 ltac:(lra)) as [L3 Y3].
  { rewrite Y2. unfold margin in *. lra. }
  set (st3 := JS.forEach _ t st2) in *. clearbody st3.
  set (st4 := setY (yPosition st3 + 5) st3).
  assert (Y4 : yPosition st4 == margin + 15 + 10 * lineCount t)
    by (unfold st4; cbn [setY yPosition]; rewrite Y3, Y2; ring).
  assert (L4 : List.length (pages st4) = S (List.length (pages st)))
    by (unfold st4; cbn [setY pages]; congruence).
  clearbody st4.
  destruct (lines_fit 8 6 c st4 ltac:(lra)) as [L5 Y5].
  { rewrite Y4. unfold margin in *. lra. }
  set (st5 := JS.forEach _ c st4) in *. clearbody st5.
  set (st6 := setY (yPosition st5 + 10) st5).
  assert (Y6 : yPosition st6 == margin + 25 + 10 * lineCount t + 6 * lineCount c)
    by (unfold st6; cbn [setY yPosition]; rewrite Y5, Y4; ring).
  assert (L6 : List.length (pages st6) = S (List.length (pages st)))
    by (unfold st6; cbn [setY pages]; congruence).
  clearbody st6.
  rewrite check_fits by (rewrite Y6; unfold margin in *; lra). cbn [snd].
  rewrite LayoutFacts.draw_length. cbn [setY pages].
  rewrite LayoutFacts.draw_length. exact L6.
Qed.

Lemma sections_fit (results : list SearchResult) (i : nat) (st : Layout) :
  Forall sectionFits results ->
  List.length (pages (JS.forEachFrom section results i st))
  = (List.length results + List.length (pages st))%nat /\
  sectionStartsFrom results i st = seq (S (List.length (pages st))) (List.length results).
Proof.
  intros F. revert i st; induction F as [|r results Hr F IH]; intros i st.
  - split; reflexivity.
  - cbn [JS.forEachFrom Outline.sectionStartsFrom List.length seq].
    destruct (IH (S i) (section r i st)) as [L S'].
    rewrite L, S', !section_fits by exact Hr. split; [lia|reflexivity].
Qed.

(** A table of contents that fits stays on page 2. *)
Lemma toc_fits (results : list SearchResult) (st : Layout) (p : Page) :
  pages st = [p] -> tocFits (List.length results) ->
  List.length (pages (tableOfContents results st)) = 2%nat.
Proof.
  intros Hp F. unfold GeneratePdf.tableOfContents, JS.forEach.
  rewrite entries_fit.
  - cbn [setY pages]. rewrite LayoutFacts.draw_length. cbn [setY pages].
    rewrite LayoutFacts.addPage_length, Hp. reflexivity.
  - cbn [setY draw yPosition]. unfold Outline.tocFits, margin in *. lra.
Qed.

End Handler.

End FitFacts.

(** X11.  When the table of contents fits its page and every section
    fits one page (in terms of the lines the text measurement returns),
    the document has exactly [M + 2] pages and section [i] starts on
    page [i + 3], which is the page its link names: page [i + 3] begins
    with the label of section [i]. *)
Theorem X11_links_are_right_when_nothing_overflows
  (pageWidth pageHeight : Q) (splitTextToSize : Q -> string -> Q -> list string)
  (getTextWidth : string -> Q) (toUpperCase : string -> string) (currentDate : string)
  (topic : string) (results : list SearchResult) :
  Outline.tocFits pageHeight (List.length results) ->
  Forall (Outline.sectionFits pageWidth pageHeight splitTextToSize) results ->
  let d := GeneratePdf.layout pageWidth pageHeight splitTextToSize getTextWidth
             toUpperCase currentDate topic results in
  List.length (pages d) = List.length results + 2 /\
  Outline.sectionStarts pageWidth pageHeight splitTextToSize getTextWidth
    toUpperCase currentDate topic results = seq 3 (List.length results) /\
  forall i r, nth_error results i = Some r ->
    nth_error (Pdf.links d) i = Some (JS.ofNat (i + 1) ++ ". " ++ title r, i + 3) /\
    Outline.beginsWith
      (Text ("SECTION " ++ JS.ofNat (i + 1)) GeneratePdf.margin GeneratePdf.margin AlignLeft)
      (i + 3) d.
Proof.
  intros Ft Fs d.
  destruct (LayoutFacts.cover_OnCover pageWidth pageHeight splitTextToSize getTextWidth
              toUpperCase currentDate topic) as (Hc & c & Hp & Hf).
  pose proof (FitFacts.toc_fits pageHeight results _ c Hp Ft) as L2.
  destruct (LayoutFacts.tableOfContents_onward pageHeight c results _
              (conj Hc (ex_intro _ c (conj Hp Hf))) Hp) as [W _].
  set (st := GeneratePdf.tableOfContents pageHeight results _) in *.
  destruct (FitFacts.sections_fit pageWidth pageHeight splitTextToSize results 0 st Fs)
    as [Ls Ss].
  rewrite L2 in Ls, Ss.
  assert (Ld : List.length (pages d) = List.length results + 2)
    by (unfold d, GeneratePdf.layout;
        rewrite (proj1 (LayoutFacts.footers_pages pageWidth pageHeight topic _));
        exact Ls).
  split; [exact Ld|]. split; [exact Ss|].
  intros i r Hr. split.
  - unfold d. rewrite LinkFacts.links_layout.
    exact (OutlineMore.expectedLinks_nth results 0 i r Hr).
  - assert (He : Outline.Extends
                   (JS.forEachFrom (GeneratePdf.section pageWidth pageHeight splitTextToSize)
                      results 0 st) d) by apply OutlineFacts.Extends_footers.
    destruct (OutlineFacts.sectionStarts_spec pageWidth pageHeight splitTextToSize
                c results 0 st d W He) as (_ & Hk & _).
    rewrite Ss in Hk.
    assert (Hi : i < List.length results) by (apply nth_error_Some; congruence).
    destruct (Hk i (3 + i)) as [_ Hb].
    { rewrite nth_error_nth' with (d := 0) by (rewrite length_seq; exact Hi).
      now rewrite seq_nth. }
    replace (i + 3) with (3 + i) by lia. exact Hb.
Qed.

Lemma X11_witness :
  Outline.tocFits Sample.pageHeight (List.length (Sample.shortResults 2)) /\
  Forall (Outline.sectionFits Sample.pageWidth Sample.pageHeight Sample.splitTextToSize)
         (Sample.shortResults 2) /\
  List.length (pages (Sample.layout "T" (Sample.shortResults 2)))
  = List.length (Sample.shortResults 2) + 2.
Proof.
  assert (Ht : Outline.tocFits Sample.pageHeight (List.length (Sample.shortResults 2)))
    by (vm_compute; intro H; discriminate H).
  assert (Hs : Forall (Outline.sectionFits Sample.pageWidth Sample.pageHeight
                         Sample.splitTextToSize) (Sample.shortResults 2))
    by (repeat constructor; vm_compute; intro H; discriminate H).
  split; [exact Ht|]. split; [exact Hs|].
  exact (proj1 (X11_links_are_right_when_nothing_overflows
                  Sample.pageWidth Sample.pageHeight Sample.splitTextToSize
                  Sample.getTextWidth Sample.toUpperCase Sample.currentDate
                  "T" (Sample.shortResults 2) Ht Hs)).
Defined.

(** ** Every page is drawn on *)

Module DrawnFacts.

Import Pdf PdfFacts GeneratePdf Outline.
Local Open Scope Q_scope.

Lemma DrawnOn_draw (op : DrawOp) (st : Layout) : DrawnOn st -> DrawnOn (draw op st).
Proof.
  intros H k p Hp. unfold draw in Hp. cbn [pages] in Hp. rewrite onPage_nth in Hp.
  destruct (k =? current st - 1)%nat; [|eauto].
  destruct (nth_error (pages st) k) as [p0|]; [|discriminate].
  apply SynthMore.Some_eq in Hp. subst p. now destruct p0.
Qed.

Lemma DrawnOn_setY (y : Q) (st : Layout) : DrawnOn st -> DrawnOn (setY y st).
Proof. intros H. exact H. Qed.

(** A page just added is drawn on at once. *)
Lemma DrawnOn_fresh (op : DrawOp) (y : Q) (st : Layout) :
  DrawnOn st -> DrawnOn (draw op (setY y (addPage st))).
Proof.
  intros H k p Hp. unfold draw, setY, addPage in Hp. cbn [pages current] in Hp.
  rewrite onPage_nth in Hp.
  replace (List.length (pages st) + 1 - 1)%nat with (List.length (pages st)) in Hp by lia.
  destruct (Nat.eqb_spec k (List.length (pages st))) as [->|Hne].
  - rewrite nth_error_app2, Nat.sub_diag in Hp by lia. cbn in Hp.
    apply SynthMore.Some_eq in Hp. now subst p.
  - destruct (Nat.lt_ge_cases k (List.length (pages st))) as [Hlt|Hge].
    + rewrite nth_error_app1 in Hp by exact Hlt. eauto.
    + rewrite nth_error_app2 in Hp by exact Hge.
      destruct (k - List.length (pages st))%nat as [|[|j]] eqn:E; try discriminate. lia.
Qed.

Lemma DrawnOn_forEach {A} (f : A -> nat -> Layout -> Layout) (xs : list A) (i : nat)
      (st : Layout) :
  (forall x k s, DrawnOn s -> DrawnOn (f x k s)) ->
  DrawnOn st -> DrawnOn (JS.forEachFrom f xs i st).
Proof. intros Hf. now apply forEachFrom_inv. Qed.

Section Handler.

Variables pageWidth pageHeight : Q.
Variable splitTextToSize : Q -> string -> Q -> list string.
Variable getTextWidth : string -> Q.
Variable toUpperCase : string -> string.
Variable currentDate : string.

Local Abbreviation checkAndAddPage := (checkAndAddPage pageHeight).
Local Abbreviation lineAtCursor := (lineAtCursor pageHeight).
Local Abbreviation tocEntry := (tocEntry pageHeight).
Local Abbreviation tableOfContents := (tableOfContents pageHeight).
Local Abbreviation section := (section pageWidth pageHeight splitTextToSize).
Local Abbreviation cover :=
  (cover pageWidth pageHeight splitTextToSize getTextWidth toUpperCase currentDate).
Local Abbreviation body :=
  (body pageWidth pageHeight splitTextToSize getTextWidth toUpperCase currentDate).

(** Whatever the check does, the drawing that follows it leaves no
    page without a drawing call. *)
Lemma DrawnOn_checked (f : Layout -> DrawOp) (r : Q) (st : Layout) :
  DrawnOn st ->
  DrawnOn (draw (f (snd (checkAndAddPage r st))) (snd (checkAndAddPage r st))).
Proof.
  intros H. unfold GeneratePdf.checkAndAddPage. destruct (gtb _ _); cbn [snd].
  - now apply DrawnOn_fresh.
  - now apply DrawnOn_draw.
Qed.

Lemma DrawnOn_lineAtCursor (r step : Q) (line : string) (st : Layout) :
  DrawnOn st -> DrawnOn (lineAtCursor r step line st).
Proof.
  intros H. unfold GeneratePdf.lineAtCursor. apply DrawnOn_setY.
  exact (DrawnOn_checked (fun s => Text line margin (yPosition s) AlignLeft) r st H).
Qed.

Lemma DrawnOn_tocEntry (result : SearchResult) (index : nat) (st : Layout) :
  DrawnOn st -> DrawnOn (tocEntry result index st).
Proof.
  intros H. unfold GeneratePdf.tocEntry. apply DrawnOn_setY.
  exact (DrawnOn_checked
           (fun s => TextWithLink (JS.ofNat (index + 1) ++ ". " ++ title result)
                       (margin + 5) (yPosition s) (index + 3)) 10 st H).
Qed.

Lemma DrawnOn_section (result : SearchResult) (index : nat) (st : Layout) :
  DrawnOn st -> DrawnOn (section result index st).
Proof.
  intros H. unfold GeneratePdf.section.
  apply DrawnOn_draw, DrawnOn_setY.
  apply (DrawnOn_checked (fun s => Text ("Source: " ++ source result) margin
                                      (yPosition s) AlignLeft)).
  apply DrawnOn_setY.
  apply DrawnOn_forEach; [intros; now apply DrawnOn_lineAtCursor|].
  apply DrawnOn_setY.
  apply DrawnOn_forEach; [intros; now apply DrawnOn_lineAtCursor|].
  apply DrawnOn_setY.
  exact (DrawnOn_fresh _ margin st H).
Qed.

Lemma DrawnOn_cover (topic : string) : DrawnOn (cover topic (blank margin)).
Proof.
  unfold GeneratePdf.cover. apply DrawnOn_draw, DrawnOn_draw.
  unfold JS.forEach.
  apply (forEachFrom_inv (fun s : Layout * Q => DrawnOn (fst s))).
  - intros line k [st y] H. cbn [fst] in *. now apply DrawnOn_draw.
  - cbn [fst]. intros k p Hp. destruct k as [|[|k]]; cbn in Hp; try discriminate.
    apply SynthMore.Some_eq in Hp. now subst p.
Qed.

Lemma DrawnOn_body (topic : string) (results : list SearchResult) :
  DrawnOn (body topic results).
Proof.
  unfold GeneratePdf.body, JS.forEach.
  apply DrawnOn_forEach; [intros; now apply DrawnOn_section|].
  unfold GeneratePdf.tableOfContents, JS.forEach.
  apply DrawnOn_forEach; [intros; now apply DrawnOn_tocEntry|].
  apply DrawnOn_setY.
  exact (DrawnOn_fresh _ margin _ (DrawnOn_cover topic)).
Qed.

End Handler.

End DrawnFacts.

(** X12.  Every page the handler adds, for the table of contents, for
    a section or at a page break, receives a drawing call before the
    next page is added: before the footer pass no page of the document
    has an empty list of drawing calls, and the footer pass, which adds
    no page, only appends to each list.  (A drawing call may write an
    empty line; the statement is about calls, not about ink.) *)
Theorem X12_every_page_receives_a_drawing_call
  (pageWidth pageHeight : Q) (splitTextToSize : Q -> string -> Q -> list string)
  (getTextWidth : string -> Q) (toUpperCase : string -> string) (currentDate : string)
  (topic : string) (results : list SearchResult) :
  let b := GeneratePdf.body pageWidth pageHeight splitTextToSize getTextWidth
             toUpperCase currentDate topic results in
  let d := GeneratePdf.layout pageWidth pageHeight splitTextToSize getTextWidth
             toUpperCase currentDate topic results in
  List.length (pages d) = List.length (pages b) /\
  forall k, k < List.length (pages d) ->
    exists op rest more,
      nth_error (pages b) k = Some (op :: rest) /\
      nth_error (pages d) k = Some (op :: rest ++ more)%list.
Proof.
  intros b d.
  pose proof (DrawnFacts.DrawnOn_body pageWidth pageHeight splitTextToSize getTextWidth
                toUpperCase currentDate topic results) as NB. fold b in NB.
  assert (L : List.length (pages d) = List.length (pages b))
    by apply (proj1 (LayoutFacts.footers_pages pageWidth pageHeight topic b)).
  split; [exact L|]. intros k Hk.
  destruct (nth_error (pages b) k) as [p|] eqn:E;
    [|apply nth_error_None in E; lia].
  pose proof (NB _ _ E) as Hne. destruct p as [|op rest]; [congruence|].
  destruct (OutlineFacts.Extends_footers pageWidth pageHeight topic b _ _ E) as (q & Hq).
  exists op, rest, q. split; [reflexivity|exact Hq].
Qed.

(** ** From the handler's frames to the page *)

Module ReaderFacts.

Import Wire Reader Markup.

Lemma split_plain (a : string) : occurs lineFeed a = false -> split lineFeed a = [a].
Proof.
  induction a as [|c a IH]; simpl; [reflexivity|].
  intros H. apply orb_false_iff in H as [Hc Ha]. now rewrite Hc, IH.
Qed.

Lemma split_at (a rest : string) :
  occurs lineFeed a = false ->
  split lineFeed (a ++ String lineFeed rest) = a :: split lineFeed rest.
Proof.
  induction a as [|c a IH]; intros H.
  - cbn [append split]. now rewrite Ascii.eqb_refl.
  - simpl in H. apply orb_false_iff in H as [Hc Ha].
    change (String c a ++ String lineFeed rest) with (String c (a ++ String lineFeed rest)).
    cbn [split]. now rewrite Hc, IH.
Qed.

Lemma occurs_append (c : ascii) (a b : string) :
  occurs c (a ++ b) = occurs c a || occurs c b.
Proof. induction a as [|d a IH]; simpl; [reflexivity|]. now rewrite IH, orb_assoc. Qed.

Lemma readLine_blank (parse : string -> option json) (v : View) :
  readLine parse EmptyString v = v.
Proof. reflexivity. Qed.

Lemma readLine_frame (stringify : json -> string) (parse : string -> option json)
      (f : Frame) (v : View) :
  parse (stringify (payload f)) = Some (payload f) ->
  readLine parse ("data: " ++ stringify (payload f)) v = deliver v f.
Proof.
  intros H. unfold readLine.
  rewrite SynthMore.prefix_append.
  change (Html.drop 6 ("data: " ++ stringify (payload f))) with (stringify (payload f)).
  rewrite H. destruct f; reflexivity.
Qed.

(** Reading the text of whole frames delivers them one by one. *)
Lemma readChunk_frames (stringify : json -> string) (parse : string -> option json)
      (fs : list Frame) (v : View) :
  Forall (readsBack stringify parse) fs ->
  readChunk parse v (framesText stringify fs) = fold_left deliver fs v.
Proof.
  unfold readChunk. intros H. revert v; induction H as [|f fs [Hp Hn] _ IH]; intros v.
  - reflexivity.
  - cbn [framesText fold_left]. unfold frameText.
    rewrite !CaptureFacts.append_assoc.
    rewrite <- (CaptureFacts.append_assoc "data: " (stringify (payload f))).
    change (String lineFeed (String lineFeed EmptyString) ++ framesText stringify fs)
      with (String lineFeed (String lineFeed (framesText stringify fs))).
    rewrite split_at by (rewrite occurs_append, Hn; reflexivity).
    change (String lineFeed (framesText stringify fs))
      with (EmptyString ++ String lineFeed (framesText stringify fs)).
    rewrite split_at by reflexivity.
    cbn [fold_left]. rewrite (readLine_frame stringify parse f v Hp), readLine_blank.
    apply IH.
Qed.

Lemma readChunks_groups (stringify : json -> string) (parse : string -> option json)
      (groups : list (list Frame)) (v : View) :
  Forall (readsBack stringify parse) (concat groups) ->
  fold_left (readChunk parse) (map (framesText stringify) groups) v
  = fold_left deliver (concat groups) v.
Proof.
  revert v; induction groups as [|g groups IH]; intros v H; [reflexivity|].
  cbn [concat map fold_left] in *. apply Forall_app in H as [Hg Hr].
  rewrite fold_left_app, (readChunk_frames _ _ _ _ Hg). now apply IH.
Qed.

(** What delivering frames adds to the results. *)
Lemma deliver_results (fs : list Frame) (v : View) :
  searchResults (fold_left deliver fs v)
  = (searchResults v ++ map (fun r => Some (resultJson r)) (DeepSearch.results fs))%list.
Proof.
  revert v; induction fs as [|f fs IH]; intros v; cbn [fold_left DeepSearch.results].
  - now rewrite app_nil_r.
  - rewrite IH. destruct f; cbn [deliver searchResults map]; [reflexivity| |reflexivity].
    now rewrite <- app_assoc.
Qed.

Lemma trim_topic (topic : string) :
  JS.trim topic <> EmptyString -> String.eqb (JS.trim topic) "" = false.
Proof. intros H. now apply String.eqb_neq. Qed.

End ReaderFacts.

(** X13.  End to end: when the consumer stays and the chunks the page
    reads are the handler's frames, each chunk holding whole frames
    that [JSON.parse] reads back, [handleDeepSearch] ends with the eight
    result objects in catalog order, the message
    ["Deep search complete!"], and [isSearching] off. *)
Theorem X13_page_ends_with_the_eight_results
  (stringify : json -> string) (parse : string -> option json)
  (w : World) (topic : string) (groups : list (list Frame)) (v0 : View) :
  JS.trim topic <> EmptyString ->
  (forall k, readable w k = true) ->
  concat groups = DeepSearch.frames (DeepSearch.start w (Some (JStr topic))) ->
  Forall (Reader.readsBack stringify parse) (concat groups) ->
  Reader.handleDeepSearch parse topic
    (Body (map (Wire.framesText stringify) groups) false) v0
  = mkView (Some (JStr "Deep search complete!")) false
           (map (fun q => Some (Wire.resultJson (DeepSearch.resultOf topic q)))
                (searchQueries topic)).
Proof.
  intros Ht Hw Hg Hr. unfold Reader.handleDeepSearch.
  rewrite (ReaderFacts.trim_topic _ Ht).
  rewrite ReaderFacts.readChunks_groups by exact Hr.
  rewrite Hg, (StreamFacts.start_stays w (Some (JStr topic)) topic eq_refl Hw),
    StreamFacts.frames_script.
  reflexivity.
Qed.

Lemma X13_witness :
  let known := map Wire.payload (DeepSearch.allFrames "AI") in
  let groups := [firstn 3 (DeepSearch.allFrames "AI"); skipn 3 (DeepSearch.allFrames "AI")] in
  JS.trim "AI" <> EmptyString /\
  Forall (Reader.readsBack SampleCodec.stringify (SampleCodec.parse known)) (concat groups) /\
  searchResults
    (Reader.handleDeepSearch (SampleCodec.parse known) "AI"
       (Body (map (Wire.framesText SampleCodec.stringify) groups) false)
       (mkView None false []))
  = map (fun q => Some (Wire.resultJson (DeepSearch.resultOf "AI" q))) (searchQueries "AI").
Proof.
  intros known groups.
  assert (Ht : JS.trim "AI" <> EmptyString) by discriminate.
  assert (Hr : Forall (Reader.readsBack SampleCodec.stringify (SampleCodec.parse known))
                      (concat groups))
    by (repeat (constructor; [split; vm_compute; reflexivity|]); constructor).
  split; [exact Ht|]. split; [exact Hr|].
  exact (f_equal searchResults
           (X13_page_ends_with_the_eight_results SampleCodec.stringify
              (SampleCodec.parse known) (Sample.world Sample.down Sample.stays) "AI"
              groups (mkView None false []) Ht (fun _ => eq_refl) eq_refl Hr)).
Defined.

(** X14.  When the stream breaks after the page has read some of the
    frames, the first [j] of them in whole-frame chunks, the page keeps
    the results among them, in order, shows
    ["Search failed. Please try again."] and stops searching. *)
Theorem X14_broken_stream_keeps_the_results_read
  (stringify : json -> string) (parse : string -> option json)
  (topic : string) (j : nat) (groups : list (list Frame)) (v0 : View) :
  JS.trim topic <> EmptyString ->
  j <= 17 ->
  concat groups = firstn j (DeepSearch.allFrames topic) ->
  Forall (Reader.readsBack stringify parse) (concat groups) ->
  Reader.handleDeepSearch parse topic
    (Body (map (Wire.framesText stringify) groups) true) v0
  = mkView (Some (JStr "Search failed. Please try again.")) false
           (map (fun r => Some (Wire.resultJson r))
                (firstn (Nat.div2 j) (map (DeepSearch.resultOf topic) (searchQueries topic)))).
Proof.
  intros Ht Hj Hg Hr. unfold Reader.handleDeepSearch.
  rewrite (ReaderFacts.trim_topic _ Ht).
  rewrite ReaderFacts.readChunks_groups by exact Hr.
  unfold Reader.failed. rewrite ReaderFacts.deliver_results, Hg. cbn [searchResults app].
  do 3 f_equal.
  do 18 (destruct j as [|j]; [reflexivity|]). lia.
Qed.

Lemma X14_witness :
  let known := map Wire.payload (DeepSearch.allFrames "AI") in
  let groups := [firstn 5 (DeepSearch.allFrames "AI")] in
  JS.trim "AI" <> EmptyString /\
  concat groups = firstn 5 (DeepSearch.allFrames "AI") /\
  Forall (Reader.readsBack SampleCodec.stringify (SampleCodec.parse known)) (concat groups) /\
  Reader.handleDeepSearch (SampleCodec.parse known) "AI"
    (Body (map (Wire.framesText SampleCodec.stringify) groups) true) (mkView None false [])
  = mkView (Some (JStr "Search failed. Please try again.")) false
           (map (fun r => Some (Wire.resultJson r))
                (firstn 2 (map (DeepSearch.resultOf "AI") (searchQueries "AI")))).
Proof.
  intros known groups.
  assert (Ht : JS.trim "AI" <> EmptyString) by discriminate.
  assert (Hr : Forall (Reader.readsBack SampleCodec.stringify (SampleCodec.parse known))
                      (concat groups))
    by (repeat (constructor; [split; vm_compute; reflexivity|]); constructor).
  split; [exact Ht|]. split; [reflexivity|]. split; [exact Hr|].
  exact (X14_broken_stream_keeps_the_results_read SampleCodec.stringify
           (SampleCodec.parse known) "AI" 5 groups (mkView None false []) Ht
           ltac:(lia) eq_refl Hr).
Defined.

Module SearchingFacts.

Import Reader.

Lemma readLine_searching (parse : string -> option json) (line : string) (v : View) :
  isCompleteLine parse line = false ->
  isSearching (readLine parse line v) = isSearching v.
Proof.
  unfold isCompleteLine, readLine.
  destruct (String.prefix "data: " line); [|reflexivity]. cbn [andb].
  destruct (parse (Html.drop 6 line)) as [[| | | | |fields]|]; try reflexivity.
  destruct (Json.field "type" fields) as [[| | |ty| |]|]; try reflexivity.
  intros H. rewrite H.
  destruct (String.eqb ty "progress"); [reflexivity|].
  destruct (String.eqb ty "result"); reflexivity.
Qed.

Lemma readLines_searching (parse : string -> option json) (lines : list string) (v : View) :
  Forall (fun line => isCompleteLine parse line = false) lines ->
  isSearching (fold_left (fun v line => readLine parse line v) lines v) = isSearching v.
Proof.
  intros H. revert v; induction H as [|l lines Hl _ IH]; intros v; [reflexivity|].
  cbn [fold_left]. rewrite IH. now apply readLine_searching.
Qed.

Lemma readChunks_searching (parse : string -> option json) (chunks : list string) (v : View) :
  Forall (fun chunk =>
            Forall (fun line => isCompleteLine parse line = false)
                   (split Wire.lineFeed chunk)) chunks ->
  isSearching (fold_left (readChunk parse) chunks v) = isSearching v.
Proof.
  intros H. revert v; induction H as [|c chunks Hc _ IH]; intros v; [reflexivity|].
  cbn [fold_left]. rewrite IH. now apply readLines_searching.
Qed.

End SearchingFacts.

(** X15.  Only a complete frame or a failure ends the search on the
    page: if the stream ends in good order but none of the lines read
    carries a payload of type [complete] (or the response has no body
    at all), [isSearching] is still on when [handleDeepSearch]
    returns. *)
Theorem X15_without_complete_frame_the_page_keeps_searching
  (parse : string -> option json) (topic : string) (chunks : list string) (v0 : View) :
  JS.trim topic <> EmptyString ->
  Forall (fun chunk =>
            Forall (fun line => Reader.isCompleteLine parse line = false)
                   (Reader.split Wire.lineFeed chunk)) chunks ->
  isSearching (Reader.handleDeepSearch parse topic (Body chunks false) v0) = true /\
  isSearching (Reader.handleDeepSearch parse topic NoBody v0) = true.
Proof.
  intros Ht H. unfold Reader.handleDeepSearch.
  rewrite (ReaderFacts.trim_topic _ Ht).
  split; [|reflexivity]. now rewrite SearchingFacts.readChunks_searching.
Qed.

Lemma X15_witness :
  let known := map Wire.payload (DeepSearch.allFrames "AI") in
  let chunks := map (Wire.frameText SampleCodec.stringify)
                    (firstn 4 (DeepSearch.allFrames "AI")) in
  JS.trim "AI" <> EmptyString /\
  isSearching (Reader.handleDeepSearch (SampleCodec.parse known) "AI" (Body chunks false)
                 (mkView None false [])) = true.
Proof.
  intros known chunks.
  assert (Ht : JS.trim "AI" <> EmptyString) by discriminate.
  split; [exact Ht|].
  refine (proj1 (X15_without_complete_frame_the_page_keeps_searching
                   (SampleCodec.parse known) "AI" chunks (mkView None false []) Ht _)).
  repeat (constructor; [repeat (constructor; [vm_compute; reflexivity|]); constructor|]).
  constructor.
Defined.

(** X16.  [fetchSearchResults] returns entries only from a response
    that was fetched, was OK, could be read and held a title match:
    when the URI encoder throws, the network call rejects, the status
    is not OK or the body cannot be read, the result is the empty
    array.  The entries returned are as many as the title matches, up
    to three. *)
Theorem X16_entries_only_from_a_good_response
  (w : World) (k : nat) (q : string) (hits : list Hit) :
  DeepSearch.fetchSearchResults w k q = Ok hits ->
  hits <> [] ->
  exists q' response html,
    encodeURIComponent w q = Ok q' /\
    fetch w k (DeepSearch.searchUrl q') = Ok response /\
    ok response = true /\
    text response = Ok html /\
    List.length hits = Nat.min (List.length (Html.anchors "result__a" html)) 3.
Proof.
  unfold DeepSearch.fetchSearchResults, DeepSearch.searchAttempt, bindO.
  cbv zeta.
  destruct (encodeURIComponent w q) as [q'|] eqn:Eq;
    [|intros H; apply SynthMore.Ok_eq in H; congruence].
  destruct (fetch w k (DeepSearch.searchUrl q')) as [response|] eqn:Ef;
    [|intros H; apply SynthMore.Ok_eq in H; congruence].
  destruct (ok response) eqn:Eok; [|intros H; apply SynthMore.Ok_eq in H; congruence].
  destruct (text response) as [html|] eqn:Et;
    [|intros H; apply SynthMore.Ok_eq in H; congruence].
  destruct (0 <? _)%nat; [|intros H; apply SynthMore.Ok_eq in H; congruence].
  intros H _. apply SynthMore.Ok_eq in H. subst hits.
  exists q', response, html. repeat split; auto.
  unfold DeepSearch.collect. now rewrite length_map, length_seq.
Qed.

Lemma X16_witness :
  let w := Sample.world (Sample.up 5) Sample.stays in
  DeepSearch.fetchSearchResults w 0 "q"
  = Ok [mkHit "A title" ""; mkHit "A title" ""; mkHit "A title" ""] /\
  exists q' response html,
    encodeURIComponent w "q" = Ok q' /\
    fetch w 0 (DeepSearch.searchUrl q') = Ok response /\
    ok response = true /\
    text response = Ok html /\
    List.length [mkHit "A title" ""; mkHit "A title" ""; mkHit "A title" ""]
    = Nat.min (List.length (Html.anchors "result__a" html)) 3.
Proof.
  intros w.
  assert (H : DeepSearch.fetchSearchResults w 0 "q"
              = Ok [mkHit "A title" ""; mkHit "A title" ""; mkHit "A title" ""])
    by (vm_compute; reflexivity).
  split; [exact H|].
  exact (X16_entries_only_from_a_good_response w 0 "q" _ H ltac:(discriminate)).
Defined.

(** X17.  A frame that reaches the page cut in two inside its payload
    is lost: if the first piece does not parse, and the second does not
    make a data line that parses, the two chunks leave the view as it
    was, where the whole frame would have been delivered. *)
Theorem X17_frame_cut_in_two_is_lost
  (parse : string -> option json) (s1 s2 : string) (v : View) :
  Markup.occurs Wire.lineFeed s1 = false ->
  Markup.occurs Wire.lineFeed s2 = false ->
  parse s1 = None ->
  (String.prefix "data: " s2 = false \/ parse (Html.drop 6 s2) = None) ->
  Reader.readChunk parse
    (Reader.readChunk parse v ("data: " ++ s1))
    (s2 ++ String Wire.lineFeed (String Wire.lineFeed EmptyString))
  = v.
Proof.
  intros H1 H2 Hp Hq. unfold Reader.readChunk.
  rewrite (ReaderFacts.split_plain ("data: " ++ s1))
    by (rewrite ReaderFacts.occurs_append, H1; reflexivity).
  rewrite (ReaderFacts.split_at s2) by exact H2.
  change (String Wire.lineFeed EmptyString)
    with (EmptyString ++ String Wire.lineFeed EmptyString).
  rewrite ReaderFacts.split_at by reflexivity.
  cbn [fold_left Reader.split].
  rewrite !ReaderFacts.readLine_blank.
  assert (E1 : Reader.readLine parse ("data: " ++ s1) v = v).
  { unfold Reader.readLine. rewrite SynthMore.prefix_append.
    change (Html.drop 6 ("data: " ++ s1)) with s1. now rewrite Hp. }
  rewrite E1. unfold Reader.readLine.
  destruct Hq as [Hq|Hq]; rewrite Hq; [reflexivity|].
  now destruct (String.prefix "data: " s2).
Qed.

Lemma X17_witness :
  let known := map Wire.payload (DeepSearch.allFrames "AI") in
  let s1 := "{" ++ Html.quote ++ "type" in
  let s2 := Html.quote ++ ":" ++ Html.quote ++ "complete" ++ Html.quote ++ "}" in
  SampleCodec.stringify (Wire.payload Complete) = s1 ++ s2 /\
  SampleCodec.parse known s1 = None /\
  Reader.readChunk (SampleCodec.parse known)
    (Reader.readChunk (SampleCodec.parse known) (mkView None true []) ("data: " ++ s1))
    (s2 ++ String Wire.lineFeed (String Wire.lineFeed EmptyString))
  = mkView None true [].
Proof.
  intros known s1 s2.
  assert (Hp : SampleCodec.parse known s1 = None) by (vm_compute; reflexivity).
  split; [reflexivity|]. split; [exact Hp|].
  exact (X17_frame_cut_in_two_is_lost (SampleCodec.parse known) s1 s2 (mkView None true [])
           eq_refl eq_refl Hp (or_introl eq_refl)).
Defined.

(** X18.  A report built from a full run: whatever the topic and the
    text measurement, the document laid out from the eight result
    blocks of an uninterrupted run has at least ten pages, and its table
    of contents lists the eight perspectives in catalog order, numbered
    from 1 and linked to pages 3 to 10. *)
Theorem X18_report_lists_the_eight_perspectives
  (pageWidth pageHeight : Q) (splitTextToSize : Q -> string -> Q -> list string)
  (getTextWidth : string -> Q) (toUpperCase : string -> string) (currentDate : string)
  (w : World) (topic : string) :
  (forall k, readable w k = true) ->
  let blocks := DeepSearch.results (DeepSearch.frames (DeepSearch.start w (Some (JStr topic)))) in
  let d := GeneratePdf.layout pageWidth pageHeight splitTextToSize getTextWidth
             toUpperCase currentDate topic blocks in
  10 <= List.length (pages d) /\
  Pdf.links d =
    [ ("1. Overview & Fundamentals", 3); ("2. Historical Context", 4);
      ("3. Current Trends", 5); ("4. Practical Applications", 6);
      ("5. Challenges & Considerations", 7); ("6. Future Outlook", 8);
      ("7. Best Practices", 9); ("8. Case Studies", 10) ].
Proof.
  intros Hw blocks d.
  assert (Hb : blocks = map (DeepSearch.resultOf topic) (searchQueries topic)).
  { unfold blocks.
    rewrite (StreamFacts.start_stays w (Some (JStr topic)) topic eq_refl Hw),
      StreamFacts.frames_script.
    apply StreamFacts.results_allFrames. }
  split.
  - destruct (LayoutFacts.body_onward pageWidth pageHeight splitTextToSize getTextWidth
                toUpperCase currentDate topic blocks) as (c & _ & _ & Hn).
    unfold d, GeneratePdf.layout.
    rewrite (proj1 (LayoutFacts.footers_pages pageWidth pageHeight topic _)).
    rewrite Hb in Hn at 1. cbn [List.length map searchQueries] in Hn. lia.
  - unfold d. rewrite LinkFacts.links_layout, Hb. reflexivity.
Qed.

Lemma X18_witness :
  let w := Sample.world Sample.down Sample.stays in
  (forall k, readable w k = true) /\
  10 <= List.length
          (pages (Sample.layout "AI"
                    (DeepSearch.results
                       (DeepSearch.frames (DeepSearch.start w (Some (JStr "AI"))))))).
Proof.
  split; [reflexivity|].
  exact (proj1 (X18_report_lists_the_eight_perspectives
                  Sample.pageWidth Sample.pageHeight Sample.splitTextToSize
                  Sample.getTextWidth Sample.toUpperCase Sample.currentDate
                  (Sample.world Sample.down Sample.stays) "AI" (fun _ => eq_refl))).
Defined.
